(** * NPI_Tool: the shared JSON store, its merge policy, the registry
      handlers and the report builders of [i.py], embedded in Rocq.

    Conventions of the embedding.
    - A Python [dict] read from JSON whose keys are fixed is a record.  A key
      the source reads by subscript ([slide['presentation_id']]) is a
      mandatory field; a key the source reads with [.get(key, default)] is an
      [option] field and the default is written out where it is read.
    - The [users] dictionary is a [gmap string User].
    - Python [str] is [string], one [ascii] per character (code points below
      256), so that [len] is [String.length] and [a > b] on strings, the
      lexicographic order on code points, is [String.ltb b a].
    - The empty string [''] is [EmptyString].
    - Python [int] is [Z].
    - [st.session_state.shared_data], the backing file and the clock are
      threaded explicitly through a [World]; a handler returns the notices
      it shows ([st.error], [st.success], ...) with the new world.  The
      pictographs that open some messages are left out of the strings.
    - A write of the backing file has three outcomes: it completes; [open]
      raises and the file is as it was; [open] succeeds and the dump raises,
      which leaves a text that [json.load] rejects.
    - Where the code of a tab can raise an exception that no [try] catches,
      the run of the tab returns the exception in place of its notices.
    - A backing file that parses holds a JSON object whose [users], [slides]
      and [activities], when present, have the shapes of the data model. *)

From Stdlib Require Import ZArith String Ascii.
From stdpp Require Import gmap strings list fin_maps pretty sorting.

Local Open Scope string_scope.
Local Open Scope list_scope.
Local Open Scope Z_scope.

(** ** Python primitives *)

Module Py.

(** [a > b] on [str]. *)
Definition str_gt (a b : string) : bool := String.ltb b a.

(** [d.get(key, dflt)] on an optional field. *)
Definition get {A} (field : option A) (dflt : A) : A := default dflt field.

(** [sum(...)] over integers. *)
Definition sum (l : list Z) : Z := foldl Z.add 0 l.

End Py.

(** ** Data model *)

(** A value of [shared_data['users']]. *)
Record User := mkUser {
  password : string;
  role : option string;
  last_login : option string
}.

(** An element of [shared_data['slides']]. *)
Record Slide := mkSlide {
  title : option string;
  presentation_id : string;
  presentation_link : option string;
  description : option string;
  uploader : string;
  upload_date : option string;
  slide_count : option Z;
  last_modified : option string;
  status : option string
}.

(** An element of [shared_data['activities']]. *)
Record Activity := mkActivity {
  timestamp : string;
  user : string;
  action : string;
  details : string
}.

Global Instance User_eq_dec : EqDecision User.
Proof. solve_decision. Defined.
Global Instance Slide_eq_dec : EqDecision Slide.
Proof. solve_decision. Defined.
Global Instance Activity_eq_dec : EqDecision Activity.
Proof. solve_decision. Defined.

(** [st.session_state.shared_data]: the three keys are always present once
    [initialize_shared_state] has run; [extra_keys] records whether the
    dictionary carries any further key. *)
Record SharedState := mkState {
  users : gmap string User;
  slides : list Slide;
  activities : list Activity;
  extra_keys : bool
}.

(** A JSON object as [json.load] returns it from the backing file: each of the
    three keys may be missing. *)
Record FileData := mkFile {
  fd_users : option (gmap string User);
  fd_slides : option (list Slide);
  fd_activities : option (list Activity);
  fd_extra : bool
}.

(** What the process finds at [SHARED_DB_FILE]. *)
Inductive FileCond :=
| Absent                      (* os.path.exists is False *)
| Unreadable                  (* open raises *)
| Malformed                   (* json.load raises *)
| Parsed (data : FileData).   (* json.load returns an object *)

(** Truth value of a dict: empty is falsy. *)
Definition dict_truthy (d : FileData) : bool :=
  bool_decide (is_Some (fd_users d)) || bool_decide (is_Some (fd_slides d))
  || bool_decide (is_Some (fd_activities d)) || fd_extra d.

(** [json.dump(shared_data)] followed by [json.load]. *)
Definition dump (s : SharedState) : FileData :=
  {| fd_users := Some (users s); fd_slides := Some (slides s);
     fd_activities := Some (activities s); fd_extra := extra_keys s |}.

(** The process-wide state the handlers run in. *)
Record World := mkWorld {
  shared_data : SharedState;      (* st.session_state.shared_data *)
  db_file : FileCond;             (* SHARED_DB_FILE *)
  db_writable : bool;             (* does the write of the file complete *)
  db_truncates : bool;            (* if not: open(SHARED_DB_FILE, 'w') succeeds
                                     and the dump raises, the file is cut
                                     short *)
  ticks : nat;                    (* reads of datetime.now() so far *)
  save_calls : list SharedState   (* argument of every save_shared_state() *)
}.

Definition set_shared (f : SharedState → SharedState) (w : World) : World :=
  {| shared_data := f (shared_data w); db_file := db_file w;
     db_writable := db_writable w; db_truncates := db_truncates w;
     ticks := ticks w; save_calls := save_calls w |}.

Definition set_slides (f : list Slide → list Slide) (s : SharedState) : SharedState :=
  {| users := users s; slides := f (slides s);
     activities := activities s; extra_keys := extra_keys s |}.

Definition set_users (f : gmap string User → gmap string User) (s : SharedState)
  : SharedState :=
  {| users := f (users s); slides := slides s;
     activities := activities s; extra_keys := extra_keys s |}.

Definition set_activities (f : list Activity → list Activity) (s : SharedState)
  : SharedState :=
  {| users := users s; slides := slides s;
     activities := f (activities s); extra_keys := extra_keys s |}.

(** The presentation ids of a slides list, in order. *)
Definition ids (l : list Slide) : list string := presentation_id <$> l.

(** The invariant of the data model: [presentation_id] is a key. *)
Definition slides_unique (l : list Slide) : Prop := NoDup (ids l).

(** ** PersistentStore *)

(** [save_shared_state]: the write is attempted; a failure is swallowed.
    When [open(SHARED_DB_FILE, 'w')] raises the file is as it was; when it
    succeeds the file is emptied, and a [json.dump] that raises leaves an
    empty or partial text, which [json.load] rejects. *)
Definition save_shared_state (w : World) : World :=
  {| shared_data := shared_data w;
     db_file := if db_writable w then Parsed (dump (shared_data w))
                else if db_truncates w then Malformed
                else db_file w;
     db_writable := db_writable w; db_truncates := db_truncates w;
     ticks := ticks w;
     save_calls := save_calls w ++ [shared_data w] |}.

(** What a [try] body can raise while reading the backing file. *)
Inductive Raised := OSError | JSONDecodeError.

(** [os.path.exists(SHARED_DB_FILE)]. *)
Definition path_exists (f : FileCond) : bool :=
  match f with Absent => false | _ => true end.

(** [with open(SHARED_DB_FILE, 'r') as f: json.load(f)]. *)
Definition open_json_load (f : FileCond) : Raised + FileData :=
  match f with
  | Absent | Unreadable => inl OSError
  | Malformed => inl JSONDecodeError
  | Parsed data => inr data
  end.

(** [load_shared_state]: the [try] returns the parsed document; a missing file
    and every exception fall through to [return None]. *)
Definition load_shared_state (w : World) : option FileData :=
  if path_exists (db_file w) then
    match open_json_load (db_file w) with
    | inr data => Some data
    | inl _ => None
    end
  else None.

(** ** StateMerger *)

(** The loop over [file_data['users'].items()]. *)
Definition merge_users (file_users session_users : gmap string User)
  : gmap string User :=
  map_fold (λ username user_data acc,
              match acc !! username with
              | None => <[username := user_data]> acc
              | Some _ => acc
              end) session_users file_users.

(** The inner [for i, session_slide in enumerate(...)] loop with its [break]. *)
Fixpoint update_existing (file_slide : Slide) (session_slides : list Slide)
  : list Slide :=
  match session_slides with
  | [] => []
  | session_slide :: rest =>
      if decide (presentation_id session_slide = presentation_id file_slide)
      then
        let session_time := Py.get (last_modified session_slide) EmptyString in
        let file_time := Py.get (last_modified file_slide) EmptyString in
        (if Py.str_gt file_time session_time then file_slide else session_slide)
          :: rest
      else session_slide :: update_existing file_slide rest
  end.

(** One iteration of [for file_slide in file_data['slides']]. *)
Definition merge_slide (current_slide_ids : gset string)
    (session_slides : list Slide) (file_slide : Slide) : list Slide :=
  if decide (presentation_id file_slide ∈ current_slide_ids)
  then update_existing file_slide session_slides
  else session_slides ++ [file_slide].

Definition merge_slides (file_slides session_slides : list Slide) : list Slide :=
  let current_slide_ids : gset string := list_to_set (ids session_slides) in
  foldl (merge_slide current_slide_ids) session_slides file_slides.

(** The loop over [file_data['activities']]. *)
Definition merge_activities (file_acts session_acts : list Activity)
  : list Activity :=
  foldl (λ acc file_act,
           if decide (file_act ∈ acc) then acc else acc ++ [file_act])
        session_acts file_acts.

(** The three merge blocks, each guarded by its ['key' in file_data]. *)
Definition merge_into (file_data : FileData) (s : SharedState) : SharedState :=
  let s1 := match fd_users file_data with
            | Some fu => set_users (merge_users fu) s
            | None => s
            end in
  let s2 := match fd_slides file_data with
            | Some fs => set_slides (merge_slides fs) s1
            | None => s1
            end in
  match fd_activities file_data with
  | Some fa => set_activities (merge_activities fa) s2
  | None => s2
  end.

Definition merge_shared_state (w : World) : World :=
  match load_shared_state w with
  | None => w
  | Some file_data =>
      if dict_truthy file_data
      then save_shared_state (set_shared (merge_into file_data) w)
      else w
  end.

(** [refresh_shared_state]: the merge cannot raise in this model, so the
    result is always [True]. *)
Definition refresh_shared_state (w : World) : bool * World :=
  (true, merge_shared_state w).

(** ** Registry *)

(** What a handler shows to the user. *)
Inductive Notice :=
| st_error (msg : string)
| st_success (msg : string)
| st_warning (msg : string)
| st_info (msg : string).

(** The error taxonomy of the registration form, by the message shown. *)
Definition DuplicateUser : Notice := st_error "Username already exists".
Definition PasswordMismatch : Notice := st_error "Passwords don't match".
Definition WeakPassword : Notice :=
  st_error "Password must be at least 6 characters".

(** A presentation as [presentations().get(...).execute()] returns it; a page
    of ['slides'] is kept by its object id. *)
Record Presentation := mkPresentation {
  api_title : option string;
  api_slides : option (list string);
  api_revision_id : option string
}.

(** A slides service: the answer to a [get] request for an id, [None] when
    the request raises. *)
Definition Service := string → option Presentation.

(** The dictionary [get_presentation_details] returns. *)
Record Details := mkDetails {
  det_title : string;
  det_slide_count : Z;
  det_slides : list string;
  det_revision_id : string
}.

Definition get_presentation_details (slides_service : Service) (pid : string)
  : option Details :=
  match slides_service pid with
  | Some presentation =>
      Some {| det_title := Py.get (api_title presentation) "Untitled";
              det_slide_count :=
                Z.of_nat (length (Py.get (api_slides presentation) []));
              det_slides := Py.get (api_slides presentation) [];
              det_revision_id :=
                Py.get (api_revision_id presentation) "unknown" |}
  | None => None                  (* except: return None *)
  end.

Definition tick (w : World) : World :=
  {| shared_data := shared_data w; db_file := db_file w;
     db_writable := db_writable w; db_truncates := db_truncates w;
     ticks := S (ticks w); save_calls := save_calls w |}.

Section Registry.

(** [hashlib.sha256(s.encode()).hexdigest()]. *)
Variable sha256_hex : string → string.
(** [datetime.now().strftime("%Y-%m-%d %H:%M:%S")] at the n-th read. *)
Variable now : nat → string.

Definition hash_password (pw : string) : string := sha256_hex pw.

Definition default_users : gmap string User :=
  {[ "admin" := {| password := sha256_hex "admin123";
                   role := Some "admin"; last_login := None |} ]}.

Definition bootstrap : SharedState :=
  {| users := default_users; slides := []; activities := [];
     extra_keys := false |}.

(** The three [if key not in data] fills. *)
Definition fill_defaults (data : FileData) : SharedState :=
  {| users := match fd_users data with Some u => u | None => default_users end;
     slides := match fd_slides data with Some l => l | None => [] end;
     activities := match fd_activities data with Some a => a | None => [] end;
     extra_keys := fd_extra data |}.

Definition initialize_shared_state (f : FileCond) : SharedState :=
  if path_exists f then
    match open_json_load f with
    | inr data => fill_defaults data
    | inl _ => bootstrap            (* except: pass *)
    end
  else bootstrap.

Definition log_activity (action user details : string) (w : World) : World :=
  let activity := {| timestamp := now (ticks w); user := user;
                     action := action; details := details |} in
  save_shared_state
    (set_shared (set_activities (λ acts, acts ++ [activity])) (tick w)).

Definition authenticate (username pw : string) (w : World) : bool :=
  match users (shared_data w) !! username with
  | Some u => bool_decide (password u = hash_password pw)
  | None => false
  end.

(** The [Register] button of the sidebar. *)
Definition register_click (reg_username reg_password reg_password_confirm : string)
    (w : World) : list Notice * World :=
  if decide (is_Some (users (shared_data w) !! reg_username)) then
    ([DuplicateUser], w)
  else if decide (reg_password ≠ reg_password_confirm) then
    ([PasswordMismatch], w)
  else if decide (String.length reg_password < 6)%nat then
    ([WeakPassword], w)
  else
    let new_user := {| password := hash_password reg_password;
                       role := Some "member"; last_login := None |} in
    let w1 := set_shared (set_users (insert reg_username new_user)) w in
    let w2 := save_shared_state w1 in
    let w3 := log_activity "REGISTER" reg_username "New user registered" w2 in
    ([st_success "Registration successful! Please login."], w3).

(** The three assignments of [check_for_updates] on [slides_list[idx]]. *)
Definition apply_details (details : Details) (stamp : string) (slide : Slide)
  : Slide :=
  {| title := Some (det_title details);
     presentation_id := presentation_id slide;
     presentation_link := presentation_link slide;
     description := description slide;
     uploader := uploader slide;
     upload_date := upload_date slide;
     slide_count := Some (det_slide_count details);
     last_modified := Some stamp;
     status := status slide |}.

Definition update_message (new_title : string) (current_count new_count : Z)
  : string :=
  "Updated '" +:+ new_title +:+ "' from " +:+ pretty current_count
    +:+ " to " +:+ pretty new_count +:+ " slides".

(** The body of [for idx, slide in enumerate(slides_list)]. *)
Definition check_one (service : Service) (acc : bool * World) (idx : nat)
  : bool * World :=
  let '(updates_found, w) := acc in
  match slides (shared_data w) !! idx with
  | None => acc
  | Some slide =>
      match get_presentation_details service (presentation_id slide) with
      | None => acc
      | Some details =>
          let current_count := Py.get (slide_count slide) 0 in
          if decide (det_slide_count details ≠ current_count) then
            let slide' := apply_details details (now (ticks w)) slide in
            let w1 := set_shared (set_slides (<[idx := slide']>)) (tick w) in
            let w2 := log_activity "SLIDE_UPDATE" (uploader slide)
                        (update_message (det_title details) current_count
                                        (det_slide_count details)) w1 in
            (true, w2)
          else acc
      end
  end.

Definition check_for_updates (slides_service : option Service) (w : World)
  : bool * World :=
  match slides_service with
  | None => (false, w)
  | Some service =>
      let w0 := (refresh_shared_state w).2 in
      let slides_list := slides (shared_data w0) in
      let '(updates_found, w1) :=
        foldl (check_one service) (false, w0) (seq 0 (length slides_list)) in
      (updates_found, if updates_found then save_shared_state w1 else w1)
  end.

(** [get_user_role]. *)
Definition get_user_role (username : string) (w : World) : string * World :=
  match users (shared_data w) !! username with
  | Some _ =>
      let w0 := (refresh_shared_state w).2 in
      match users (shared_data w0) !! username with
      | Some u => (Py.get (role u) "member", w0)
      | None => ("member", w0)    (* unreachable: a merge removes no user *)
      end
  | None => ("member", w)
  end.

(** [check_admin_access]. *)
Definition check_admin_access (logged_in : bool) (current_user : string)
    (w : World) : bool * World :=
  if negb logged_in then (false, w)
  else
    let w0 := (refresh_shared_state w).2 in
    match users (shared_data w0) !! current_user with
    | Some u => (bool_decide (Py.get (role u) "member" = "admin"), w0)
    | None => (false, w0)
    end.

(** [slides.pop(i)] at the first [i] whose record has the given id. *)
Fixpoint pop_first (pid : string) (l : list Slide) : option (list Slide) :=
  match l with
  | [] => None
  | s :: rest =>
      if decide (presentation_id s = pid) then Some rest
      else cons s <$> pop_first pid rest
  end.

(** The loop shared by both delete buttons: pop, save, log, notify. *)
Definition remove_handler (action prefix success : string)
    (current_user : string) (slide : Slide) (w : World) : list Notice * World :=
  match pop_first (presentation_id slide) (slides (shared_data w)) with
  | Some remaining =>
      let w1 := save_shared_state (set_shared (set_slides (λ _, remaining)) w) in
      let w2 := log_activity action current_user
                  (prefix +:+ Py.get (title slide) "Untitled" +:+ "'") w1 in
      ([st_success success], w2)
  | None => ([], w)
  end.

(** Body of the [Delete] button of the My Uploads tab. *)
Definition delete_handler : string → Slide → World → list Notice * World :=
  remove_handler "DELETE" "Deleted '" "Deleted!".

(** Body of the [Remove] button of the Admin tab. *)
Definition admin_remove_handler : string → Slide → World → list Notice * World :=
  remove_handler "ADMIN_DELETE" "Admin removed '" "Removed!".

(** [my_slides] of the My Uploads tab. *)
Definition my_slides (current_user : string) (w : World) : list Slide :=
  filter (λ s, uploader s = current_user) (slides (shared_data w)).

(** The My Uploads tab when the button [del_my_<idx>] is pressed. *)
Definition my_uploads_delete_click (current_user : string) (idx : nat)
    (w : World) : list Notice * World :=
  let w0 := (refresh_shared_state w).2 in
  match my_slides current_user w0 !! idx with
  | Some slide => delete_handler current_user slide w0
  | None => ([], w0)
  end.

(** An exception that no [try] of the script catches: the run of the script
    ends where it is raised. *)
Inductive Uncaught := KeyError (key : string).

(** Line 1376, [sum(1 for u in users.values() if u['role'] == 'admin')]: the
    subscript raises for a user without the key. *)
Definition admin_count (session_users : gmap string User) : Uncaught + nat :=
  if decide (map_Forall (λ _ u, is_Some (role u)) session_users)
  then inr (size (filter (λ p, role p.2 = Some "admin") session_users))
  else inl (KeyError "role").

(** The Admin tab when the button [admin_remove_<pid>] is pressed: the
    access check, the statistics, the user rows, the export button, whose
    file name reads the clock, and the presentation rows. *)
Definition admin_remove_click (current_user pid : string) (w : World)
  : (Uncaught + list Notice) * World :=
  let '(is_admin, w0) := check_admin_access true current_user w in
  if is_admin then
    let w1 := (refresh_shared_state w0).2 in
    match admin_count (users (shared_data w1)) with
    | inl exc => (inl exc, w1)
    | inr _ =>
        let w2 := (refresh_shared_state w1).2 in
        let w3 := tick w2 in
        match list_find (λ s, presentation_id s = pid)
                (slides (shared_data w3)) with
        | Some (_, slide) =>
            let '(shown, w4) := admin_remove_handler current_user slide w3 in
            (inr shown, w4)
        | None => (inr [], w3)
        end
    end
  else
    let '(role, w1) := get_user_role current_user w0 in
    (inr [st_warning "Admin access only";
          st_info ("Your current role: " +:+ role)], w1).

End Registry.

(** ** ReportBuilder *)

Module Report.

(** The heading block of one presentation. *)
Record Heading := mkHeading {
  h_number : nat;
  h_title : string;
  h_uploader : string;
  h_slides : Z;
  h_uploaded : string;
  h_placeholders : nat      (* one image, box or iframe per slide *)
}.

(** A composed report, by the values it prints: the statistics of the title
    page and the heading of each presentation.  Fonts, coordinates and
    image bytes are left out. *)
Record Document := mkDocument {
  doc_member_count : option nat;   (* the text-only PDF prints no number *)
  doc_members : list string;
  doc_presentations : nat;
  doc_total_slides : Z;
  doc_sections : list Heading
}.

(** [list(set(slide['uploader'] for slide in slides_list))], in the order of
    the set's iteration. *)
Definition uploader_list (slides_list : list Slide) : list string :=
  elements (list_to_set (uploader <$> slides_list) : gset string).

(** [sum(slide.get('slide_count', 0) for slide in slides_list)]. *)
Definition slide_total (slides_list : list Slide) : Z :=
  Py.sum ((λ slide, Py.get (slide_count slide) 0) <$> slides_list).

(** Lines 402-403, 544-545 and 607-608: the two variables [all_uploaders] and
    [total_slides] as each builder computes them. *)
Definition image_pdf_stats (slides_list : list Slide) : list string * Z :=
  let all_uploaders := uploader_list slides_list in
  let total_slides := slide_total slides_list in
  (all_uploaders, total_slides).

Definition simple_pdf_stats (slides_list : list Slide) : list string * Z :=
  let all_uploaders := uploader_list slides_list in
  let total_slides := slide_total slides_list in
  (all_uploaders, total_slides).

Definition html_stats (slides_list : list Slide) : list string * Z :=
  let all_uploaders := uploader_list slides_list in
  let total_slides := slide_total slides_list in
  (all_uploaders, total_slides).

(** The statistics in the words of the specification: the number of
    distinct uploader values and the sum of the slide counts. *)
Definition distinctUploaders (slides_list : list Slide) : nat :=
  length (remove_dups (uploader <$> slides_list)).

Fixpoint totalSlides (slides_list : list Slide) : Z :=
  match slides_list with
  | [] => 0
  | slide :: rest => default 0 (slide_count slide) + totalSlides rest
  end.

Definition heading (slide_idx : nat) (slide : Slide) : Heading :=
  {| h_number := S slide_idx;
     h_title := Py.get (title slide) "Untitled";
     h_uploader := uploader slide;
     h_slides := Py.get (slide_count slide) 0;
     h_uploaded := String.substring 0 10 (Py.get (upload_date slide) EmptyString);
     h_placeholders := Z.to_nat (Py.get (slide_count slide) 0) |}.

Definition sections (slides_list : list Slide) : list Heading :=
  imap heading slides_list.

(** The temporary directory: the files in it, by name, with what has been
    written to each, and the next unused name. *)
Record FS := mkFS {
  tmp_files : gmap nat (option Document);
  fresh : nat
}.

(** The collaborators a build depends on. *)
Record Env := mkEnv {
  google_creds : bool;    (* st.session_state.google_creds is not None *)
  services_up : bool;     (* get_google_services() returns two services *)
  build_ok : bool         (* doc.build(story) / c.save() does not raise *)
}.

(** A computation on the temporary directory that may raise. *)
Definition IO (A : Type) : Type := FS → option A * FS.

Definition ret {A} (a : A) : IO A := λ fs, (Some a, fs).
Definition raise {A} : IO A := λ fs, (None, fs).
Definition bind {A B} (m : IO A) (k : A → IO B) : IO B :=
  λ fs, match m fs with
        | (Some a, fs') => k a fs'
        | (None, fs') => (None, fs')
        end.
Definition try_except {A} (body handler : IO A) : IO A :=
  λ fs, match body fs with
        | (Some a, fs') => (Some a, fs')
        | (None, fs') => handler fs'
        end.

Notation "x <- m ;; k" := (bind m (λ x, k))
  (at level 100, m at next level, right associativity).

(** [tempfile.NamedTemporaryFile(delete=False, suffix='.pdf')] followed by
    [close()]: an empty file that stays on disk. *)
Definition NamedTemporaryFile : IO nat :=
  λ fs, (Some (fresh fs),
         {| tmp_files := <[fresh fs := None]> (tmp_files fs);
            fresh := S (fresh fs) |}).

(** [doc.build(story)] and [c.save()]: write the document or raise. *)
Definition write_pdf (env : Env) (path : nat) (doc : Document) : IO unit :=
  λ fs, if build_ok env
        then (Some (), {| tmp_files := <[path := Some doc]> (tmp_files fs);
                          fresh := fresh fs |})
        else (None, fs).

(** [open(path, 'rb').read()]. *)
Definition read_file (path : nat) : IO Document :=
  λ fs, match tmp_files fs !! path with
        | Some (Some doc) => (Some doc, fs)
        | _ => (None, fs)
        end.

(** [os.unlink(path)]. *)
Definition unlink (path : nat) : IO unit :=
  λ fs, match tmp_files fs !! path with
        | Some _ => (Some (), {| tmp_files := delete path (tmp_files fs);
                                 fresh := fresh fs |})
        | None => (None, fs)
        end.

Definition create_image_combined_pdf (env : Env) (slides_list : list Slide)
  : IO (option Document) :=
  try_except
    (if negb (google_creds env) then ret None
     else
       temp_pdf_path <- NamedTemporaryFile ;;
       let '(all_uploaders, total_slides) := image_pdf_stats slides_list in
       let story :=
         {| doc_member_count := Some (length all_uploaders);
            doc_members := all_uploaders;
            doc_presentations := length slides_list;
            doc_total_slides := total_slides;
            doc_sections := sections slides_list |} in
       if negb (services_up env) then ret None
       else
         _ <- write_pdf env temp_pdf_path story ;;
         pdf_bytes <- read_file temp_pdf_path ;;
         _ <- unlink temp_pdf_path ;;
         ret (Some pdf_bytes))
    (ret None).

Definition create_simple_combined_pdf (env : Env) (slides_list : list Slide)
  : IO (option Document) :=
  try_except
    (temp_pdf_path <- NamedTemporaryFile ;;
     let '(all_uploaders, total_slides) := simple_pdf_stats slides_list in
     let c :=
       {| doc_member_count := None;
          doc_members := all_uploaders;
          doc_presentations := length slides_list;
          doc_total_slides := total_slides;
          doc_sections := sections slides_list |} in
     _ <- write_pdf env temp_pdf_path c ;;
     pdf_bytes <- read_file temp_pdf_path ;;
     _ <- unlink temp_pdf_path ;;
     ret (Some pdf_bytes))
    (ret None).

Definition create_html_image_view (env : Env) (slides_list : list Slide)
  : option Document :=
  if negb (google_creds env) then None
  else
    let '(all_uploaders, total_slides) := html_stats slides_list in
    Some {| doc_member_count := Some (length all_uploaders);
            doc_members := [];
            doc_presentations := length slides_list;
            doc_total_slides := total_slides;
            doc_sections := sections slides_list |}.

(** The document a successful PDF build returns, with or without the
    number of members on the title page. *)
Definition pdf_document (numbered : bool) (l : list Slide) : Document :=
  {| doc_member_count :=
       if numbered then Some (length (uploader_list l)) else None;
     doc_members := uploader_list l;
     doc_presentations := length l;
     doc_total_slides := slide_total l;
     doc_sections := sections l |}.

(** The temporary files a run leaves behind. *)
Definition leaked (before after : FS) : gset nat :=
  dom (tmp_files after) ∖ dom (tmp_files before).

End Report.

(** ** Notions used by the properties *)

(** The record that survives a conflict on one id. *)
Definition newer (file_slide session_slide : Slide) : Slide :=
  if Py.str_gt (Py.get (last_modified file_slide) EmptyString)
               (Py.get (last_modified session_slide) EmptyString)
  then file_slide else session_slide.

(** The slides list of the on-disk state, empty when there is none. *)
Definition disk_slides (w : World) : list Slide :=
  match load_shared_state w with
  | Some file_data => default [] (fd_slides file_data)
  | None => []
  end.

(** Number of records of a list that carry a given id. *)
Definition occurrences (pid : string) (l : list Slide) : nat :=
  length (filter (λ s, presentation_id s = pid) l).

(** Does [check_for_updates] rewrite this record: the fetch succeeds and the
    fetched count differs from the stored one. *)
Definition needs_update (service : Service) (s : Slide) : bool :=
  match get_presentation_details service (presentation_id s) with
  | Some details =>
      bool_decide (det_slide_count details ≠ Py.get (slide_count s) 0)
  | None => false
  end.

(** Does the fetch fail on this record. *)
Definition fetch_fails (service : Service) (s : Slide) : bool :=
  match get_presentation_details service (presentation_id s) with
  | Some _ => false
  | None => true
  end.

(** Number of records rewritten among the first [i] of a list. *)
Definition updates_before (service : Service) (l : list Slide) (i : nat) : nat :=
  length (filter (λ s, needs_update service s = true) (take i l)).

Section Scan.

Variable now : nat → string.
Variable service : Service.

(** The SLIDE_UPDATE record logged for a rewritten slide. *)
Definition update_activity (stamp : string) (details : Details) (s : Slide)
  : Activity :=
  {| timestamp := stamp; user := uploader s; action := "SLIDE_UPDATE";
     details := update_message (det_title details)
                  (Py.get (slide_count s) 0) (det_slide_count details) |}.

(** The scan as a function of the list alone: the rewritten list, the
    activities logged and the clock reads consumed. *)
Fixpoint scan (t : nat) (l : list Slide) : list Slide * list Activity * nat :=
  match l with
  | [] => ([], [], t)
  | s :: rest =>
      match get_presentation_details service (presentation_id s) with
      | Some details =>
          if decide (det_slide_count details ≠ Py.get (slide_count s) 0) then
            let '(l', a', t') := scan (2 + t) rest in
            (apply_details details (now t) s :: l',
             update_activity (now (S t)) details s :: a', t')
          else
            let '(l', a', t') := scan t rest in (s :: l', a', t')
      | None =>
          let '(l', a', t') := scan t rest in (s :: l', a', t')
      end
  end.

End Scan.

(** Does a run from [before] to [after] end with a [save_shared_state()] of
    the state it leaves in memory? *)
Definition ends_with_save (before after : World) : Prop :=
  save_calls after = save_calls before ++ [shared_data after].

(** ** Sample inputs *)

Module Sample.

Definition slide (pid owner : string) (count : Z) (modified : string) : Slide :=
  {| title := Some ("Deck " +:+ pid); presentation_id := pid;
     presentation_link := None; description := None; uploader := owner;
     upload_date := Some modified; slide_count := Some count;
     last_modified := Some modified; status := Some "active" |}.

Definition state (l : list Slide) : SharedState :=
  {| users := ∅; slides := l; activities := []; extra_keys := false |}.

Definition world (l : list Slide) (f : FileCond) : World :=
  {| shared_data := state l; db_file := f; db_writable := true;
     db_truncates := false; ticks := 0; save_calls := [] |}.

Definition file (l : list Slide) : FileCond :=
  Parsed {| fd_users := None; fd_slides := Some l;
            fd_activities := None; fd_extra := false |}.

Definition X_alice : Slide := slide "X" "alice" 4 "2024-01-05 10:00:00".
Definition Y_bob : Slide := slide "Y" "bob" 2 "2024-01-06 10:00:00".
Definition Z_nobody : Slide := slide "Z" "carol" 1 "2024-01-07 10:00:00".

Definition member (pw : string) : User :=
  {| password := pw; role := Some "member"; last_login := None |}.
Definition admin (pw : string) : User :=
  {| password := pw; role := Some "admin"; last_login := None |}.

(** bob is a member, root is an admin; alice owns "X", bob owns "Y". *)
Definition team : World :=
  {| shared_data :=
       {| users := {[ "bob" := member "h1"; "root" := admin "h2" ]};
          slides := [X_alice; Y_bob]; activities := [];
          extra_keys := false |};
     db_file := Absent; db_writable := true; db_truncates := false;
     ticks := 0; save_calls := [] |}.

(** A user record without the key ['role'], and the team joined by such a
    user. *)
Definition guest : User :=
  {| password := "h3"; role := None; last_login := None |}.

Definition no_role : World :=
  {| shared_data :=
       {| users := {[ "bob" := member "h1"; "root" := admin "h2";
                      "dave" := guest ]};
          slides := [X_alice; Y_bob]; activities := [];
          extra_keys := false |};
     db_file := Absent; db_writable := true; db_truncates := false;
     ticks := 0; save_calls := [] |}.

Definition service : Service :=
  λ pid, if decide (pid = "A")
         then Some {| api_title := Some "Deck A, revised";
                      api_slides := Some ["p1"; "p2"; "p3"; "p4"; "p5"; "p6"; "p7"];
                      api_revision_id := None |}
         else None.

(** What [get_presentation_details] makes of the answer for "A". *)
Definition A_details : Details :=
  {| det_title := "Deck A, revised"; det_slide_count := 7;
     det_slides := ["p1"; "p2"; "p3"; "p4"; "p5"; "p6"; "p7"];
     det_revision_id := "unknown" |}.

Definition empty_tmp : Report.FS :=
  {| Report.tmp_files := ∅; Report.fresh := 0 |}.
Definition env_ok : Report.Env :=
  {| Report.google_creds := true; Report.services_up := true;
     Report.build_ok := true |}.
Definition env_build_fails : Report.Env :=
  {| Report.google_creds := true; Report.services_up := true;
     Report.build_ok := false |}.
Definition env_services_down : Report.Env :=
  {| Report.google_creds := true; Report.services_up := false;
     Report.build_ok := true |}.

Definition sha (s : string) : string := "sha256:" +:+ s.
Definition clock (n : nat) : string := "2024-02-01 12:00:0" +:+ pretty n.

(** The example of the specification: "A" with 5 slides in memory, with 7
    slides and a later timestamp on disk. *)
Definition A_memory : Slide := slide "A" "alice" 5 "2024-01-01 10:00:00".
Definition A_disk : Slide := slide "A" "alice" 7 "2024-01-02 09:00:00".
Definition B_disk : Slide := slide "B" "bob" 3 "2024-01-03 08:00:00".

End Sample.

(** ** Further notions *)

(** The users and the activities of the on-disk state, empty when there are
    none. *)
Definition disk_users (w : World) : gmap string User :=
  match load_shared_state w with
  | Some file_data => default ∅ (fd_users file_data)
  | None => ∅
  end.

Definition disk_activities (w : World) : list Activity :=
  match load_shared_state w with
  | Some file_data => default [] (fd_activities file_data)
  | None => []
  end.

(** ** The remaining handlers *)

(** The position in [l] of the [k]-th record that satisfies [P]: the place of
    the object [my_slides[k]] in the shared list. *)
Fixpoint index_of_nth (P : Slide → bool) (k : nat) (l : list Slide)
  : option nat :=
  match l with
  | [] => None
  | s :: rest =>
      if P s then
        match k with
        | O => Some O
        | S k' => S <$> index_of_nth P k' rest
        end
      else S <$> index_of_nth P k rest
  end.

Section Handlers.

Variable sha256_hex : string → string.
Variable now : nat → string.

(** The [Login] button of the sidebar; the second component is
    [st.session_state.current_user] after the click. *)
Definition login_click (login_username login_password : string) (w : World)
  : list Notice * option string * World :=
  if authenticate sha256_hex login_username login_password w then
    let w1 :=
      match users (shared_data w) !! login_username with
      | Some u =>
          save_shared_state
            (set_shared
               (set_users (insert login_username
                  {| password := password u; role := role u;
                     last_login := Some (now (ticks w)) |}))
               (tick w))
      | None => w
      end in
    let w2 := log_activity now "LOGIN" login_username "User logged in" w1 in
    ([st_success "Logged in successfully!"], Some login_username, w2)
  else ([st_error "Invalid credentials"], None, w).

(** The [Logout] button. *)
Definition logout_click (current_user : string) (w : World) : World :=
  log_activity now "LOGOUT" current_user "User logged out" w.

(** The dictionary appended by a first upload; the clock is read once for
    [upload_date] and once for [last_modified]. *)
Definition new_slide (pid : string) (details : Details)
    (description_text current_user : string) (t : nat) : Slide :=
  {| title := Some (det_title details);
     presentation_id := pid;
     presentation_link :=
       Some ("https://docs.google.com/presentation/d/" +:+ pid +:+ "/edit");
     description := Some description_text;
     uploader := current_user;
     upload_date := Some (now t);
     slide_count := Some (det_slide_count details);
     last_modified := Some (now (S t));
     status := Some "active" |}.

(** [slides[i].update({...})] of the upload form. *)
Definition apply_upload (details : Details) (stamp description_text : string)
    (slide : Slide) : Slide :=
  {| title := Some (det_title details);
     presentation_id := presentation_id slide;
     presentation_link := presentation_link slide;
     description := Some description_text;
     uploader := uploader slide;
     upload_date := upload_date slide;
     slide_count := Some (det_slide_count details);
     last_modified := Some stamp;
     status := status slide |}.

(** The upload form once submitted.  A missing service object is the
    service that answers every request with an exception. *)
Definition upload_submit (slides_service : Service)
    (current_user pid description_text : string) (w : World)
  : list Notice * World :=
  if decide (pid = EmptyString) then
    ([st_error "Please enter a presentation ID"], w)
  else
    match get_presentation_details slides_service pid with
    | None =>
        ([st_error "Could not fetch presentation. Check sharing settings!"], w)
    | Some details =>
        match list_find (λ s, presentation_id s = pid)
                (slides (shared_data w)) with
        | Some (i, slide) =>
            let '(allowed, w0) :=
              if decide (uploader slide = current_user) then (true, w)
              else
                let '(role, w0) := get_user_role current_user w in
                (bool_decide (role = "admin"), w0) in
            if allowed then
              let w1 :=
                set_shared
                  (set_slides
                     (alter (apply_upload details (now (ticks w0))
                               description_text) i))
                  (tick w0) in
              let w2 := save_shared_state w1 in
              let w3 := log_activity now "UPDATE" current_user
                          ("Updated '" +:+ det_title details +:+ "'") w2 in
              ([st_warning "Already in dashboard!";
                st_success ("'" +:+ det_title details +:+ "' updated!")], w3)
            else
              ([st_warning "Already in dashboard!";
                st_error "You can only update your own presentations"], w0)
        | None =>
            let slide := new_slide pid details description_text current_user
                           (ticks w) in
            let w1 := set_shared (set_slides (λ l, l ++ [slide]))
                        (tick (tick w)) in
            let w2 := save_shared_state w1 in
            let w3 := log_activity now "UPLOAD" current_user
                        ("Uploaded '" +:+ det_title details +:+ "'") w2 in
            ([st_success ("'" +:+ det_title details +:+ "' uploaded!")], w3)
        end
    end.

(** The [Update] button [update_<idx>] of the My Uploads tab;
    [slides_service] is [None] without credentials or services. *)
Definition manual_update_click (slides_service : option Service)
    (current_user : string) (idx : nat) (w : World) : list Notice * World :=
  let w0 := (refresh_shared_state w).2 in
  match my_slides current_user w0 !! idx,
        index_of_nth (λ s, bool_decide (uploader s = current_user)) idx
          (slides (shared_data w0)),
        slides_service with
  | Some slide, Some i, Some service =>
      match get_presentation_details service (presentation_id slide) with
      | Some details =>
          let w1 :=
            set_shared
              (set_slides (<[i := apply_details details (now (ticks w0)) slide]>))
              (tick w0) in
          let w2 := save_shared_state w1 in
          let w3 := log_activity now "MANUAL_UPDATE" current_user
                      ("Updated '" +:+ det_title details +:+ "'") w2 in
          ([st_success "Updated!"], w3)
      | None => ([], w0)
      end
  | _, _, _ => ([], w0)
  end.

(** The role a [Make ...] button of the Admin tab writes. *)
Definition toggled_role (data : User) : string :=
  if decide (Py.get (role data) "member" = "admin") then "member" else "admin".

(** The Admin tab when the button [role_<username>] is pressed; the row of
    the acting user carries no button. *)
Definition role_change_click (current_user username : string) (w : World)
  : (Uncaught + list Notice) * World :=
  let '(is_admin, w0) := check_admin_access true current_user w in
  if is_admin then
    let w1 := (refresh_shared_state w0).2 in
    match admin_count (users (shared_data w1)) with
    | inl exc => (inl exc, w1)
    | inr _ =>
        let w2 := (refresh_shared_state w1).2 in
        match users (shared_data w2) !! username with
        | Some data =>
            if decide (username ≠ current_user) then
              let current_role := Py.get (role data) "member" in
              let new_role := toggled_role data in
              let w3 :=
                set_shared
                  (set_users (insert username
                     {| password := password data; role := Some new_role;
                        last_login := last_login data |})) w2 in
              let w4 := save_shared_state w3 in
              let w5 := log_activity now "ROLE_CHANGE" current_user
                          ("Changed " +:+ username +:+ " from "
                             +:+ current_role +:+ " to " +:+ new_role) w4 in
              (inr [st_success (username +:+ " is now " +:+ new_role
                                  +:+ "!")], w5)
            else (inr [], w2)
        | None => (inr [], w2)
        end
    end
  else
    let '(role, w1) := get_user_role current_user w0 in
    (inr [st_warning "Admin access only";
          st_info ("Your current role: " +:+ role)], w1).

(** What a session, or another session writing the file, can do. *)
Inductive Event :=
| EvRefresh
| EvRegister (username pw confirm : string)
| EvLogin (username pw : string)
| EvLogout (current_user : string)
| EvUpload (service : Service) (current_user pid description_text : string)
| EvManualUpdate (service : option Service) (current_user : string) (idx : nat)
| EvCheckUpdates (service : option Service)
| EvDelete (current_user : string) (idx : nat)
| EvAdminRemove (current_user pid : string)
| EvRoleChange (current_user username : string)
| EvOtherSession (data : FileData).

Definition step (e : Event) (w : World) : World :=
  match e with
  | EvRefresh => (refresh_shared_state w).2
  | EvRegister u p c => (register_click sha256_hex now u p c w).2
  | EvLogin u p => (login_click u p w).2
  | EvLogout u => logout_click u w
  | EvUpload service u pid d => (upload_submit service u pid d w).2
  | EvManualUpdate service u idx => (manual_update_click service u idx w).2
  | EvCheckUpdates service => (check_for_updates now service w).2
  | EvDelete u idx => (my_uploads_delete_click now u idx w).2
  | EvAdminRemove u pid => (admin_remove_click now u pid w).2
  | EvRoleChange u target => (role_change_click u target w).2
  | EvOtherSession data =>
      {| shared_data := shared_data w; db_file := Parsed data;
         db_writable := db_writable w; db_truncates := db_truncates w;
         ticks := ticks w; save_calls := save_calls w |}
  end.

Definition run (es : list Event) (w : World) : World := foldl (flip step) w es.

End Handlers.

(** Another session writes only files whose slides have unique ids. *)
Definition event_ok (e : Event) : Prop :=
  match e with
  | EvOtherSession data => slides_unique (default [] (fd_slides data))
  | _ => True
  end.

(** The key invariant of the store: in memory and on disk. *)
Definition store_ok (w : World) : Prop :=
  slides_unique (slides (shared_data w)) ∧ slides_unique (disk_slides w).

(** ** More sample inputs *)

Module Demo.

(** bob is a member in memory while the file, written by another session,
    has him as admin. *)
Definition stale : World :=
  {| shared_data :=
       {| users := {[ "bob" := Sample.member "h1" ]};
          slides := [Sample.X_alice; Sample.Y_bob]; activities := [];
          extra_keys := false |};
     db_file :=
       Parsed {| fd_users := Some {[ "bob" := Sample.admin "h1" ]};
                 fd_slides := None; fd_activities := None;
                 fd_extra := false |};
     db_writable := true; db_truncates := false; ticks := 0;
     save_calls := [] |}.

(** The team of [Sample.team] on a file that holds both decks and cannot be
    written. *)
Definition read_only : World :=
  {| shared_data := shared_data Sample.team;
     db_file := Sample.file [Sample.X_alice; Sample.Y_bob];
     db_writable := false; db_truncates := false; ticks := 0;
     save_calls := [] |}.

(** The same team on a file that opens for writing while every dump
    fails. *)
Definition cut_short : World :=
  {| shared_data := shared_data Sample.team;
     db_file := Sample.file [Sample.X_alice; Sample.Y_bob];
     db_writable := false; db_truncates := true; ticks := 0;
     save_calls := [] |}.

(** A service that answers every id with the same three-page deck. *)
Definition any_service : Service :=
  λ _, Some {| api_title := Some "Fetched deck";
               api_slides := Some ["p1"; "p2"; "p3"];
               api_revision_id := Some "r7" |}.

Definition fetched : Details :=
  {| det_title := "Fetched deck"; det_slide_count := 3;
     det_slides := ["p1"; "p2"; "p3"]; det_revision_id := "r7" |}.

(** Team as in [Sample.team], with carol registered through the form. *)
Definition with_carol : World :=
  (register_click Sample.sha Sample.clock "carol" "secret1" "secret1"
     Sample.team).2.

(** bob uploads "A", another session overwrites the file, the dashboard
    refreshes, root makes carol admin, carol logs in, bob deletes his first
    upload. *)
Definition session : list Event :=
  [EvUpload Sample.service "bob" "A" "first deck";
   EvOtherSession {| fd_users := None; fd_slides := Some [Sample.B_disk];
                     fd_activities := None; fd_extra := false |};
   EvRefresh;
   EvRoleChange "root" "carol";
   EvLogin "carol" "secret1";
   EvDelete "bob" 0].

End Demo.

(** What no handler undoes: the activity log is only extended, and a user
    once stored stays stored with the same password hash. *)
Definition kept (s s' : SharedState) : Prop :=
  activities s `prefix_of` activities s'
  ∧ ∀ username u, users s !! username = Some u →
      ∃ u', users s' !! username = Some u' ∧ password u' = password u.

(** ** The dashboard *)

Module Dashboard.

(** One line of "Team Contributions": the uploader, the number of
    presentations and the number of slides. *)
Definition contribution (slides_list : list Slide) (name : string)
  : string * nat * Z :=
  let user_slides := filter (λ s, uploader s = name) slides_list in
  let user_slide_count :=
    Py.sum ((λ s, Py.get (slide_count s) 0) <$> user_slides) in
  (name, length user_slides, user_slide_count).

(** The loop [for uploader in all_uploaders]. *)
Definition contributions (slides_list : list Slide) : list (string * nat * Z) :=
  contribution slides_list <$> Report.uploader_list slides_list.

(** [sorted(slides_list, key=lambda x: x.get('upload_date', ''),
    reverse=True)]: the stable sort by decreasing key, written as an
    insertion sort that keeps records of equal key in their order. *)
Definition sort_key (s : Slide) : string := Py.get (upload_date s) EmptyString.

Fixpoint insert_by_date (x : Slide) (sorted : list Slide) : list Slide :=
  match sorted with
  | [] => [x]
  | y :: rest =>
      if Py.str_gt (sort_key y) (sort_key x) then y :: insert_by_date x rest
      else x :: y :: rest
  end.

Definition sorted_slides (slides_list : list Slide) : list Slide :=
  foldr insert_by_date [] slides_list.

(** The presentation shown when none is selected: [sorted_slides[0]]. *)
Definition latest_slide (slides_list : list Slide) : option Slide :=
  head (sorted_slides slides_list).

(** No later record is dated after an earlier one. *)
Definition by_date_desc (x y : Slide) : Prop :=
  Py.str_gt (sort_key y) (sort_key x) = false.

End Dashboard.

(** ** The text-only PDF, call by call *)

Module TextPdf.

(** The calls made on the canvas [c], in order.  Coordinates are in points;
    the page is [letter], 612 by 792, and every coordinate the builder
    computes is a whole number. *)
Inductive Op :=
| setFont (name : string) (size : Z)
| drawCentredString (x y : Z) (text : string)
| drawString (x y : Z) (text : string)
| rect (x y width height : Z)
| showPage.

Global Instance Op_eq_dec : EqDecision Op.
Proof. solve_decision. Defined.

Definition width : Z := 612.
Definition height : Z := 792.

(** [sep.join(l)]. *)
Fixpoint join (sep : string) (l : list string) : string :=
  match l with
  | [] => EmptyString
  | [x] => x
  | x :: rest => x +:+ sep +:+ join sep rest
  end.

(** The loop [for i in range(slide.get('slide_count', 0))], from the
    iteration [i] on, with [n] iterations left and the current [y_pos]. *)
Fixpoint slide_boxes (slide_title : string) (y_pos : Z) (i n : nat) : list Op :=
  match n with
  | O => []
  | S n' =>
      let page_break :=
        if y_pos <? 100 then [showPage; setFont "Helvetica" 10] else [] in
      let y := if y_pos <? 100 then height - 100 else y_pos in
      page_break
        ++ [rect 100 (y - 60) 400 60;
            setFont "Helvetica" 10;
            drawString 110 (y - 20)
              ("Slide " +:+ pretty (S i) +:+ " - " +:+ slide_title);
            drawString 110 (y - 35)
              "[Slide image would appear here with proper permissions]"]
        ++ slide_boxes slide_title (y - 80) (S i) n'
  end.

(** The body of [for slide_idx, slide in enumerate(slides_list)]. *)
Definition presentation_ops (total slide_idx : nat) (slide : Slide) : list Op :=
  [setFont "Helvetica-Bold" 18;
   drawString 100 (height - 100)
     ("Presentation " +:+ pretty (S slide_idx) +:+ ": "
        +:+ Py.get (title slide) "Untitled");
   setFont "Helvetica" 12;
   drawString 100 (height - 130) ("Uploader: " +:+ uploader slide);
   drawString 100 (height - 150)
     ("Slides: " +:+ pretty (Py.get (slide_count slide) 0));
   drawString 100 (height - 170)
     ("Uploaded: "
        +:+ String.substring 0 10 (Py.get (upload_date slide) EmptyString))]
  ++ match description slide with
     | Some text =>
         if decide (text = EmptyString) then []
         else [drawString 100 (height - 190)
                 ("Description: " +:+ String.substring 0 100 text)]
     | None => []
     end
  ++ slide_boxes (Py.get (title slide) "Untitled") (height - 220) 0
       (Z.to_nat (Py.get (slide_count slide) 0))
  ++ (if decide (S slide_idx < total)%nat then [showPage] else []).

(** Everything between [canvas.Canvas(...)] and [c.save()]; [generated] is
    the formatted time of the build. *)
Definition simple_pdf_ops (generated : string) (slides_list : list Slide)
  : list Op :=
  let '(all_uploaders, total_slides) := Report.simple_pdf_stats slides_list in
  [setFont "Helvetica-Bold" 24;
   drawCentredString (width / 2) (height - 100) "Team Slides Combined Report";
   setFont "Helvetica" 14;
   drawCentredString (width / 2) (height - 140) generated;
   setFont "Helvetica" 12;
   drawString 100 (height - 200)
     ("Team Members: " +:+ join ", " all_uploaders);
   drawString 100 (height - 220)
     ("Total Presentations: " +:+ pretty (length slides_list));
   drawString 100 (height - 240) ("Total Slides: " +:+ pretty total_slides);
   showPage]
  ++ concat (imap (presentation_ops (length slides_list)) slides_list).

(** The placeholder boxes and the page ends of a sequence of calls. *)
Definition boxes (ops : list Op) : list Z :=
  omap (λ op, match op with rect _ y _ _ => Some y | _ => None end) ops.

Definition page_ends (ops : list Op) : nat :=
  length (filter (λ op, op = showPage) ops).

(** Pages begun inside the box loop of a presentation with [c] slides: six
    boxes fit under the heading, eight on each further page. *)
Definition extra_pages (c : Z) : nat :=
  if c <=? 6 then O else Z.to_nat (1 + (c - 7) / 8).

End TextPdf.

(** * Properties *)

(** ** StateMerger: slides *)

Section MergeSlides.

Implicit Types (l acc : list Slide) (s d m : Slide) (S : gset string).

Lemma newer_id d m :
  presentation_id m = presentation_id d →
  presentation_id (newer d m) = presentation_id d.
Proof. intros E. unfold newer. by destruct (Py.str_gt _ _). Qed.

Lemma ids_update_existing d l : ids (update_existing d l) = ids l.
Proof.
  induction l as [|s l IH]; [done|]. simpl.
  destruct (decide _) as [E|NE]; simpl.
  - f_equal. by destruct (Py.str_gt _ _).
  - f_equal. exact IH.
Qed.

Lemma update_existing_other d l i x :
  presentation_id x ≠ presentation_id d →
  l !! i = Some x → update_existing d l !! i = Some x.
Proof.
  revert i. induction l as [|s l IH]; intros i NE Hi; [done|].
  simpl. destruct (decide _) as [E|NE'].
  - destruct i as [|i]; simpl in *; [|done].
    injection Hi as ->. congruence.
  - destruct i as [|i]; simpl in *; [done|]. by apply IH.
Qed.

Lemma update_existing_first d l i m :
  l !! i = Some m →
  presentation_id m = presentation_id d →
  (∀ j y, (j < i)%nat → l !! j = Some y →
          presentation_id y ≠ presentation_id d) →
  update_existing d l !! i = Some (newer d m).
Proof.
  revert i. induction l as [|s l IH]; intros i Hi E Hfirst; [done|].
  simpl. destruct (decide _) as [E'|NE'].
  - destruct i as [|i]; simpl in *.
    + by injection Hi as ->.
    + exfalso. apply (Hfirst 0%nat s); [lia|done|done].
  - destruct i as [|i]; simpl in *.
    + injection Hi as ->. congruence.
    + apply IH; [done|done|].
      intros j y Hj Hy. apply (Hfirst (Datatypes.S j) y); [lia|done].
Qed.

Lemma merge_slide_other S acc f i x :
  presentation_id x ≠ presentation_id f →
  acc !! i = Some x → merge_slide S acc f !! i = Some x.
Proof.
  intros NE Hi. unfold merge_slide. destruct (decide _).
  - by apply update_existing_other.
  - by apply lookup_app_l_Some.
Qed.

Lemma foldl_merge_slide_other S fs acc i x :
  (∀ f, f ∈ fs → presentation_id f ≠ presentation_id x) →
  acc !! i = Some x → foldl (merge_slide S) acc fs !! i = Some x.
Proof.
  revert acc. induction fs as [|f fs IH]; intros acc Hfs Hi; [done|].
  simpl. apply IH.
  - intros g Hg. apply Hfs. by right.
  - apply merge_slide_other; [|done].
    intros E. apply (Hfs f); [by left|done].
Qed.

Lemma ids_foldl_merge_slide S fs acc :
  ids (foldl (merge_slide S) acc fs)
  = ids acc ++ filter (λ p, p ∉ S) (ids fs).
Proof.
  revert acc. induction fs as [|f fs IH]; intros acc; simpl.
  - by rewrite app_nil_r.
  - rewrite IH. change (ids (f :: fs)) with (presentation_id f :: ids fs).
    rewrite filter_cons. unfold merge_slide.
    destruct (decide (presentation_id f ∈ S)) as [Hin|Hin].
    + rewrite decide_False by (intros H; by apply H).
      by rewrite ids_update_existing.
    + rewrite decide_True by done.
      unfold ids at 1. rewrite fmap_app. simpl.
      by rewrite <- app_assoc.
Qed.

Lemma ids_merge_slides disk mem :
  ids (merge_slides disk mem)
  = ids mem ++ filter (λ p, p ∉ ids mem) (ids disk).
Proof.
  unfold merge_slides. rewrite ids_foldl_merge_slide. f_equal.
  apply list_filter_iff. intros p. by rewrite elem_of_list_to_set.
Qed.

Lemma merge_slides_lookup disk mem i m d :
  slides_unique mem → slides_unique disk →
  mem !! i = Some m → d ∈ disk →
  presentation_id m = presentation_id d →
  merge_slides disk mem !! i = Some (newer d m).
Proof.
  intros Hmem Hdisk Hi Hd E.
  apply list_elem_of_split in Hd as (d1 & d2 & ->).
  unfold slides_unique, ids in Hdisk.
  rewrite fmap_app, fmap_cons in Hdisk.
  apply NoDup_app in Hdisk as (_ & Hd1 & Hd2).
  apply NoDup_cons in Hd2 as [Hd2 _].
  unfold merge_slides. set (S := list_to_set (ids mem) : gset string).
  rewrite foldl_app. simpl.
  apply foldl_merge_slide_other.
  { intros f Hf. rewrite newer_id by done. intros Ef. apply Hd2.
    rewrite <- Ef. by apply list_elem_of_fmap_2. }
  set (acc := foldl (merge_slide S) mem d1).
  assert (Hacc : acc !! i = Some m).
  { apply foldl_merge_slide_other; [|done].
    intros f Hf Ef. apply (Hd1 (presentation_id f)).
    - by apply list_elem_of_fmap_2.
    - rewrite Ef, E. by left. }
  unfold merge_slide. rewrite decide_True.
  2:{ unfold S. rewrite elem_of_list_to_set, <- E.
      apply list_elem_of_fmap_2. by eapply list_elem_of_lookup_2. }
  apply update_existing_first; [done|done|].
  intros j y Hj Hy Ey.
  assert (Hids : ids acc = ids mem ++ filter (λ p, p ∉ S) (ids d1))
    by apply ids_foldl_merge_slide.
  assert (Hlen : (i < length mem)%nat) by by eapply lookup_lt_Some.
  assert (Hj' : ids mem !! j = Some (presentation_id y)).
  { rewrite <- (lookup_app_l (ids mem) (filter (λ p, p ∉ S) (ids d1)))
      by (unfold ids; rewrite length_fmap; lia).
    rewrite <- Hids. unfold ids. by rewrite list_lookup_fmap, Hy. }
  assert (Hi' : ids mem !! i = Some (presentation_id m)).
  { unfold ids. by rewrite list_lookup_fmap, Hi. }
  rewrite Ey, <- E in Hj'.
  pose proof (NoDup_lookup _ _ _ _ Hmem Hj' Hi'). lia.
Qed.

Lemma occurrences_count pid l :
  occurrences pid l = length (filter (λ p, p = pid) (ids l)).
Proof.
  unfold occurrences, ids. induction l as [|s l IH]; [done|].
  rewrite fmap_cons, !filter_cons. simpl.
  destruct (decide _); simpl; by rewrite IH.
Qed.

Lemma filter_eq_absent (pid : string) (ps : list string) :
  pid ∉ ps → filter (λ p, p = pid) ps = [].
Proof.
  induction ps as [|p ps IH]; intros Hnin; [done|].
  apply not_elem_of_cons in Hnin as [NE Hnin].
  rewrite filter_cons_False by congruence. by apply IH.
Qed.

Lemma NoDup_filter_eq_length (pid : string) (ps : list string) :
  NoDup ps → pid ∈ ps → length (filter (λ p, p = pid) ps) = 1%nat.
Proof.
  induction 1 as [|p ps Hp Hnd IH]; intros Hin.
  - by apply elem_of_nil in Hin.
  - destruct (decide (p = pid)) as [->|NE].
    + rewrite filter_cons_True by done.
      by rewrite filter_eq_absent.
    + rewrite filter_cons_False by done.
      apply IH. apply elem_of_cons in Hin as [->|]; done.
Qed.

Lemma merge_slides_unique disk mem :
  slides_unique mem → slides_unique disk →
  slides_unique (merge_slides disk mem).
Proof.
  intros Hmem Hdisk. unfold slides_unique. rewrite ids_merge_slides.
  apply NoDup_app. split; [done|]. split.
  - intros p Hp Hq. by apply list_elem_of_filter in Hq as [Hq _].
  - by apply NoDup_filter.
Qed.

Lemma merge_slides_ids_elem disk mem pid :
  pid ∈ ids (merge_slides disk mem) ↔ pid ∈ ids mem ∨ pid ∈ ids disk.
Proof.
  rewrite ids_merge_slides, elem_of_app, list_elem_of_filter.
  destruct (decide (pid ∈ ids mem)) as [Hin|Hnin]; split.
  - by left.
  - by left.
  - intros [?|[_ ?]]; [by left|by right].
  - intros [?|?]; [by left|by right].
Qed.

End MergeSlides.

Lemma merge_shared_state_slides w :
  slides (shared_data (merge_shared_state w))
  = merge_slides (disk_slides w) (slides (shared_data w)).
Proof.
  unfold merge_shared_state, disk_slides.
  destruct (load_shared_state w) as [fd|]; [|done].
  destruct fd as [fu fs fa fe]. unfold dict_truthy, merge_into. simpl.
  destruct fs as [fs|]; simpl.
  - rewrite orb_true_r. simpl. destruct fu, fa; done.
  - destruct fu, fa, fe; done.
Qed.

(** C1: under the key invariant of both slides lists, a record held in memory
    and a record on disk with the same presentation_id are resolved in place:
    the whole disk record takes the position of the memory record if and only
    if its last_modified is strictly greater as a string; otherwise the
    memory record stays as it is. *)
Theorem merge_newer_disk_record_wins (w : World) (i : nat) (m d : Slide) :
  slides_unique (slides (shared_data w)) →
  slides_unique (disk_slides w) →
  slides (shared_data w) !! i = Some m →
  d ∈ disk_slides w →
  presentation_id m = presentation_id d →
  slides (shared_data (merge_shared_state w)) !! i
  = Some (if Py.str_gt (Py.get (last_modified d) EmptyString)
                       (Py.get (last_modified m) EmptyString)
          then d else m).
Proof.
  intros Hmem Hdisk Hi Hd E. rewrite merge_shared_state_slides.
  by apply merge_slides_lookup.
Qed.

Lemma merge_newer_disk_record_wins_witness :
  slides (shared_data (merge_shared_state
            (Sample.world [Sample.A_memory] (Sample.file [Sample.A_disk])))) !! 0%nat
  = Some Sample.A_disk
  ∧ slide_count Sample.A_disk = Some 7.
Proof.
  split; [|reflexivity].
  apply (merge_newer_disk_record_wins
           (Sample.world [Sample.A_memory] (Sample.file [Sample.A_disk]))
           0%nat Sample.A_memory Sample.A_disk).
  - apply NoDup_singleton.
  - apply NoDup_singleton.
  - reflexivity.
  - apply list_elem_of_here.
  - reflexivity.
Defined.

(** C2: when presentation_id is a key of the slides list in memory and of the
    slides list on disk, it is a key of the merged list, and every id of
    either input occurs in the merged list exactly once. *)
Theorem merge_keeps_each_id_once (w : World) :
  slides_unique (slides (shared_data w)) →
  slides_unique (disk_slides w) →
  slides_unique (slides (shared_data (merge_shared_state w)))
  ∧ ∀ pid,
      pid ∈ ids (slides (shared_data w)) ∨ pid ∈ ids (disk_slides w) →
      occurrences pid (slides (shared_data (merge_shared_state w))) = 1%nat.
Proof.
  intros Hmem Hdisk. rewrite merge_shared_state_slides.
  pose proof (merge_slides_unique _ _ Hmem Hdisk) as Hu.
  split; [done|]. intros pid Hpid.
  rewrite occurrences_count. apply NoDup_filter_eq_length; [done|].
  by apply merge_slides_ids_elem.
Qed.

Lemma merge_keeps_each_id_once_witness :
  occurrences "A" (slides (shared_data (merge_shared_state
     (Sample.world [Sample.A_memory]
                   (Sample.file [Sample.B_disk; Sample.A_disk]))))) = 1%nat
  ∧ occurrences "B" (slides (shared_data (merge_shared_state
     (Sample.world [Sample.A_memory]
                   (Sample.file [Sample.B_disk; Sample.A_disk]))))) = 1%nat.
Proof.
  assert (Hd : slides_unique [Sample.B_disk; Sample.A_disk]).
  { apply NoDup_cons_2; [|apply NoDup_singleton].
    intros H. apply list_elem_of_singleton in H. discriminate H. }
  destruct (merge_keeps_each_id_once
              (Sample.world [Sample.A_memory]
                            (Sample.file [Sample.B_disk; Sample.A_disk]))
              (NoDup_singleton _) Hd) as [_ Hocc].
  split; apply Hocc.
  - left. apply list_elem_of_here.
  - right. apply list_elem_of_here.
Defined.

(** ** StateMerger: persistence *)

Lemma merge_into_truthy_saves w fd :
  load_shared_state w = Some fd → dict_truthy fd = true →
  merge_shared_state w = save_shared_state (set_shared (merge_into fd) w).
Proof. intros Hl Ht. unfold merge_shared_state. by rewrite Hl, Ht. Qed.

(** C4, as the code has it: merge ends with a save of the merged state when
    the backing file loads as a non-empty object, and the file then holds the
    merged state if it can be written; when the file is absent, unreadable,
    malformed or an empty object, merge returns at once and nothing is
    saved. *)
Theorem merge_saves_when_file_loaded (w : World) :
  match load_shared_state w with
  | Some fd =>
      if dict_truthy fd then
        ends_with_save w (merge_shared_state w)
        ∧ shared_data (merge_shared_state w) = merge_into fd (shared_data w)
        ∧ (db_writable w = true →
           db_file (merge_shared_state w)
           = Parsed (dump (shared_data (merge_shared_state w))))
      else merge_shared_state w = w
  | None => merge_shared_state w = w
  end.
Proof.
  unfold merge_shared_state.
  destruct (load_shared_state w) as [fd|]; [|done].
  destruct (dict_truthy fd); [|done].
  split; [done|]. split; [done|]. simpl. by intros ->.
Qed.

(** C4, counterexample: with the backing file absent, merge performs no
    save. *)
Lemma merge_without_file_does_not_save :
  ¬ ends_with_save (Sample.world [Sample.A_memory] Absent)
      (merge_shared_state (Sample.world [Sample.A_memory] Absent)).
Proof. unfold ends_with_save. simpl. discriminate. Qed.

(** ** PersistentStore: load *)

Section Load.

Variable sha256_hex : string → string.

(** C5: load is a total function of the condition of the backing file.  An
    absent, unreadable or malformed file gives the bootstrap state, whose
    only user is admin with role admin and whose slides and activities are
    empty; a parsed object gives its own value for each top-level key it
    has and the default for each key it lacks. *)
Theorem initialize_defaults (f : FileCond) :
  match f with
  | Absent | Unreadable | Malformed =>
      initialize_shared_state sha256_hex f = bootstrap sha256_hex
  | Parsed data =>
      users (initialize_shared_state sha256_hex f)
        = default (users (bootstrap sha256_hex)) (fd_users data)
      ∧ slides (initialize_shared_state sha256_hex f)
        = default (slides (bootstrap sha256_hex)) (fd_slides data)
      ∧ activities (initialize_shared_state sha256_hex f)
        = default (activities (bootstrap sha256_hex)) (fd_activities data)
  end
  ∧ dom (users (bootstrap sha256_hex)) = {["admin"]}
  ∧ role <$> users (bootstrap sha256_hex) !! "admin" = Some (Some "admin")
  ∧ slides (bootstrap sha256_hex) = []
  ∧ activities (bootstrap sha256_hex) = [].
Proof.
  split.
  - destruct f as [| | |[fu fs fa fe]]; try reflexivity.
    unfold initialize_shared_state. simpl.
    by destruct fu, fs, fa.
  - simpl. unfold default_users. split; [|done].
    by rewrite dom_singleton_L.
Qed.

End Load.

(** ** Registry: registration *)

Section Register.

Variable sha256_hex : string → string.
Variable now : nat → string.

(** C6, as the code has it: the form checks the duplicate username first,
    then the confirmation, then the length.  An existing username gives
    DuplicateUser, a new username with a differing confirmation gives
    PasswordMismatch, a new username with a matching confirmation shorter
    than 6 gives WeakPassword, and each failure leaves the state as it
    was; otherwise the user is stored with role member and the hash of the
    password, and one REGISTER activity is appended. *)
Theorem register_click_cases (w : World) (u p c : string) :
  (is_Some (users (shared_data w) !! u) →
   register_click sha256_hex now u p c w = ([DuplicateUser], w))
  ∧ (users (shared_data w) !! u = None → p ≠ c →
     register_click sha256_hex now u p c w = ([PasswordMismatch], w))
  ∧ (users (shared_data w) !! u = None → p = c →
     (String.length p < 6)%nat →
     register_click sha256_hex now u p c w = ([WeakPassword], w))
  ∧ (users (shared_data w) !! u = None → p = c →
     (6 ≤ String.length p)%nat →
     let w' := (register_click sha256_hex now u p c w).2 in
     users (shared_data w')
     = <[u := {| password := sha256_hex p; role := Some "member";
                 last_login := None |}]> (users (shared_data w))
     ∧ slides (shared_data w') = slides (shared_data w)
     ∧ activities (shared_data w')
       = activities (shared_data w)
           ++ [{| timestamp := now (ticks w); user := u;
                  action := "REGISTER";
                  details := "New user registered" |}]).
Proof.
  unfold register_click. split; [|split; [|split]].
  - intros Hu. by rewrite decide_True.
  - intros Hu Hpc. rewrite decide_False by (rewrite Hu; by intros [? ?]).
    by rewrite decide_True.
  - intros Hu Hpc Hlen. rewrite decide_False by (rewrite Hu; by intros [? ?]).
    rewrite decide_False by (intros H; by apply H).
    by rewrite decide_True.
  - intros Hu Hpc Hlen. rewrite decide_False by (rewrite Hu; by intros [? ?]).
    rewrite decide_False by (intros Hn; by apply Hn).
    rewrite decide_False by lia. done.
Qed.

End Register.

(** ** Registry: the update scan *)

Section CheckForUpdates.

Variable now : nat → string.
Variable service : Service.

Implicit Types (l pre rest : list Slide) (s : Slide) (w : World).

Lemma needs_update_true s :
  needs_update service s = true ↔
  ∃ details, get_presentation_details service (presentation_id s) = Some details
             ∧ det_slide_count details ≠ Py.get (slide_count s) 0.
Proof.
  unfold needs_update. destruct (get_presentation_details service _) as [details|].
  - rewrite bool_decide_eq_true. split; [by eauto|].
    by intros (? & [= <-] & ?).
  - split; [done|]. by intros (? & ? & _).
Qed.

(** One step of the scan, by cases. *)
Lemma scan_cons t s rest :
  scan now service t (s :: rest)
  = if needs_update service s then
      match get_presentation_details service (presentation_id s) with
      | Some details =>
          (apply_details details (now t) s
             :: (scan now service (2 + t) rest).1.1,
           update_activity (now (S t)) details s
             :: (scan now service (2 + t) rest).1.2,
           (scan now service (2 + t) rest).2)
      | None => ([], [], t)
      end
    else (s :: (scan now service t rest).1.1,
          (scan now service t rest).1.2,
          (scan now service t rest).2).
Proof.
  unfold needs_update. simpl.
  destruct (get_presentation_details service (presentation_id s)) as [details|].
  - destruct (decide _) as [NE|E].
    + rewrite bool_decide_eq_true_2 by done.
      by destruct (scan now service (S (S t)) rest) as [[? ?] ?].
    + rewrite bool_decide_eq_false_2 by done.
      by destruct (scan now service t rest) as [[? ?] ?].
  - by destruct (scan now service t rest) as [[? ?] ?].
Qed.

Lemma check_one_step b w pre s rest :
  slides (shared_data w) = pre ++ s :: rest →
  if needs_update service s then
    ∃ details w',
      get_presentation_details service (presentation_id s) = Some details
      ∧ check_one now service (b, w) (length pre) = (true, w')
      ∧ slides (shared_data w')
        = pre ++ apply_details details (now (ticks w)) s :: rest
      ∧ activities (shared_data w')
        = activities (shared_data w)
            ++ [update_activity (now (S (ticks w))) details s]
      ∧ ticks w' = (2 + ticks w)%nat
  else check_one now service (b, w) (length pre) = (b, w).
Proof.
  intros Hsl. unfold check_one, needs_update.
  rewrite Hsl, list_lookup_middle by done.
  destruct (get_presentation_details service (presentation_id s)) as [details|]; [|done].
  destruct (decide _) as [NE|E].
  - rewrite bool_decide_eq_true_2 by done.
    eexists _, _. split; [done|]. split; [done|]. simpl.
    rewrite Hsl. split; [|done].
    rewrite insert_app_r_alt by done.
    by rewrite Nat.sub_diag.
  - by rewrite bool_decide_eq_false_2.
Qed.

Lemma scan_loop rest : ∀ pre b w,
  slides (shared_data w) = pre ++ rest →
  ∃ b' w',
    foldl (check_one now service) (b, w) (seq (length pre) (length rest))
    = (b', w')
    ∧ slides (shared_data w') = pre ++ (scan now service (ticks w) rest).1.1
    ∧ activities (shared_data w')
      = activities (shared_data w) ++ (scan now service (ticks w) rest).1.2
    ∧ ticks w' = (scan now service (ticks w) rest).2
    ∧ b' = b || existsb (needs_update service) rest.
Proof.
  induction rest as [|s rest IH]; intros pre b w Hsl.
  - exists b, w. simpl. by rewrite Hsl, !app_nil_r, orb_false_r.
  - cbn [length seq foldl existsb].
    pose proof (check_one_step b w pre s rest Hsl) as Hstep.
    rewrite scan_cons.
    destruct (needs_update service s).
    + destruct Hstep as (details & w1 & Hsv & -> & Hsl' & Hact & Htk).
      rewrite Hsv. rewrite (cons_middle _ pre rest), app_assoc in Hsl'.
      destruct (IH _ true w1 Hsl') as (b' & w' & Hf & H1 & H2 & H3 & H4).
      rewrite length_app, Nat.add_1_r in Hf.
      exists b', w'. rewrite Htk in *. cbn [fst snd].
      rewrite Hf, H1, H2, H3, H4, Hact, <- !app_assoc. simpl.
      by rewrite orb_true_r.
    + rewrite Hstep. rewrite (cons_middle _ pre rest), app_assoc in Hsl.
      destruct (IH _ b w Hsl) as (b' & w' & Hf & H1 & H2 & H3 & H4).
      rewrite length_app, Nat.add_1_r in Hf.
      exists b', w'. cbn [fst snd].
      rewrite Hf, H1, H2, H3, H4, <- !app_assoc. done.
Qed.

(** The pure scan, position by position. *)
Lemma scan_length t l : length (scan now service t l).1.1 = length l.
Proof.
  revert t. induction l as [|s l IH]; intros t; [done|].
  rewrite scan_cons. destruct (needs_update service s) eqn:Hn.
  - apply needs_update_true in Hn as (details & -> & _). simpl. by rewrite IH.
  - simpl. by rewrite IH.
Qed.

Lemma scan_ticks t l :
  (scan now service t l).2
  = (t + 2 * length (filter (λ s, needs_update service s = true) l))%nat.
Proof.
  revert t. induction l as [|s l IH]; intros t; [simpl; lia|].
  rewrite scan_cons. destruct (needs_update service s) eqn:Hn.
  - rewrite filter_cons_True by done.
    apply needs_update_true in Hn as (details & -> & _). simpl.
    rewrite IH. simpl. lia.
  - rewrite filter_cons_False by (rewrite Hn; done). simpl. by rewrite IH.
Qed.

Lemma scan_lookup l : ∀ t i s,
  l !! i = Some s →
  (scan now service t l).1.1 !! i
  = Some (match get_presentation_details service (presentation_id s) with
          | Some details =>
              if decide (det_slide_count details = Py.get (slide_count s) 0)
              then s
              else apply_details details
                     (now (t + 2 * updates_before service l i)) s
          | None => s
          end).
Proof.
  induction l as [|x l IH]; intros t i s Hi; [done|].
  rewrite scan_cons. destruct i as [|i]; simpl in Hi.
  - injection Hi as ->. unfold updates_before. simpl.
    rewrite Nat.add_0_r. unfold needs_update.
    destruct (get_presentation_details service (presentation_id s)) as [details|]; [|done].
    destruct (decide (_ = _)) as [E|NE].
    + by rewrite bool_decide_eq_false_2 by (intros H; by apply H).
    + by rewrite bool_decide_eq_true_2.
  - unfold updates_before. rewrite firstn_cons.
    destruct (needs_update service x) eqn:Hn.
    + rewrite filter_cons_True by done.
      apply needs_update_true in Hn as (dx & -> & _). simpl.
      rewrite (IH _ _ _ Hi). unfold updates_before. f_equal.
      destruct (get_presentation_details service (presentation_id s)); [|done].
      destruct (decide _); [done|]. do 2 f_equal. lia.
    + rewrite filter_cons_False by (rewrite Hn; done). simpl.
      by rewrite (IH _ _ _ Hi).
Qed.

Lemma scan_activities t l :
  user <$> (scan now service t l).1.2
  = uploader <$> filter (λ s, needs_update service s = true) l
  ∧ Forall (λ a, action a = "SLIDE_UPDATE") (scan now service t l).1.2.
Proof.
  revert t. induction l as [|s l IH]; intros t; [by split|].
  rewrite scan_cons. destruct (needs_update service s) eqn:Hn.
  - rewrite filter_cons_True by done.
    apply needs_update_true in Hn as (details & -> & _).
    destruct (IH (2 + t)%nat) as [IH1 IH2]. cbn [fst snd].
    rewrite !fmap_cons, IH1. split; [done|]. by constructor.
  - rewrite filter_cons_False by (rewrite Hn; done). simpl. apply IH.
Qed.

Lemma updated_le_successful l :
  (length (filter (λ s, needs_update service s = true) l)
   ≤ length l - length (filter (λ s, fetch_fails service s = true) l))%nat.
Proof.
  induction l as [|s l IH]; [done|].
  pose proof (length_filter (λ s, fetch_fails service s = true) l).
  unfold needs_update, fetch_fails in *. rewrite !filter_cons.
  destruct (get_presentation_details service (presentation_id s)) as [details|]; simpl.
  - destruct (decide _); simpl; lia.
  - destruct (decide (false = true)); [done|]. simpl. lia.
Qed.

Lemma merge_shared_state_ticks w : ticks (merge_shared_state w) = ticks w.
Proof.
  unfold merge_shared_state. destruct (load_shared_state w) as [fd|]; [|done].
  by destruct (dict_truthy fd).
Qed.

(** The scan of [check_for_updates] is the pure scan of the merged list. *)
Lemma check_for_updates_scan w :
  let w0 := merge_shared_state w in
  let old := slides (shared_data w0) in
  let r := check_for_updates now (Some service) w in
  slides (shared_data r.2) = (scan now service (ticks w) old).1.1
  ∧ activities (shared_data r.2)
    = activities (shared_data w0) ++ (scan now service (ticks w) old).1.2
  ∧ r.1 = existsb (needs_update service) old.
Proof.
  cbv zeta. unfold check_for_updates, refresh_shared_state. cbn [snd].
  destruct (scan_loop (slides (shared_data (merge_shared_state w))) []
              false (merge_shared_state w) eq_refl)
    as (b' & w' & Hf & H1 & H2 & H3 & H4).
  simpl in Hf. rewrite Hf. rewrite merge_shared_state_ticks in *.
  simpl in H1, H4. subst b'.
  by destruct (existsb _ _).
Qed.

(** C7: with a slides service at hand, the scan is a total function that
    goes through every record of the merged list: a record whose fetch
    fails, or whose fetched count equals the stored one, is left as it is;
    every other record gets the fetched slide count, the fetched title and
    the clock reading of its rewrite as last_modified, and keeps its other
    fields; the number of rewritten records is at most N - K for N records
    and K failing fetches; and one SLIDE_UPDATE activity is appended per
    rewritten record, in scan order, under the record's uploader. *)
Theorem check_for_updates_tolerates_failures (w : World) :
  let old := slides (shared_data (merge_shared_state w)) in
  let r := check_for_updates now (Some service) w in
  let new := slides (shared_data r.2) in
  let updated := filter (λ s, needs_update service s = true) old in
  let failing := filter (λ s, fetch_fails service s = true) old in
  length new = length old
  ∧ (∀ i s, old !! i = Some s →
       new !! i
       = Some (match get_presentation_details service (presentation_id s) with
               | Some details =>
                   if decide (det_slide_count details
                              = Py.get (slide_count s) 0)
                   then s
                   else
                     {| title := Some (det_title details);
                        presentation_id := presentation_id s;
                        presentation_link := presentation_link s;
                        description := description s;
                        uploader := uploader s;
                        upload_date := upload_date s;
                        slide_count := Some (det_slide_count details);
                        last_modified :=
                          Some (now (ticks w
                                     + 2 * updates_before service old i));
                        status := status s |}
               | None => s
               end))
  ∧ (length updated ≤ length old - length failing)%nat
  ∧ (∃ logged,
       activities (shared_data r.2)
       = activities (shared_data (merge_shared_state w)) ++ logged
       ∧ user <$> logged = uploader <$> updated
       ∧ Forall (λ a, action a = "SLIDE_UPDATE") logged)
  ∧ r.1 = existsb (needs_update service) old.
Proof.
  cbv zeta. destruct (check_for_updates_scan w) as (Hs & Ha & Hb).
  rewrite Hs, Ha, Hb. split; [apply scan_length|].
  split; [intros i s Hi; by apply scan_lookup|].
  split; [apply updated_le_successful|].
  split; [|done]. eexists. split; [done|]. apply scan_activities.
Qed.

(** C10: a record whose fetched slide count differs from the stored one
    gets, besides the new slide_count, the fetched title and a
    last_modified read from the clock at the moment of the rewrite (the
    clock is read twice for every record rewritten before it, once for the
    record and once for its activity); every other field keeps its value.
    last_modified is the field the merge compares. *)
Theorem check_for_updates_sets_title_and_stamp (w : World) (i : nat)
    (s : Slide) (fetched : Details) :
  let old := slides (shared_data (merge_shared_state w)) in
  old !! i = Some s →
  get_presentation_details service (presentation_id s) = Some fetched →
  det_slide_count fetched ≠ Py.get (slide_count s) 0 →
  slides (shared_data (check_for_updates now (Some service) w).2) !! i
  = Some {| title := Some (det_title fetched);
            presentation_id := presentation_id s;
            presentation_link := presentation_link s;
            description := description s;
            uploader := uploader s;
            upload_date := upload_date s;
            slide_count := Some (det_slide_count fetched);
            last_modified :=
              Some (now (ticks w + 2 * updates_before service old i));
            status := status s |}.
Proof.
  cbv zeta. intros Hi Hf NE.
  destruct (check_for_updates_scan w) as (Hs & _ & _).
  rewrite Hs, (scan_lookup _ _ _ _ Hi), Hf.
  by rewrite decide_False.
Qed.

End CheckForUpdates.

(** ** Registry: removal *)

Section Remove.

Variable now : nat → string.

Implicit Types (l pre post : list Slide) (s : Slide) (w : World).

Lemma pop_first_absent pid l : pid ∉ ids l → pop_first pid l = None.
Proof.
  induction l as [|s l IH]; intros Hn; [done|].
  apply not_elem_of_cons in Hn as [NE Hn]. simpl.
  rewrite decide_False by congruence. by rewrite IH.
Qed.

Lemma pop_first_present pid l :
  pid ∈ ids l →
  ∃ pre s post,
    l = pre ++ s :: post ∧ presentation_id s = pid ∧ (pid ∉ ids pre)
    ∧ pop_first pid l = Some (pre ++ post).
Proof.
  induction l as [|x l IH]; intros Hin; [by apply elem_of_nil in Hin|].
  simpl. destruct (decide (presentation_id x = pid)) as [E|NE].
  - exists [], x, l. repeat split; [done|]. apply not_elem_of_nil.
  - apply elem_of_cons in Hin as [E|Hin]; [congruence|].
    destruct (IH Hin) as (pre & s & post & -> & E & Hpre & ->).
    exists (x :: pre), s, post. repeat split; [done|].
    apply not_elem_of_cons. split; [congruence|done].
Qed.

Lemma list_find_first pid pre s post :
  presentation_id s = pid → pid ∉ ids pre →
  list_find (λ x, presentation_id x = pid) (pre ++ s :: post)
  = Some (length pre, s).
Proof.
  intros E. induction pre as [|x pre IH]; intros Hn; simpl.
  - by rewrite decide_True.
  - apply not_elem_of_cons in Hn as [NE Hn].
    rewrite decide_False by congruence. by rewrite IH.
Qed.

Lemma list_find_absent pid l :
  pid ∉ ids l → list_find (λ x, presentation_id x = pid) l = None.
Proof.
  induction l as [|x l IH]; intros Hn; [done|].
  apply not_elem_of_cons in Hn as [NE Hn]. simpl.
  rewrite decide_False by congruence. by rewrite IH.
Qed.

Lemma unique_middle pre s post x :
  slides_unique (pre ++ s :: post) → x ∈ pre ++ s :: post →
  presentation_id x = presentation_id s → x = s.
Proof.
  unfold slides_unique, ids. rewrite fmap_app, fmap_cons.
  intros Hnd Hx E. apply NoDup_app in Hnd as (_ & Hpre & Hnd).
  apply NoDup_cons in Hnd as [Hpost _].
  apply elem_of_app in Hx as [Hx|Hx].
  - exfalso. apply (Hpre (presentation_id x)).
    + by apply list_elem_of_fmap_2.
    + rewrite E. by left.
  - apply elem_of_cons in Hx as [->|Hx]; [done|].
    exfalso. apply Hpost. rewrite <- E. by apply list_elem_of_fmap_2.
Qed.

(** What either button does once pressed on a record. *)
Lemma remove_handler_present action prefix success current_user slide w :
  presentation_id slide ∈ ids (slides (shared_data w)) →
  ∃ pre s post,
    slides (shared_data w) = pre ++ s :: post
    ∧ presentation_id s = presentation_id slide
    ∧ (presentation_id slide ∉ ids pre)
    ∧ (remove_handler now action prefix success current_user slide w).1
      = [st_success success]
    ∧ slides (shared_data
        (remove_handler now action prefix success current_user slide w).2)
      = pre ++ post
    ∧ activities (shared_data
        (remove_handler now action prefix success current_user slide w).2)
      = activities (shared_data w)
          ++ [{| timestamp := now (ticks w); user := current_user;
                 action := action;
                 details := prefix +:+ Py.get (title slide) "Untitled"
                              +:+ "'" |}].
Proof.
  intros Hin. destruct (pop_first_present _ _ Hin)
    as (pre & s & post & Hl & E & Hpre & Hpop).
  exists pre, s, post. unfold remove_handler. rewrite Hpop. done.
Qed.

Lemma remove_handler_absent action prefix success current_user slide w :
  presentation_id slide ∉ ids (slides (shared_data w)) →
  remove_handler now action prefix success current_user slide w = ([], w).
Proof.
  intros Hn. unfold remove_handler. by rewrite pop_first_absent.
Qed.

Lemma merge_shared_state_keeps_ids w pid :
  pid ∈ ids (slides (shared_data w)) →
  pid ∈ ids (slides (shared_data (merge_shared_state w))).
Proof.
  intros Hin. rewrite merge_shared_state_slides, ids_merge_slides.
  apply elem_of_app. by left.
Qed.

Lemma check_admin_access_role current_user w :
  (check_admin_access true current_user w).1 = true ↔
  ∃ u, users (shared_data (merge_shared_state w)) !! current_user = Some u
       ∧ Py.get (role u) "member" = "admin".
Proof.
  unfold check_admin_access, refresh_shared_state. simpl.
  destruct (users _ !! current_user) as [u|]; simpl.
  - rewrite bool_decide_eq_true. split; [by eauto|].
    by intros (? & [= <-] & ?).
  - split; [done|]. by intros (? & ? & _).
Qed.

Lemma admin_count_ok (session_users : gmap string User) :
  (∀ username u, session_users !! username = Some u → is_Some (role u)) →
  ∃ n, admin_count session_users = inr n.
Proof.
  intros H. unfold admin_count. rewrite decide_True; [by eexists|exact H].
Qed.

Lemma admin_count_raises (session_users : gmap string User) username u :
  session_users !! username = Some u → role u = None →
  admin_count session_users = inl (KeyError "role").
Proof.
  intros Hu Hr. unfold admin_count. rewrite decide_False; [done|].
  intros H. destruct (H username u Hu) as [r Hr']. congruence.
Qed.

Lemma check_admin_access_world current_user w :
  (check_admin_access true current_user w).2 = merge_shared_state w.
Proof.
  unfold check_admin_access, refresh_shared_state. simpl.
  by destruct (users _ !! current_user).
Qed.

Lemma get_user_role_keeps_ids username w pid :
  pid ∈ ids (slides (shared_data w)) →
  pid ∈ ids (slides (shared_data (get_user_role username w).2)).
Proof.
  intros Hin. unfold get_user_role, refresh_shared_state.
  destruct (users (shared_data w) !! username); [|done]. simpl.
  destruct (users _ !! username); simpl;
    by apply merge_shared_state_keeps_ids.
Qed.

(** C8, as the code has it: removal is two button handlers and neither
    reports NotFound or Forbidden.  Pressed on an id no record carries, a
    handler changes nothing and shows nothing.  The My Uploads tab offers
    its Delete button only on records uploaded by the acting user; pressed,
    it removes the first record with that id (the offered record itself
    when ids are unique) and appends a DELETE activity.  The Admin tab
    reaches its Remove button only when the stored role of the acting user
    is admin and every stored user has a role; pressed, it removes the
    first record with that id, whoever uploaded it, and appends an
    ADMIN_DELETE activity, stamped with the clock reading after the one the
    export button takes.  With a user that has no role the tab raises
    KeyError before any button and leaves the refreshed state; for an
    acting user who is not admin the tab shows a warning and removes no
    record. *)
Theorem removal_is_gated_by_the_tabs (current_user : string) (w : World) :
  (∀ slide,
     presentation_id slide ∉ ids (slides (shared_data w)) →
     delete_handler now current_user slide w = ([], w)
     ∧ admin_remove_handler now current_user slide w = ([], w))
  ∧ (∀ idx slide,
       my_slides current_user (merge_shared_state w) !! idx = Some slide →
       uploader slide = current_user
       ∧ ∃ pre s post,
           slides (shared_data (merge_shared_state w)) = pre ++ s :: post
           ∧ presentation_id s = presentation_id slide
           ∧ (presentation_id slide ∉ ids pre)
           ∧ (slides_unique (slides (shared_data (merge_shared_state w))) →
              s = slide)
           ∧ (my_uploads_delete_click now current_user idx w).1
             = [st_success "Deleted!"]
           ∧ slides (shared_data
               (my_uploads_delete_click now current_user idx w).2)
             = pre ++ post
           ∧ activities (shared_data
               (my_uploads_delete_click now current_user idx w).2)
             = activities (shared_data (merge_shared_state w))
                 ++ [{| timestamp := now (ticks w); user := current_user;
                        action := "DELETE";
                        details := "Deleted '"
                                     +:+ Py.get (title slide) "Untitled"
                                     +:+ "'" |}])
  ∧ (∀ pid,
       let w1 := merge_shared_state (merge_shared_state w) in
       let w2 := merge_shared_state w1 in
       (check_admin_access true current_user w).1 = true →
       (∀ username u,
          users (shared_data w1) !! username = Some u → is_Some (role u)) →
       pid ∈ ids (slides (shared_data w2)) →
       ∃ pre s post,
         slides (shared_data w2) = pre ++ s :: post
         ∧ presentation_id s = pid
         ∧ (pid ∉ ids pre)
         ∧ (admin_remove_click now current_user pid w).1
           = inr [st_success "Removed!"]
         ∧ slides (shared_data (admin_remove_click now current_user pid w).2)
           = pre ++ post
         ∧ activities (shared_data
             (admin_remove_click now current_user pid w).2)
           = activities (shared_data w2)
               ++ [{| timestamp := now (S (ticks w)); user := current_user;
                      action := "ADMIN_DELETE";
                      details := "Admin removed '"
                                   +:+ Py.get (title s) "Untitled"
                                   +:+ "'" |}])
  ∧ (∀ pid username u,
       let w1 := merge_shared_state (merge_shared_state w) in
       (check_admin_access true current_user w).1 = true →
       users (shared_data w1) !! username = Some u → role u = None →
       admin_remove_click now current_user pid w = (inl (KeyError "role"), w1))
  ∧ (∀ pid,
       (check_admin_access true current_user w).1 = false →
       (∃ shown, (admin_remove_click now current_user pid w).1
                 = inr [st_warning "Admin access only"; st_info shown])
       ∧ ∀ kept, kept ∈ ids (slides (shared_data w)) →
           kept ∈ ids (slides (shared_data
                     (admin_remove_click now current_user pid w).2)))
  ∧ ((check_admin_access true current_user w).1 = true ↔
     ∃ u, users (shared_data (merge_shared_state w)) !! current_user = Some u
          ∧ Py.get (role u) "member" = "admin").
Proof.
  split; [|split; [|split; [|split; [|split]]]].
  - intros slide Hn. split; by apply remove_handler_absent.
  - intros idx slide Hidx.
    apply list_elem_of_lookup_2 in Hidx as Hin.
    apply list_elem_of_filter in Hin as [Hup Hin]. split; [done|].
    assert (Hid : presentation_id slide
                  ∈ ids (slides (shared_data (merge_shared_state w))))
      by by apply list_elem_of_fmap_2.
    destruct (remove_handler_present "DELETE" "Deleted '" "Deleted!"
                current_user slide _ Hid)
      as (pre & s & post & Hl & E & Hpre & Hn & Hs & Ha).
    exists pre, s, post.
    unfold my_uploads_delete_click, refresh_shared_state. cbn [snd].
    rewrite Hidx. unfold delete_handler.
    rewrite merge_shared_state_ticks in Ha.
    repeat split; try done.
    intros Hu. symmetry. rewrite Hl in Hu, Hin.
    by apply (unique_middle pre s post slide Hu Hin).
  - intros pid w1 w2 Hadm Hroles Hin.
    destruct (pop_first_present _ _ Hin)
      as (pre & s & post & Hl & E & Hpre & Hpop).
    exists pre, s, post.
    unfold admin_remove_click.
    pose proof (check_admin_access_world current_user w) as Hw.
    destruct (check_admin_access true current_user w) as [is_admin w0].
    simpl in Hadm, Hw. subst is_admin w0.
    unfold refresh_shared_state. cbn [snd]. fold w1.
    destruct (admin_count_ok _ Hroles) as [n ->]. fold w2.
    change (slides (shared_data (tick w2))) with (slides (shared_data w2)).
    rewrite Hl, (list_find_first pid pre s post E Hpre).
    unfold admin_remove_handler, remove_handler.
    change (slides (shared_data (tick w2))) with (slides (shared_data w2)).
    rewrite <- Hl, E, Hpop. subst w2 w1.
    repeat split; try done. simpl.
    by rewrite !merge_shared_state_ticks.
  - intros pid username u w1 Hadm Hu Hr.
    unfold admin_remove_click.
    pose proof (check_admin_access_world current_user w) as Hw.
    destruct (check_admin_access true current_user w) as [is_admin w0].
    simpl in Hadm, Hw. subst is_admin w0.
    unfold refresh_shared_state. cbn [snd]. fold w1.
    by rewrite (admin_count_raises _ _ _ Hu Hr).
  - intros pid Hadm. unfold admin_remove_click.
    pose proof (check_admin_access_world current_user w) as Hw.
    destruct (check_admin_access true current_user w) as [is_admin w0].
    simpl in Hadm, Hw. subst is_admin w0.
    destruct (get_user_role current_user (merge_shared_state w))
      as [shown w1] eqn:Hrole.
    split; [by eexists|]. intros kept Hk. cbn [snd].
    change w1 with ((shown, w1).2). rewrite <- Hrole.
    by apply get_user_role_keeps_ids, merge_shared_state_keeps_ids.
  - apply check_admin_access_role.
Qed.

End Remove.

(** ** ReportBuilder *)

Section Reports.

Import Report.

Implicit Types (l : list Slide) (fs : FS) (env : Env).

Lemma uploader_list_length l : length (uploader_list l) = distinctUploaders l.
Proof.
  unfold uploader_list, distinctUploaders.
  assert (E : (list_to_set (uploader <$> l) : gset string)
              = list_to_set (remove_dups (uploader <$> l))).
  { apply set_eq. intros x.
    by rewrite !elem_of_list_to_set, elem_of_remove_dups. }
  rewrite E. apply Permutation_length, elements_list_to_set,
    NoDup_remove_dups.
Qed.

Lemma foldl_add_shift (a : Z) (zs : list Z) :
  foldl Z.add a zs = a + foldl Z.add 0 zs.
Proof.
  revert a. induction zs as [|z zs IH]; intros a; cbn [foldl]; [lia|].
  rewrite (IH (a + z)), (IH (0 + z)). lia.
Qed.

Lemma slide_total_sum l : slide_total l = totalSlides l.
Proof.
  unfold slide_total, Py.sum, Py.get.
  induction l as [|s l IH]; [done|].
  rewrite fmap_cons. simpl. rewrite foldl_add_shift.
  fold (Py.sum ((λ slide, default 0 (slide_count slide)) <$> l)).
  unfold Py.sum. by rewrite IH.
Qed.

(** A run of the text-only builder: the temporary file is created first;
    it is unlinked after a successful [c.save()] and left behind after a
    failed one. *)
Lemma create_simple_combined_pdf_run env l fs :
  create_simple_combined_pdf env l fs
  = if build_ok env then
      (Some (Some (pdf_document false l)),
       {| tmp_files := delete (fresh fs) (tmp_files fs);
          fresh := S (fresh fs) |})
    else
      (Some None,
       {| tmp_files := <[fresh fs := None]> (tmp_files fs);
          fresh := S (fresh fs) |}).
Proof.
  unfold create_simple_combined_pdf, try_except, bind, NamedTemporaryFile,
    write_pdf, read_file, unlink, ret. simpl.
  destruct (build_ok env); [|done]. simpl.
  repeat (rewrite lookup_insert_eq; simpl).
  by rewrite !delete_insert_eq.
Qed.

Lemma create_image_combined_pdf_run env l fs :
  create_image_combined_pdf env l fs
  = if negb (google_creds env) then (Some None, fs)
    else if negb (services_up env) || negb (build_ok env) then
      (Some None,
       {| tmp_files := <[fresh fs := None]> (tmp_files fs);
          fresh := S (fresh fs) |})
    else
      (Some (Some (pdf_document true l)),
       {| tmp_files := delete (fresh fs) (tmp_files fs);
          fresh := S (fresh fs) |}).
Proof.
  unfold create_image_combined_pdf, try_except, bind, NamedTemporaryFile,
    write_pdf, read_file, unlink, ret. simpl.
  destruct (google_creds env); [|done]. simpl.
  destruct (services_up env); [|done]. simpl.
  destruct (build_ok env); [|done]. simpl.
  repeat (rewrite lookup_insert_eq; simpl).
  by rewrite !delete_insert_eq.
Qed.

(** C9: the three builders compute the same uploader list and the same
    total; the length of the list is the number of distinct uploader values,
    that is the size of the set of uploaders, the total is the sum of the
    slide counts, and each document they produce prints these values. *)
Theorem builders_agree_on_statistics (l : list Slide) :
  image_pdf_stats l = simple_pdf_stats l
  ∧ simple_pdf_stats l = html_stats l
  ∧ length (html_stats l).1 = distinctUploaders l
  ∧ (html_stats l).2 = totalSlides l
  ∧ distinctUploaders l = size (list_to_set (uploader <$> l) : gset string)
  ∧ (∀ env fs,
       match (create_image_combined_pdf env l fs).1 with
       | Some (Some doc) =>
           doc_member_count doc = Some (distinctUploaders l)
           ∧ doc_total_slides doc = totalSlides l
       | _ => google_creds env && services_up env && build_ok env = false
       end)
  ∧ (∀ env fs,
       match (create_simple_combined_pdf env l fs).1 with
       | Some (Some doc) =>
           length (doc_members doc) = distinctUploaders l
           ∧ doc_total_slides doc = totalSlides l
       | _ => build_ok env = false
       end)
  ∧ (∀ env,
       match create_html_image_view env l with
       | Some doc =>
           doc_member_count doc = Some (distinctUploaders l)
           ∧ doc_total_slides doc = totalSlides l
       | None => google_creds env = false
       end).
Proof.
  split; [done|]. split; [done|].
  split; [apply uploader_list_length|].
  split; [apply slide_total_sum|].
  split; [symmetry; apply uploader_list_length|].
  split; [|split].
  - intros env fs. rewrite create_image_combined_pdf_run.
    destruct (google_creds env); [|done].
    destruct (services_up env); [|done].
    destruct (build_ok env); [|done]. simpl.
    by rewrite uploader_list_length, slide_total_sum.
  - intros env fs. rewrite create_simple_combined_pdf_run.
    destruct (build_ok env); [|done]. simpl.
    by rewrite uploader_list_length, slide_total_sum.
  - intros env. unfold create_html_image_view.
    destruct (google_creds env); [|done]. simpl.
    by rewrite uploader_list_length, slide_total_sum.
Qed.

End Reports.

(** ** Worked instances *)

(** The order on timestamps of the fixed format is the order of time. *)
Example str_gt_later_day :
  Py.str_gt "2024-01-02 09:00:00" "2024-01-01 10:00:00" = true
  ∧ Py.str_gt "2024-01-01 10:00:00" "2024-01-01 10:00:00" = false
  ∧ Py.str_gt EmptyString "2024-01-01 10:00:00" = false.
Proof. repeat split. Qed.

(** C3: both PDF builders create their temporary file with [delete=False]
    and unlink it only on the path that reaches the end of the [try] block.
    When [c.save()] or [doc.build(story)] raises, and when the image builder
    returns early because the Google services are unavailable, the builder
    returns [None] and the file stays on disk; a successful build leaves
    nothing behind. *)
Theorem pdf_builders_leave_temp_file_on_failure :
  Report.create_simple_combined_pdf Sample.env_build_fails
      [Sample.A_memory] Sample.empty_tmp
  = (Some None, {| Report.tmp_files := {[ 0%nat := None ]}; Report.fresh := 1 |})
  ∧ Report.leaked Sample.empty_tmp
      (Report.create_simple_combined_pdf Sample.env_build_fails
         [Sample.A_memory] Sample.empty_tmp).2 = {[ 0%nat ]}
  ∧ Report.leaked Sample.empty_tmp
      (Report.create_image_combined_pdf Sample.env_build_fails
         [Sample.A_memory] Sample.empty_tmp).2 = {[ 0%nat ]}
  ∧ Report.leaked Sample.empty_tmp
      (Report.create_image_combined_pdf Sample.env_services_down
         [Sample.A_memory] Sample.empty_tmp).2 = {[ 0%nat ]}
  ∧ Report.leaked Sample.empty_tmp
      (Report.create_simple_combined_pdf Sample.env_ok
         [Sample.A_memory] Sample.empty_tmp).2 = ∅
  ∧ Report.leaked Sample.empty_tmp
      (Report.create_image_combined_pdf Sample.env_ok
         [Sample.A_memory] Sample.empty_tmp).2 = ∅.
Proof.
  rewrite !create_simple_combined_pdf_run, !create_image_combined_pdf_run.
  unfold Report.leaked. simpl.
  rewrite !dom_insert_L, !dom_delete_L, !dom_empty_L.
  repeat split; set_solver.
Qed.

Lemma merge_saves_when_file_loaded_witness :
  ends_with_save
    (Sample.world [Sample.A_memory] (Sample.file [Sample.A_disk]))
    (merge_shared_state
       (Sample.world [Sample.A_memory] (Sample.file [Sample.A_disk])))
  ∧ db_file (merge_shared_state
       (Sample.world [Sample.A_memory] (Sample.file [Sample.A_disk])))
    = Parsed (dump (Sample.state [Sample.A_disk])).
Proof.
  pose proof (merge_saves_when_file_loaded
                (Sample.world [Sample.A_memory] (Sample.file [Sample.A_disk])))
    as H.
  simpl in H. destruct H as (H1 & _ & H3).
  split; [exact H1|exact (H3 eq_refl)].
Defined.

(** C6, counterexample: a new username with a password of three characters
    and a different confirmation is answered with PasswordMismatch, not with
    WeakPassword. *)
Lemma register_short_password_with_other_confirmation :
  users (shared_data Sample.team) !! "carol" = None
  ∧ (String.length "abc" < 6)%nat
  ∧ register_click Sample.sha Sample.clock "carol" "abc" "abd" Sample.team
    = ([PasswordMismatch], Sample.team)
  ∧ PasswordMismatch ≠ WeakPassword.
Proof.
  split; [reflexivity|]. split; [simpl; lia|]. split; [reflexivity|].
  discriminate.
Qed.

Lemma register_click_cases_witness :
  register_click Sample.sha Sample.clock "bob" "secret1" "secret1" Sample.team
  = ([DuplicateUser], Sample.team)
  ∧ register_click Sample.sha Sample.clock "carol" "secret1" "secret2" Sample.team
    = ([PasswordMismatch], Sample.team)
  ∧ register_click Sample.sha Sample.clock "carol" "abc" "abc" Sample.team
    = ([WeakPassword], Sample.team)
  ∧ users (shared_data
      (register_click Sample.sha Sample.clock "carol" "secret1" "secret1"
         Sample.team).2)
    = <["carol" := {| password := Sample.sha "secret1"; role := Some "member";
                      last_login := None |}]> (users (shared_data Sample.team)).
Proof.
  split; [|split; [|split]].
  - apply (register_click_cases Sample.sha Sample.clock Sample.team
             "bob" "secret1" "secret1").
    eexists. reflexivity.
  - apply (register_click_cases Sample.sha Sample.clock Sample.team
             "carol" "secret1" "secret2"); [reflexivity|discriminate].
  - apply (register_click_cases Sample.sha Sample.clock Sample.team
             "carol" "abc" "abc"); [reflexivity|reflexivity|simpl; lia].
  - apply (register_click_cases Sample.sha Sample.clock Sample.team
             "carol" "secret1" "secret1"); [reflexivity|reflexivity|simpl; lia].
Defined.

Lemma check_for_updates_tolerates_failures_witness :
  slides (shared_data
    (check_for_updates Sample.clock (Some Sample.service)
       (Sample.world [Sample.A_memory; Sample.B_disk] Absent)).2) !! 0%nat
  = Some {| title := Some "Deck A, revised";
            presentation_id := "A";
            presentation_link := None;
            description := None;
            uploader := "alice";
            upload_date := Some "2024-01-01 10:00:00";
            slide_count := Some 7;
            last_modified := Some (Sample.clock 0);
            status := Some "active" |}
  ∧ slides (shared_data
      (check_for_updates Sample.clock (Some Sample.service)
         (Sample.world [Sample.A_memory; Sample.B_disk] Absent)).2) !! 1%nat
    = Some Sample.B_disk.
Proof.
  destruct (check_for_updates_tolerates_failures Sample.clock Sample.service
              (Sample.world [Sample.A_memory; Sample.B_disk] Absent))
    as (_ & H & _).
  split.
  - exact (H 0%nat Sample.A_memory eq_refl).
  - exact (H 1%nat Sample.B_disk eq_refl).
Defined.

Lemma check_for_updates_sets_title_and_stamp_witness :
  slides (shared_data
    (check_for_updates Sample.clock (Some Sample.service)
       (Sample.world [Sample.A_memory; Sample.B_disk] Absent)).2) !! 0%nat
  = Some {| title := Some "Deck A, revised";
            presentation_id := "A";
            presentation_link := None;
            description := None;
            uploader := "alice";
            upload_date := Some "2024-01-01 10:00:00";
            slide_count := Some 7;
            last_modified := Some (Sample.clock 0);
            status := Some "active" |}.
Proof.
  apply (check_for_updates_sets_title_and_stamp Sample.clock Sample.service
           (Sample.world [Sample.A_memory; Sample.B_disk] Absent) 0%nat
           Sample.A_memory Sample.A_details).
  - reflexivity.
  - reflexivity.
  - discriminate.
Defined.

(** C8, counterexample: bob is a member and did not upload "X", yet the
    Delete handler run for bob on "X" removes alice's record and reports
    success where the claim has Forbidden; run on an id no record carries, it
    changes nothing and reports nothing where the claim has NotFound. *)
Lemma delete_handler_reports_no_forbidden_no_notfound :
  uploader Sample.X_alice = "alice"
  ∧ (check_admin_access true "bob" Sample.team).1 = false
  ∧ (delete_handler Sample.clock "bob" Sample.X_alice Sample.team).1
    = [st_success "Deleted!"]
  ∧ slides (shared_data
      (delete_handler Sample.clock "bob" Sample.X_alice Sample.team).2)
    = [Sample.Y_bob]
  ∧ (presentation_id Sample.Z_nobody ∉ ids (slides (shared_data Sample.team)))
  ∧ delete_handler Sample.clock "bob" Sample.Z_nobody Sample.team
    = ([], Sample.team).
Proof.
  repeat split.
  intros H. repeat (apply elem_of_cons in H as [H|H]; [discriminate H|]).
  by apply elem_of_nil in H.
Qed.

Lemma Sample_team_roles (username : string) (u : User) :
  users (shared_data Sample.team) !! username = Some u → is_Some (role u).
Proof.
  revert username u.
  change (map_Forall (λ _ u, is_Some (role u))
            (users (shared_data Sample.team))).
  apply (bool_decide_unpack _). vm_compute. exact I.
Defined.

Lemma removal_is_gated_by_the_tabs_witness :
  delete_handler Sample.clock "bob" Sample.Z_nobody Sample.team
  = ([], Sample.team)
  ∧ uploader Sample.Y_bob = "bob"
  ∧ (my_uploads_delete_click Sample.clock "bob" 0 Sample.team).1
    = [st_success "Deleted!"]
  ∧ (admin_remove_click Sample.clock "root" "X" Sample.team).1
    = inr [st_success "Removed!"]
  ∧ (admin_remove_click Sample.clock "root" "X" Sample.no_role).1
    = inl (KeyError "role")
  ∧ "Y" ∈ ids (slides (shared_data
                 (admin_remove_click Sample.clock "bob" "Y" Sample.team).2)).
Proof.
  destruct (removal_is_gated_by_the_tabs Sample.clock "bob" Sample.team)
    as (Habsent & Hmine & _ & _ & Hmember & _).
  destruct (removal_is_gated_by_the_tabs Sample.clock "root" Sample.team)
    as (_ & _ & Hadmin & _ & _ & _).
  destruct (removal_is_gated_by_the_tabs Sample.clock "root" Sample.no_role)
    as (_ & _ & _ & Hraise & _ & _).
  split; [|split; [|split; [|split; [|split]]]].
  - apply (Habsent Sample.Z_nobody).
    intros H. repeat (apply elem_of_cons in H as [H|H]; [discriminate H|]).
    by apply elem_of_nil in H.
  - apply (Hmine 0%nat Sample.Y_bob eq_refl).
  - destruct (Hmine 0%nat Sample.Y_bob eq_refl)
      as (_ & pre & s & post & _ & _ & _ & _ & Hshown & _).
    exact Hshown.
  - destruct (Hadmin "X" eq_refl Sample_team_roles (list_elem_of_here _ _))
      as (pre & s & post & _ & _ & _ & Hshown & _).
    exact Hshown.
  - exact (f_equal fst (Hraise "X" "dave" Sample.guest eq_refl eq_refl
                          eq_refl)).
  - apply (Hmember "Y" eq_refl). apply list_elem_of_further, list_elem_of_here.
Defined.

(** * Further properties *)

(** ** StateMerger: users and activities *)

Lemma merge_users_union (file_users session_users : gmap string User) :
  merge_users file_users session_users = session_users ∪ file_users.
Proof.
  unfold merge_users.
  apply (map_fold_weak_ind (λ r m, r = session_users ∪ m)).
  - by rewrite (right_id_L ∅ (∪)).
  - intros i x m r Hm ->.
    destruct ((session_users ∪ m) !! i) as [y|] eqn:Hi.
    + apply lookup_union_Some_raw in Hi as [Hi|[_ Hi]]; [|congruence].
      apply map_eq. intros j. rewrite !lookup_union.
      destruct (decide (i = j)) as [->|NE].
      * by rewrite Hi, Hm, lookup_insert_eq.
      * by rewrite lookup_insert_ne.
    + apply lookup_union_None in Hi as [Hi _]. by apply insert_union_r.
Qed.

Lemma merge_shared_state_users w :
  users (shared_data (merge_shared_state w))
  = users (shared_data w) ∪ disk_users w.
Proof.
  unfold merge_shared_state, disk_users.
  destruct (load_shared_state w) as [fd|];
    [|by rewrite (right_id_L ∅ (∪))].
  destruct fd as [fu fs fa fe]. unfold dict_truthy, merge_into. simpl.
  destruct fu as [fu|]; simpl.
  - rewrite <- merge_users_union. by destruct fs, fa.
  - rewrite (right_id_L ∅ (∪)). destruct fs, fa, fe; done.
Qed.

(** X1: a merge never overwrites a user held in memory, whatever the disk
    says about that username, and adopts every user that only the disk
    has: the merged users are the memory users, completed by the disk users
    under the usernames memory lacks. *)
Theorem merge_keeps_memory_users (w : World) (username : string) :
  users (shared_data (merge_shared_state w)) !! username
  = match users (shared_data w) !! username with
    | Some u => Some u
    | None => disk_users w !! username
    end.
Proof.
  rewrite merge_shared_state_users, lookup_union.
  destruct (users (shared_data w) !! username) as [u|].
  - by destruct (disk_users w !! username).
  - by rewrite (left_id_L None (∪)).
Qed.

Lemma foldl_merge_activities (file_acts : list Activity) :
  ∀ acc, ∃ added,
    foldl (λ acc file_act,
             if decide (file_act ∈ acc) then acc else acc ++ [file_act])
          acc file_acts = acc ++ added
    ∧ NoDup added
    ∧ (∀ a, a ∈ added ↔ a ∈ file_acts ∧ a ∉ acc)
    ∧ added `sublist_of` file_acts.
Proof.
  induction file_acts as [|x r IH]; intros acc.
  - exists []. rewrite app_nil_r.
    split; [done|]. split; [constructor|]. split; [|done].
    intros a. split.
    + intros Ha. by apply elem_of_nil in Ha.
    + intros [Ha _]. by apply elem_of_nil in Ha.
  - simpl. destruct (decide (x ∈ acc)) as [Hin|Hnin].
    + destruct (IH acc) as (added & -> & Hnd & Hel & Hsub).
      exists added. split; [done|]. split; [done|].
      split; [|by apply sublist_cons].
      intros a. split.
      * intros Ha. apply Hel in Ha as [? ?]. split; [by right|done].
      * intros [Ha Hn]. apply Hel. split; [|done].
        apply elem_of_cons in Ha as [->|Ha]; done.
    + destruct (IH (acc ++ [x])) as (added & -> & Hnd & Hel & Hsub).
      exists (x :: added). rewrite <- app_assoc.
      split; [done|]. split; [|split; [|by apply sublist_skip]].
      * apply NoDup_cons. split; [|done]. intros Hx.
        apply Hel in Hx as [_ Hx]. apply Hx, elem_of_app. right. by left.
      * intros a. split.
        -- intros Ha. apply elem_of_cons in Ha as [->|Ha].
           ++ split; [by left|done].
           ++ apply Hel in Ha as [Hr Ha]. split; [by right|].
              intros Hacc. apply Ha, elem_of_app. by left.
        -- intros [Ha Hn]. apply elem_of_cons in Ha as [->|Ha]; [by left|].
           destruct (decide (a = x)) as [->|NE]; [by left|].
           right. apply Hel. split; [done|]. intros Hin.
           apply elem_of_app in Hin as [Hin|Hin]; [done|].
           by apply list_elem_of_singleton in Hin.
Qed.

Lemma merge_shared_state_activities w :
  activities (shared_data (merge_shared_state w))
  = merge_activities (disk_activities w) (activities (shared_data w)).
Proof.
  unfold merge_shared_state, disk_activities.
  destruct (load_shared_state w) as [fd|]; [|done].
  destruct fd as [fu fs fa fe]. unfold dict_truthy, merge_into. simpl.
  destruct fa as [fa|]; simpl.
  - rewrite !orb_true_r. simpl. destruct fu, fs; done.
  - destruct fu, fs, fe; done.
Qed.


(** ** StateMerger: a second merge *)

Lemma str_gt_irrefl (a : string) : Py.str_gt a a = false.
Proof.
  unfold Py.str_gt, String.ltb.
  pose proof (String.compare_antisym a a) as H.
  by destruct (String.compare a a).
Qed.

Lemma unique_by_id (l : list Slide) (x y : Slide) :
  slides_unique l → x ∈ l → y ∈ l →
  presentation_id x = presentation_id y → x = y.
Proof.
  intros Hnd Hx Hy E.
  apply list_elem_of_lookup in Hx as [i Hi].
  apply list_elem_of_lookup in Hy as [j Hj].
  assert (Hi' : ids l !! i = Some (presentation_id x))
    by (unfold ids; by rewrite list_lookup_fmap, Hi).
  assert (Hj' : ids l !! j = Some (presentation_id x))
    by (unfold ids; by rewrite list_lookup_fmap, Hj, E).
  pose proof (NoDup_lookup _ _ _ _ Hnd Hi' Hj') as ->. congruence.
Qed.

Lemma update_existing_settled (d : Slide) (l : list Slide) :
  (∀ x, x ∈ l → presentation_id x = presentation_id d →
        Py.str_gt (Py.get (last_modified d) EmptyString)
                  (Py.get (last_modified x) EmptyString) = false) →
  update_existing d l = l.
Proof.
  induction l as [|s l IH]; intros H; [done|]. simpl.
  destruct (decide _) as [E|NE].
  - by rewrite (H s (list_elem_of_here _ _) E).
  - f_equal. apply IH. intros x Hx. apply H. by right.
Qed.

Lemma merge_slides_settled (disk l : list Slide) :
  (∀ d, d ∈ disk →
        presentation_id d ∈ ids l
        ∧ ∀ x, x ∈ l → presentation_id x = presentation_id d →
               Py.str_gt (Py.get (last_modified d) EmptyString)
                         (Py.get (last_modified x) EmptyString) = false) →
  merge_slides disk l = l.
Proof.
  unfold merge_slides. intros H.
  induction disk as [|d disk IH]; [done|].
  simpl. destruct (H d (list_elem_of_here _ _)) as [Hin Hgt].
  unfold merge_slide at 2.
  rewrite decide_True by by rewrite elem_of_list_to_set.
  rewrite update_existing_settled by done.
  apply IH. intros d' Hd'. apply H. by right.
Qed.

Lemma merge_slides_adopts (disk mem : list Slide) (d : Slide) :
  slides_unique disk → d ∈ disk → presentation_id d ∉ ids mem →
  d ∈ merge_slides disk mem.
Proof.
  intros Hdisk Hd Hnew.
  apply list_elem_of_split in Hd as (d1 & d2 & ->).
  unfold slides_unique, ids in Hdisk.
  rewrite fmap_app, fmap_cons in Hdisk.
  apply NoDup_app in Hdisk as (_ & _ & Hd2).
  apply NoDup_cons in Hd2 as [Hd2 _].
  unfold merge_slides. set (S := list_to_set (ids mem) : gset string).
  rewrite foldl_app. simpl.
  set (acc := foldl (merge_slide S) mem d1).
  apply (list_elem_of_lookup_2 _ (length acc)).
  apply foldl_merge_slide_other.
  - intros f Hf Ef. apply Hd2. rewrite <- Ef. by apply list_elem_of_fmap_2.
  - unfold merge_slide. rewrite decide_False.
    + by rewrite list_lookup_middle.
    + unfold S. by rewrite elem_of_list_to_set.
Qed.

Lemma merge_slides_twice (disk mem : list Slide) :
  slides_unique mem → slides_unique disk →
  merge_slides disk (merge_slides disk mem) = merge_slides disk mem.
Proof.
  intros Hmem Hdisk. apply merge_slides_settled. intros d Hd.
  pose proof (merge_slides_unique _ _ Hmem Hdisk) as Hu.
  split.
  { apply merge_slides_ids_elem. right. by apply list_elem_of_fmap_2. }
  intros x Hx E.
  destruct (decide (presentation_id d ∈ ids mem)) as [Hin|Hnin].
  - apply list_elem_of_fmap in Hin as (m & Em & Hm).
    apply list_elem_of_lookup in Hm as [i Hi].
    pose proof (merge_slides_lookup disk mem i m d Hmem Hdisk Hi Hd
                  (eq_sym Em)) as Hl.
    apply list_elem_of_lookup_2 in Hl.
    assert (x = newer d m) as ->.
    { apply (unique_by_id _ _ _ Hu Hx Hl).
      rewrite E. symmetry. by apply newer_id. }
    unfold newer.
    destruct (Py.str_gt (Py.get (last_modified d) EmptyString)
                (Py.get (last_modified m) EmptyString)) eqn:Hgt;
      [apply str_gt_irrefl|done].
  - pose proof (merge_slides_adopts disk mem d Hdisk Hd Hnin) as Hl.
    rewrite (unique_by_id _ _ _ Hu Hx Hl E). apply str_gt_irrefl.
Qed.

Lemma merge_slides_self (l : list Slide) :
  slides_unique l → merge_slides l l = l.
Proof.
  intros Hu. apply merge_slides_settled. intros d Hd.
  split; [by apply list_elem_of_fmap_2|].
  intros x Hx E. rewrite (unique_by_id _ _ _ Hu Hx Hd E).
  apply str_gt_irrefl.
Qed.

Lemma merge_activities_present (file_acts acc : list Activity) :
  (∀ a, a ∈ file_acts → a ∈ acc) → merge_activities file_acts acc = acc.
Proof.
  unfold merge_activities. induction file_acts as [|x r IH]; intros H; [done|].
  simpl. rewrite decide_True by (apply H; by left).
  apply IH. intros a Ha. apply H. by right.
Qed.

Lemma merge_activities_holds_disk (file_acts acc : list Activity) (a : Activity) :
  a ∈ file_acts → a ∈ merge_activities file_acts acc.
Proof.
  intros Ha. unfold merge_activities.
  destruct (foldl_merge_activities file_acts acc) as (added & -> & _ & Hel & _).
  apply elem_of_app. destruct (decide (a ∈ acc)); [by left|].
  right. by apply Hel.
Qed.

Lemma merge_into_twice (fd : FileData) (s : SharedState) :
  slides_unique (slides s) → slides_unique (default [] (fd_slides fd)) →
  merge_into fd (merge_into fd s) = merge_into fd s.
Proof.
  intros Hs Hd. destruct fd as [fu fs fa fe], s as [su ss sa se].
  unfold merge_into, set_users, set_slides, set_activities. simpl in *.
  assert (Hu : ∀ fu', merge_users fu' (merge_users fu' su) = merge_users fu' su).
  { intros fu'. rewrite !merge_users_union.
    by rewrite <- (assoc_L (∪)), (idemp_L (∪)). }
  assert (Ha : ∀ fa', merge_activities fa' (merge_activities fa' sa)
                      = merge_activities fa' sa).
  { intros fa'. apply merge_activities_present. intros a.
    apply merge_activities_holds_disk. }
  destruct fu as [fu|], fs as [fs|], fa as [fa|]; simpl;
    rewrite ?Hu, ?Ha, ?merge_slides_twice; done.
Qed.

Lemma merge_into_dump (s : SharedState) :
  slides_unique (slides s) → merge_into (dump s) s = s.
Proof.
  intros Hs. destruct s as [su ss sa se].
  unfold merge_into, dump, set_users, set_slides, set_activities. simpl in *.
  rewrite merge_users_union, (idemp_L (∪)), merge_slides_self by done.
  by rewrite merge_activities_present.
Qed.

Lemma merge_into_slides (fd : FileData) (s : SharedState) :
  slides (merge_into fd s) = merge_slides (default [] (fd_slides fd)) (slides s).
Proof.
  destruct fd as [fu fs fa fe]. unfold merge_into. simpl.
  by destruct fu, fs, fa.
Qed.

Lemma disk_slides_Parsed w fd :
  load_shared_state w = Some fd → disk_slides w = default [] (fd_slides fd).
Proof. unfold disk_slides. by intros ->. Qed.

(** X3: with presentation_id a key of the slides in memory and of the slides
    on disk, refreshing twice in a row gives the same state as refreshing
    once: the second merge, whether the first one could write the file or
    not, changes no user, no slide and no activity. *)
Theorem merge_twice_is_merge_once (w : World) :
  slides_unique (slides (shared_data w)) →
  slides_unique (disk_slides w) →
  shared_data (merge_shared_state (merge_shared_state w))
  = shared_data (merge_shared_state w).
Proof.
  intros Hmem Hdisk.
  unfold merge_shared_state at 2 3.
  destruct (load_shared_state w) as [fd|] eqn:Hl.
  2:{ unfold merge_shared_state. by rewrite Hl. }
  destruct (dict_truthy fd) eqn:Ht.
  2:{ unfold merge_shared_state. by rewrite Hl, Ht. }
  rewrite (disk_slides_Parsed _ _ Hl) in Hdisk.
  assert (Hu : slides_unique (slides (merge_into fd (shared_data w)))).
  { rewrite merge_into_slides. by apply merge_slides_unique. }
  assert (Hpath : db_file w = Parsed fd).
  { unfold load_shared_state in Hl. by destruct (db_file w); simplify_eq/=. }
  unfold merge_shared_state, load_shared_state. simpl in *.
  destruct (db_writable w); simpl.
  - simpl. rewrite merge_into_dump by done. done.
  - destruct (db_truncates w); simpl; [done|].
    rewrite Hpath. simpl. rewrite Ht. simpl. by rewrite merge_into_twice.
Qed.

Lemma merge_twice_is_merge_once_witness :
  shared_data (merge_shared_state (merge_shared_state
     (Sample.world [Sample.A_memory]
                   (Sample.file [Sample.B_disk; Sample.A_disk]))))
  = shared_data (merge_shared_state
     (Sample.world [Sample.A_memory]
                   (Sample.file [Sample.B_disk; Sample.A_disk]))).
Proof.
  apply merge_twice_is_merge_once.
  - apply NoDup_singleton.
  - apply NoDup_cons_2; [|apply NoDup_singleton].
    intros H. apply list_elem_of_singleton in H. discriminate H.
Defined.

(** ** PersistentStore: what another session takes over *)

(** X4: what one session saves, the refresh of another session on the same
    file takes over.  If the write completes, the other session then holds
    every user of the saved state (its own record where it has the
    username, the saved record otherwise), every presentation id of the
    saved state, the saved record itself for an id it did not hold, and
    every saved activity.  If the write fails after the file was opened,
    the file is left unreadable and the refresh changes nothing. *)
Theorem saved_state_reaches_other_sessions (a b : World) :
  db_file b = db_file (save_shared_state a) →
  (db_writable a = true →
   (∀ username u,
      users (shared_data a) !! username = Some u →
      users (shared_data (merge_shared_state b)) !! username
      = Some (default u (users (shared_data b) !! username)))
   ∧ (∀ s, s ∈ slides (shared_data a) →
        presentation_id s
          ∈ ids (slides (shared_data (merge_shared_state b))))
   ∧ (∀ s, slides_unique (slides (shared_data a)) →
        s ∈ slides (shared_data a) →
        presentation_id s ∉ ids (slides (shared_data b)) →
        s ∈ slides (shared_data (merge_shared_state b)))
   ∧ (∀ act, act ∈ activities (shared_data a) →
        act ∈ activities (shared_data (merge_shared_state b))))
  ∧ (db_writable a = false → db_truncates a = true →
     merge_shared_state b = b).
Proof.
  intros Hfile. split.
  - intros Hw. simpl in Hfile. rewrite Hw in Hfile.
    assert (Hl : load_shared_state b = Some (dump (shared_data a))).
    { unfold load_shared_state. by rewrite Hfile. }
    assert (Hu : disk_users b = users (shared_data a)).
    { unfold disk_users. by rewrite Hl. }
    assert (Hs : disk_slides b = slides (shared_data a)).
    { unfold disk_slides. by rewrite Hl. }
    assert (Ha : disk_activities b = activities (shared_data a)).
    { unfold disk_activities. by rewrite Hl. }
    split; [|split; [|split]].
    + intros username u Hin. rewrite merge_shared_state_users, Hu.
      rewrite lookup_union.
      destruct (users (shared_data b) !! username) as [v|]; rewrite Hin; done.
    + intros s Hin. rewrite merge_shared_state_slides, Hs.
      apply merge_slides_ids_elem. right. by apply list_elem_of_fmap_2.
    + intros s Hun Hin Hnew. rewrite merge_shared_state_slides, Hs.
      by apply merge_slides_adopts.
    + intros act Hin. rewrite merge_shared_state_activities, Ha.
      by apply merge_activities_holds_disk.
  - intros Hw Ht. simpl in Hfile. rewrite Hw, Ht in Hfile.
    unfold merge_shared_state, load_shared_state. by rewrite Hfile.
Qed.

Lemma saved_state_reaches_other_sessions_witness :
  users (shared_data
           (merge_shared_state
              (Sample.world [Sample.A_memory]
                 (db_file (save_shared_state Sample.team))))) !! "root"
  = Some (Sample.admin "h2")
  ∧ Sample.X_alice
      ∈ slides (shared_data
                  (merge_shared_state
                     (Sample.world [Sample.A_memory]
                        (db_file (save_shared_state Sample.team)))))
  ∧ merge_shared_state
      (Sample.world [Sample.A_memory]
         (db_file (save_shared_state Demo.cut_short)))
    = Sample.world [Sample.A_memory]
        (db_file (save_shared_state Demo.cut_short)).
Proof.
  destruct (proj1 (saved_state_reaches_other_sessions Sample.team
                     (Sample.world [Sample.A_memory]
                        (db_file (save_shared_state Sample.team)))
                     eq_refl) eq_refl) as (Hu & _ & Hs & _).
  split; [|split].
  - exact (Hu "root" (Sample.admin "h2") eq_refl).
  - apply Hs.
    + apply NoDup_cons_2; [|apply NoDup_singleton].
      intros H. apply list_elem_of_singleton in H. discriminate H.
    + apply list_elem_of_here.
    + intros H. apply list_elem_of_singleton in H. discriminate H.
  - exact (proj2 (saved_state_reaches_other_sessions Demo.cut_short
                    (Sample.world [Sample.A_memory]
                       (db_file (save_shared_state Demo.cut_short)))
                    eq_refl) eq_refl eq_refl).
Defined.

(** ** Registry: accounts *)

Section Accounts.

Variable sha256_hex : string → string.
Variable now : nat → string.

(** X5: once a registration is accepted, the new user authenticates with a
    password exactly when its hash equals the hash of the registered
    password, in particular with the registered password itself, and the
    outcome of authenticate for every other username is what it was. *)
Theorem registered_user_authenticates (w : World) (u p c : string) :
  users (shared_data w) !! u = None → p = c → (6 ≤ String.length p)%nat →
  let w' := (register_click sha256_hex now u p c w).2 in
  authenticate sha256_hex u p w' = true
  ∧ (∀ q, authenticate sha256_hex u q w' = true ↔
          sha256_hex q = sha256_hex p)
  ∧ (∀ v q, v ≠ u →
            authenticate sha256_hex v q w' = authenticate sha256_hex v q w).
Proof.
  intros Hu Hpc Hlen. unfold register_click.
  rewrite decide_False by (rewrite Hu; by intros [? ?]).
  rewrite decide_False by (intros Hn; by apply Hn).
  rewrite decide_False by lia. cbn [snd].
  unfold authenticate, hash_password. simpl.
  split; [|split].
  - rewrite lookup_insert_eq. simpl. by apply bool_decide_eq_true.
  - intros q. rewrite lookup_insert_eq. simpl.
    rewrite bool_decide_eq_true. split; by intros ->.
  - intros v q NE. by rewrite lookup_insert_ne.
Qed.

(** X6: the role of a user held in memory is read from memory.  The refresh
    inside get_user_role and check_admin_access cannot change it, so a role
    written to disk by another session is not seen by a session that
    already holds the user. *)
Theorem role_of_known_user_ignores_disk (w : World) (username : string)
    (u : User) :
  users (shared_data w) !! username = Some u →
  (get_user_role username w).1 = Py.get (role u) "member"
  ∧ (check_admin_access true username w).1
    = bool_decide (Py.get (role u) "member" = "admin").
Proof.
  intros Hu.
  assert (Hm : users (shared_data (merge_shared_state w)) !! username = Some u).
  { rewrite merge_shared_state_users. apply lookup_union_Some_raw. by left. }
  unfold get_user_role, check_admin_access, refresh_shared_state. simpl.
  by rewrite Hu, Hm.
Qed.

End Accounts.

Lemma registered_user_authenticates_witness :
  authenticate Sample.sha "carol" "secret1"
    (register_click Sample.sha Sample.clock "carol" "secret1" "secret1"
       Sample.team).2 = true.
Proof.
  refine (proj1 (registered_user_authenticates Sample.sha Sample.clock
                   Sample.team "carol" "secret1" "secret1" eq_refl eq_refl _)).
  simpl. lia.
Defined.

Lemma role_of_known_user_ignores_disk_witness :
  disk_users Demo.stale !! "bob" = Some (Sample.admin "h1")
  ∧ (get_user_role "bob" Demo.stale).1 = "member"
  ∧ (check_admin_access true "bob" Demo.stale).1 = false.
Proof.
  split; [reflexivity|].
  exact (role_of_known_user_ignores_disk Demo.stale "bob"
           (Sample.member "h1") eq_refl).
Defined.

(** ** The store across handlers *)

Section Steps.

Variable sha256_hex : string → string.
Variable now : nat → string.

Implicit Types (w : World) (s : SharedState) (l : list Slide).

Lemma kept_refl s : kept s s.
Proof. split; [done|]. intros username u Hu. by exists u. Qed.

Lemma kept_trans s1 s2 s3 : kept s1 s2 → kept s2 s3 → kept s1 s3.
Proof.
  intros [Ha1 Hu1] [Ha2 Hu2]. split; [by etrans|].
  intros username u Hu. destruct (Hu1 _ _ Hu) as (u' & Hu' & E1).
  destruct (Hu2 _ _ Hu') as (u'' & Hu'' & E2).
  exists u''. split; [done|congruence].
Qed.

Lemma kept_merge w : kept (shared_data w) (shared_data (merge_shared_state w)).
Proof.
  split.
  - rewrite merge_shared_state_activities. unfold merge_activities.
    destruct (foldl_merge_activities (disk_activities w)
                (activities (shared_data w))) as (added & -> & _).
    by apply prefix_app_r.
  - intros username u Hu. exists u. split; [|done].
    rewrite merge_shared_state_users. apply lookup_union_Some_raw. by left.
Qed.

Lemma kept_log action current_user text w :
  kept (shared_data w)
       (shared_data (log_activity now action current_user text w)).
Proof.
  split; simpl.
  - by apply prefix_app_r.
  - intros username u Hu. by exists u.
Qed.

Lemma kept_slides (f : list Slide → list Slide) s : kept s (set_slides f s).
Proof. split; simpl; [done|]. intros username u Hu. by exists u. Qed.

Lemma kept_insert_user username (data : User) s :
  (∀ u, users s !! username = Some u → password data = password u) →
  kept s (set_users (insert username data) s).
Proof.
  intros Hpw. split; simpl; [done|]. intros v u Hu.
  destruct (decide (username = v)) as [->|NE].
  - exists data. rewrite lookup_insert_eq. split; [done|]. by apply Hpw.
  - exists u. by rewrite lookup_insert_ne.
Qed.

Lemma kept_get_user_role username w :
  kept (shared_data w) (shared_data (get_user_role username w).2).
Proof.
  unfold get_user_role, refresh_shared_state.
  destruct (users (shared_data w) !! username); [|apply kept_refl]. simpl.
  destruct (users _ !! username); apply kept_merge.
Qed.

Lemma kept_check_one service acc idx :
  kept (shared_data acc.2) (shared_data (check_one now service acc idx).2).
Proof.
  destruct acc as [b w]. unfold check_one. cbn [snd].
  destruct (slides (shared_data w) !! idx) as [slide|]; [|apply kept_refl].
  destruct (get_presentation_details service _) as [d|]; [|apply kept_refl].
  destruct (decide _); [|apply kept_refl]. cbn [snd].
  eapply kept_trans; [|apply kept_log]. simpl. apply kept_slides.
Qed.

Lemma kept_foldl_check_one service idxs : ∀ acc,
  kept (shared_data acc.2)
       (shared_data (foldl (check_one now service) acc idxs).2).
Proof.
  induction idxs as [|i idxs IH]; intros acc; [apply kept_refl|].
  simpl. eapply kept_trans; [apply kept_check_one|apply IH].
Qed.

Lemma kept_remove_handler action prefix success current_user slide w :
  kept (shared_data w)
       (shared_data
          (remove_handler now action prefix success current_user slide w).2).
Proof.
  unfold remove_handler.
  destruct (pop_first _ _); [|apply kept_refl]. cbn [snd].
  eapply kept_trans; [|apply kept_log]. simpl. apply kept_slides.
Qed.

Lemma kept_step (e : Event) w :
  kept (shared_data w) (shared_data (step sha256_hex now e w)).
Proof.
  destruct e as [|u p c|u p|u|service u pid d|service u idx|service|u idx
                 |u pid|u target|data]; simpl.
  - apply kept_merge.
  - unfold register_click.
    repeat (destruct (decide _); [apply kept_refl|]). cbn [snd].
    eapply kept_trans; [|apply kept_log]. simpl.
    apply kept_insert_user. intros u0 Hu0. exfalso. eauto.
  - unfold login_click, authenticate.
    destruct (users (shared_data w) !! u) as [usr|] eqn:Hu;
      [|apply kept_refl].
    destruct (bool_decide _); [|apply kept_refl]. cbn [snd].
    eapply kept_trans; [|apply kept_log]. simpl.
    apply kept_insert_user. intros u0 Hu0. simpl. congruence.
  - apply kept_log.
  - unfold upload_submit.
    destruct (decide _); [apply kept_refl|].
    destruct (get_presentation_details _ _) as [details|]; [|apply kept_refl].
    destruct (list_find _ _) as [[i slide]|].
    + destruct (decide (uploader slide = u)).
      * cbn [snd]. eapply kept_trans; [|apply kept_log]. simpl.
        apply kept_slides.
      * pose proof (kept_get_user_role u w) as Hk.
        destruct (get_user_role u w) as [r w0]. cbn [snd] in Hk.
        destruct (bool_decide _); cbn [snd]; [|done].
        eapply kept_trans; [exact Hk|].
        eapply kept_trans; [|apply kept_log]. simpl. apply kept_slides.
    + cbn [snd]. eapply kept_trans; [|apply kept_log]. simpl.
      apply kept_slides.
  - unfold manual_update_click, refresh_shared_state. cbn [snd].
    destruct (my_slides _ _ !! idx); [|apply kept_merge].
    destruct (index_of_nth _ _ _); [|apply kept_merge].
    destruct service as [service|]; [|apply kept_merge].
    destruct (get_presentation_details _ _); [|apply kept_merge]. cbn [snd].
    eapply kept_trans; [apply kept_merge|].
    eapply kept_trans; [|apply kept_log]. simpl. apply kept_slides.
  - unfold check_for_updates. destruct service as [service|];
      [|apply kept_refl].
    unfold refresh_shared_state. cbn [snd].
    pose proof (kept_foldl_check_one service
                  (seq 0 (length (slides (shared_data (merge_shared_state w)))))
                  (false, merge_shared_state w)) as Hk.
    destruct (foldl _ _ _) as [b w1]. cbn [snd] in *.
    eapply kept_trans; [apply kept_merge|].
    by destruct b.
  - unfold my_uploads_delete_click, refresh_shared_state. cbn [snd].
    destruct (my_slides _ _ !! idx); [|apply kept_merge].
    eapply kept_trans; [apply kept_merge|apply kept_remove_handler].
  - unfold admin_remove_click.
    rewrite (surjective_pairing (check_admin_access true u w)).
    rewrite check_admin_access_world.
    destruct (check_admin_access true u w).1.
    + unfold refresh_shared_state. cbn [snd].
      eapply kept_trans; [apply kept_merge|].
      eapply kept_trans; [apply kept_merge|].
      destruct (admin_count _); [apply kept_refl|].
      eapply kept_trans; [apply kept_merge|].
      destruct (list_find _ _) as [[i slide]|]; [|apply kept_refl].
      pose proof (kept_remove_handler "ADMIN_DELETE" "Admin removed '"
                    "Removed!" u slide
                    (tick (merge_shared_state (merge_shared_state
                                                 (merge_shared_state w)))))
        as Hk.
      unfold admin_remove_handler.
      by destruct (remove_handler _ _ _ _ _ _ _) as [shown w4].
    + pose proof (kept_get_user_role u (merge_shared_state w)) as Hk.
      destruct (get_user_role u (merge_shared_state w)) as [r w1].
      cbn [snd] in *. eapply kept_trans; [apply kept_merge|done].
  - unfold role_change_click.
    rewrite (surjective_pairing (check_admin_access true u w)).
    rewrite check_admin_access_world.
    destruct (check_admin_access true u w).1.
    + unfold refresh_shared_state. cbn [snd].
      eapply kept_trans; [apply kept_merge|].
      eapply kept_trans; [apply kept_merge|].
      destruct (admin_count _); [apply kept_refl|].
      eapply kept_trans; [apply kept_merge|].
      destruct (users _ !! target) as [data|] eqn:Hd; [|apply kept_refl].
      destruct (decide _); [|apply kept_refl]. cbn [snd].
      eapply kept_trans; [|apply kept_log]. simpl.
      apply kept_insert_user. intros u0 Hu0. simpl. congruence.
    + pose proof (kept_get_user_role u (merge_shared_state w)) as Hk.
      destruct (get_user_role u (merge_shared_state w)) as [r w1].
      cbn [snd] in *. eapply kept_trans; [apply kept_merge|done].
  - apply kept_refl.
Qed.

(** X7: over any sequence of handler runs and writes by other sessions, the
    activity log in memory is only ever extended, and no user is removed or
    given another password hash: a user who could authenticate with a
    password still can. *)
Theorem log_and_accounts_are_kept (es : list Event) (w : World) :
  activities (shared_data w)
    `prefix_of` activities (shared_data (run sha256_hex now es w))
  ∧ ∀ username pw,
      authenticate sha256_hex username pw w = true →
      authenticate sha256_hex username pw (run sha256_hex now es w) = true.
Proof.
  assert (Hk : kept (shared_data w) (shared_data (run sha256_hex now es w))).
  { unfold run. revert w. induction es as [|e es IH]; intros w;
      [apply kept_refl|].
    simpl. eapply kept_trans; [apply kept_step|apply IH]. }
  destruct Hk as [Ha Hu]. split; [done|].
  intros username pw. unfold authenticate.
  destruct (users (shared_data w) !! username) as [u|] eqn:E; [|done].
  destruct (Hu _ _ E) as (u' & -> & Hpw). by rewrite Hpw.
Qed.

End Steps.

Section StoreInvariant.

Variable sha256_hex : string → string.
Variable now : nat → string.

Implicit Types (w : World) (l : list Slide).

Lemma disk_slides_same w w' :
  db_file w' = db_file w → disk_slides w' = disk_slides w.
Proof. intros E. unfold disk_slides, load_shared_state. by rewrite E. Qed.

Lemma store_ok_edit w w' :
  store_ok w → db_file w' = db_file w →
  slides_unique (slides (shared_data w')) → store_ok w'.
Proof.
  intros [_ Hd] E Hs. split; [done|]. by rewrite (disk_slides_same _ _ E).
Qed.

Lemma store_ok_save w : store_ok w → store_ok (save_shared_state w).
Proof.
  intros [Hs Hd]. split; [done|].
  unfold disk_slides, load_shared_state, save_shared_state in *. simpl.
  destruct (db_writable w); [done|].
  destruct (db_truncates w); [apply NoDup_nil_2|exact Hd].
Qed.

Lemma store_ok_log action current_user text w :
  store_ok w → store_ok (log_activity now action current_user text w).
Proof.
  intros H. unfold log_activity. apply store_ok_save.
  by apply (store_ok_edit w); [| |apply H].
Qed.

Lemma store_ok_merge w : store_ok w → store_ok (merge_shared_state w).
Proof.
  intros [Hs Hd]. unfold merge_shared_state.
  destruct (load_shared_state w) as [fd|] eqn:Hl; [|done].
  destruct (dict_truthy fd); [|done].
  apply store_ok_save, (store_ok_edit w); [done|done|]. simpl.
  rewrite merge_into_slides. apply merge_slides_unique; [done|].
  by rewrite <- (disk_slides_Parsed _ _ Hl).
Qed.

Lemma store_ok_get_user_role username w :
  store_ok w → store_ok (get_user_role username w).2.
Proof.
  intros H. unfold get_user_role, refresh_shared_state.
  destruct (users (shared_data w) !! username); [|done]. simpl.
  destruct (users _ !! username); by apply store_ok_merge.
Qed.

Lemma ids_insert_same l i (old new : Slide) :
  l !! i = Some old → presentation_id new = presentation_id old →
  ids (<[i := new]> l) = ids l.
Proof.
  intros Hi E. unfold ids. rewrite list_fmap_insert, E.
  apply list_insert_id. by rewrite list_lookup_fmap, Hi.
Qed.

Lemma ids_alter_same (f : Slide → Slide) l i :
  (∀ s, presentation_id (f s) = presentation_id s) →
  ids (alter f i l) = ids l.
Proof.
  intros Hf. unfold ids.
  rewrite (list_fmap_alter presentation_id f id)
    by (apply Forall_forall; intros s _; apply Hf).
  by apply list_alter_id.
Qed.

Lemma pop_first_sublist pid l l' :
  pop_first pid l = Some l' → l' `sublist_of` l.
Proof.
  revert l'. induction l as [|s l IH]; intros l' H; [done|]. simpl in H.
  destruct (decide _).
  - injection H as <-. by apply sublist_cons.
  - destruct (pop_first pid l) as [r|]; [|done]. simpl in H.
    injection H as <-. by apply sublist_skip, IH.
Qed.

Lemma pop_first_unique pid l l' :
  slides_unique l → pop_first pid l = Some l' → slides_unique l'.
Proof.
  intros Hu Hp. unfold slides_unique, ids in *.
  eapply sublist_NoDup; [exact Hu|].
  by apply fmap_sublist, (pop_first_sublist pid).
Qed.

Lemma index_of_nth_lookup (current_user : string) l : ∀ k slide,
  filter (λ s, uploader s = current_user) l !! k = Some slide →
  ∃ i, index_of_nth (λ s, bool_decide (uploader s = current_user)) k l
       = Some i
       ∧ l !! i = Some slide.
Proof.
  induction l as [|s l IH]; intros k slide Hk; [done|].
  rewrite filter_cons in Hk. simpl.
  destruct (decide (uploader s = current_user)) as [E|NE].
  - rewrite bool_decide_eq_true_2 by done. destruct k as [|k].
    + exists 0%nat. simpl in Hk. by injection Hk as ->.
    + simpl in Hk. destruct (IH _ _ Hk) as (i & -> & Hi). by exists (S i).
  - rewrite bool_decide_eq_false_2 by done.
    destruct (IH _ _ Hk) as (i & -> & Hi). by exists (S i).
Qed.

Lemma store_ok_check_one service acc idx :
  store_ok acc.2 → store_ok (check_one now service acc idx).2.
Proof.
  destruct acc as [b w]. unfold check_one. cbn [snd]. intros H.
  destruct (slides (shared_data w) !! idx) as [slide|] eqn:Hi; [|done].
  destruct (get_presentation_details service _) as [d|]; [|done].
  destruct (decide _); [|done]. cbn [snd].
  apply store_ok_log, (store_ok_edit w); [done|done|]. simpl.
  unfold slides_unique. rewrite (ids_insert_same _ _ slide); [apply (proj1 H)|done|done].
Qed.

Lemma store_ok_foldl_check_one service idxs : ∀ acc,
  store_ok acc.2 → store_ok (foldl (check_one now service) acc idxs).2.
Proof.
  induction idxs as [|i idxs IH]; intros acc H; [done|].
  simpl. by apply IH, store_ok_check_one.
Qed.

Lemma store_ok_remove_handler action prefix success current_user slide w :
  store_ok w →
  store_ok (remove_handler now action prefix success current_user slide w).2.
Proof.
  intros H. unfold remove_handler.
  destruct (pop_first _ _) as [remaining|] eqn:Hp; [|done]. cbn [snd].
  apply store_ok_log, store_ok_save, (store_ok_edit w); [done|done|]. simpl.
  eapply pop_first_unique; [apply (proj1 H)|exact Hp].
Qed.

Lemma store_ok_step (e : Event) w :
  event_ok e → store_ok w → store_ok (step sha256_hex now e w).
Proof.
  intros He H.
  destruct e as [|u p c|u p|u|service u pid d|service u idx|service|u idx
                 |u pid|u target|data]; simpl.
  - by apply store_ok_merge.
  - unfold register_click.
    repeat (destruct (decide _); [done|]). cbn [snd].
    apply store_ok_log, store_ok_save, (store_ok_edit w); [done|done|apply (proj1 H)].
  - unfold login_click.
    destruct (authenticate _ _ _ _); [|done]. cbn [snd].
    apply store_ok_log.
    destruct (users (shared_data w) !! u); [|done].
    apply store_ok_save, (store_ok_edit w); [done|done|apply (proj1 H)].
  - by apply store_ok_log.
  - unfold upload_submit.
    destruct (decide _); [done|].
    destruct (get_presentation_details _ _) as [details|]; [|done].
    destruct (list_find _ _) as [[i slide]|] eqn:Hf.
    + assert (G : ∀ w0, store_ok w0 →
                store_ok (log_activity now "UPDATE" u
                  ("Updated '" +:+ det_title details +:+ "'")
                  (save_shared_state
                     (set_shared
                        (set_slides
                           (alter (apply_upload details (now (ticks w0)) d) i))
                        (tick w0))))).
      { intros w0 H0.
        apply store_ok_log, store_ok_save, (store_ok_edit w0); [done|done|].
        simpl. unfold slides_unique. rewrite ids_alter_same; [apply (proj1 H0)|done]. }
      destruct (decide (uploader slide = u)); [by apply G|].
      pose proof (store_ok_get_user_role u w H) as H0.
      destruct (get_user_role u w) as [r w0]. cbn [snd] in H0.
      destruct (bool_decide _); cbn [snd]; [by apply G|done].
    + cbn [snd].
      apply store_ok_log, store_ok_save, (store_ok_edit w); [done|done|].
      simpl. unfold slides_unique, ids. rewrite fmap_app. simpl.
      apply NoDup_app. split; [apply (proj1 H)|]. split; [|apply NoDup_singleton].
      intros p Hp Hp'. apply list_elem_of_singleton in Hp' as ->.
      apply list_find_None in Hf.
      apply list_elem_of_fmap in Hp as (s & Es & Hs).
      by apply (proj1 (Forall_forall _ _) Hf s Hs).
  - unfold manual_update_click, refresh_shared_state. cbn [snd].
    pose proof (store_ok_merge w H) as H0.
    destruct (my_slides _ _ !! idx) as [slide|] eqn:Hm; [|done].
    destruct (index_of_nth_lookup u _ _ _ Hm) as (i & -> & Hi).
    destruct service as [service|]; [|done].
    destruct (get_presentation_details _ _) as [details|]; [|done].
    cbn [snd].
    apply store_ok_log, store_ok_save,
      (store_ok_edit (merge_shared_state w)); [done|done|].
    simpl. unfold slides_unique.
    rewrite (ids_insert_same _ _ slide); [apply (proj1 H0)|done|done].
  - unfold check_for_updates. destruct service as [service|]; [|done].
    unfold refresh_shared_state. cbn [snd].
    pose proof (store_ok_foldl_check_one service
                  (seq 0 (length (slides (shared_data (merge_shared_state w)))))
                  (false, merge_shared_state w) (store_ok_merge w H)) as H1.
    destruct (foldl _ _ _) as [b w1]. cbn [snd] in *.
    destruct b; [by apply store_ok_save|done].
  - unfold my_uploads_delete_click, refresh_shared_state. cbn [snd].
    pose proof (store_ok_merge w H) as H0.
    destruct (my_slides _ _ !! idx); [|done].
    by apply store_ok_remove_handler.
  - unfold admin_remove_click.
    rewrite (surjective_pairing (check_admin_access true u w)).
    rewrite check_admin_access_world.
    pose proof (store_ok_merge w H) as H0.
    destruct (check_admin_access true u w).1.
    + unfold refresh_shared_state. cbn [snd].
      pose proof (store_ok_merge _ H0) as H1.
      pose proof (store_ok_merge _ H1) as H2.
      destruct (admin_count _); [done|].
      assert (H3 : store_ok (tick (merge_shared_state (merge_shared_state
                                     (merge_shared_state w)))))
        by exact H2.
      destruct (list_find _ _) as [[i slide]|]; [|done].
      pose proof (store_ok_remove_handler "ADMIN_DELETE" "Admin removed '"
                    "Removed!" u slide _ H3) as H4.
      unfold admin_remove_handler.
      by destruct (remove_handler _ _ _ _ _ _ _) as [shown w4].
    + pose proof (store_ok_get_user_role u _ H0) as H1.
      by destruct (get_user_role u (merge_shared_state w)) as [r w1].
  - unfold role_change_click.
    rewrite (surjective_pairing (check_admin_access true u w)).
    rewrite check_admin_access_world.
    pose proof (store_ok_merge w H) as H0.
    destruct (check_admin_access true u w).1.
    + unfold refresh_shared_state. cbn [snd].
      pose proof (store_ok_merge _ H0) as H1.
      pose proof (store_ok_merge _ H1) as H2.
      destruct (admin_count _); [done|].
      destruct (users _ !! target) as [data|]; [|done].
      destruct (decide _); [|done]. cbn [snd].
      apply store_ok_log, store_ok_save,
        (store_ok_edit _ _ H2); [done|apply (proj1 H2)].
    + pose proof (store_ok_get_user_role u _ H0) as H1.
      by destruct (get_user_role u (merge_shared_state w)) as [r w1].
  - split; [apply (proj1 H)|]. exact He.
Qed.

(** X8: presentation_id stays a key.  If the slides in memory and the slides
    on disk have unique ids, they still have after any sequence of handler
    runs, interleaved with other sessions overwriting the file with slides
    of unique ids. *)
Theorem unique_ids_are_kept (es : list Event) (w : World) :
  Forall event_ok es → store_ok w → store_ok (run sha256_hex now es w).
Proof.
  unfold run. revert w. induction es as [|e es IH]; intros w Hes H; [done|].
  apply Forall_cons in Hes as [He Hes]. simpl.
  by apply IH, store_ok_step.
Qed.

End StoreInvariant.

Lemma log_and_accounts_are_kept_witness :
  authenticate Sample.sha "carol" "secret1"
    (run Sample.sha Sample.clock Demo.session Demo.with_carol) = true.
Proof.
  exact (proj2 (log_and_accounts_are_kept Sample.sha Sample.clock
                  Demo.session Demo.with_carol) "carol" "secret1" eq_refl).
Defined.

Lemma unique_ids_are_kept_witness :
  store_ok (run Sample.sha Sample.clock Demo.session Demo.with_carol).
Proof.
  apply unique_ids_are_kept.
  - repeat (apply Forall_cons_2; [try exact I|]); [|apply Forall_nil_2].
    apply NoDup_singleton.
  - assert (Hxy : NoDup ["X"; "Y"]).
    { apply NoDup_cons_2; [|apply NoDup_singleton].
      intros H. apply list_elem_of_singleton in H. discriminate H. }
    split; exact Hxy.
Defined.

(** ** Registry: upload, manual update and role change *)

Section Upload.

Variable now : nat → string.

Implicit Types (w : World) (l : list Slide).

Lemma list_find_unique pid l (slide : Slide) :
  slides_unique l → slide ∈ l → presentation_id slide = pid →
  ∃ i, list_find (λ s, presentation_id s = pid) l = Some (i, slide)
       ∧ l !! i = Some slide.
Proof.
  intros Hu Hin E.
  destruct (list_find (λ s, presentation_id s = pid) l) as [[i x]|] eqn:Hf.
  - apply list_find_Some in Hf as (Hi & Hx & _).
    assert (x = slide) as ->.
    { apply (unique_by_id l); [done| |done|congruence].
      by eapply list_elem_of_lookup_2. }
    by exists i.
  - apply list_find_None in Hf.
    by destruct (proj1 (Forall_forall _ _) Hf slide Hin).
Qed.

Lemma get_user_role_not_admin current_user w :
  (∀ u, users (shared_data w) !! current_user = Some u →
        Py.get (role u) "member" ≠ "admin") →
  bool_decide ((get_user_role current_user w).1 = "admin") = false
  ∧ ((get_user_role current_user w).2 = w
     ∨ (get_user_role current_user w).2 = merge_shared_state w).
Proof.
  intros Hrole. unfold get_user_role, refresh_shared_state.
  destruct (users (shared_data w) !! current_user) as [u|] eqn:Hu.
  - assert (Hm : users (shared_data (merge_shared_state w)) !! current_user
                 = Some u).
    { rewrite merge_shared_state_users. apply lookup_union_Some_raw.
      by left. }
    simpl. rewrite Hm. simpl. split; [|by right].
    apply bool_decide_eq_false_2. by apply Hrole.
  - simpl. split; [done|by left].
Qed.

(** X9: a user who is neither the uploader of an existing record nor admin
    (by the role held in memory) cannot change it through the upload form:
    the form answers with the ownership error, and the world it leaves is
    the one it found or that world refreshed. *)
Theorem upload_by_stranger_is_refused (service : Service)
    (current_user pid text : string) (w : World) (details : Details)
    (slide : Slide) :
  pid ≠ EmptyString →
  get_presentation_details service pid = Some details →
  slides_unique (slides (shared_data w)) →
  slide ∈ slides (shared_data w) →
  presentation_id slide = pid →
  uploader slide ≠ current_user →
  (∀ u, users (shared_data w) !! current_user = Some u →
        Py.get (role u) "member" ≠ "admin") →
  (upload_submit now service current_user pid text w).1
  = [st_warning "Already in dashboard!";
     st_error "You can only update your own presentations"]
  ∧ ((upload_submit now service current_user pid text w).2 = w
     ∨ (upload_submit now service current_user pid text w).2
       = merge_shared_state w).
Proof.
  intros Hpid Hd Hu Hin E Hup Hrole. unfold upload_submit.
  rewrite decide_False by done. rewrite Hd.
  destruct (list_find_unique pid _ slide Hu Hin E) as (i & -> & _).
  rewrite decide_False by done.
  destruct (get_user_role_not_admin current_user w Hrole) as [Hb Hw].
  destruct (get_user_role current_user w) as [r w0]. cbn [fst snd] in *.
  by rewrite Hb.
Qed.

(** X10: what an accepted upload stores.  A first upload of an id appends
    one record that carries the id, the fetched title and count and the
    acting user as uploader, and logs UPLOAD.  A repeated upload by the
    uploader rewrites that one record in place with the fetched title and
    count and the entered description, keeping id, uploader and upload
    date, leaves every other record alone, and logs UPDATE. *)
Theorem upload_outcomes (service : Service) (current_user pid text : string)
    (w : World) (details : Details) :
  pid ≠ EmptyString →
  get_presentation_details service pid = Some details →
  let w' := (upload_submit now service current_user pid text w).2 in
  (pid ∉ ids (slides (shared_data w)) →
   slides (shared_data w')
   = slides (shared_data w)
       ++ [{| title := Some (det_title details);
              presentation_id := pid;
              presentation_link :=
                Some ("https://docs.google.com/presentation/d/" +:+ pid
                        +:+ "/edit");
              description := Some text;
              uploader := current_user;
              upload_date := Some (now (ticks w));
              slide_count := Some (det_slide_count details);
              last_modified := Some (now (S (ticks w)));
              status := Some "active" |}]
   ∧ activities (shared_data w')
     = activities (shared_data w)
         ++ [{| timestamp := now (S (S (ticks w))); user := current_user;
                action := "UPLOAD";
                details := "Uploaded '" +:+ det_title details +:+ "'" |}])
  ∧ (∀ slide,
       slides_unique (slides (shared_data w)) →
       slide ∈ slides (shared_data w) →
       presentation_id slide = pid →
       uploader slide = current_user →
       ∃ i,
         slides (shared_data w) !! i = Some slide
         ∧ slides (shared_data w') !! i
           = Some {| title := Some (det_title details);
                     presentation_id := pid;
                     presentation_link := presentation_link slide;
                     description := Some text;
                     uploader := current_user;
                     upload_date := upload_date slide;
                     slide_count := Some (det_slide_count details);
                     last_modified := Some (now (ticks w));
                     status := status slide |}
         ∧ (∀ j, j ≠ i →
              slides (shared_data w') !! j = slides (shared_data w) !! j)
         ∧ activities (shared_data w')
           = activities (shared_data w)
               ++ [{| timestamp := now (S (ticks w)); user := current_user;
                      action := "UPDATE";
                      details := "Updated '" +:+ det_title details
                                   +:+ "'" |}]).
Proof.
  intros Hpid Hd. cbv zeta. unfold upload_submit.
  rewrite decide_False by done. rewrite Hd. split.
  - intros Hnew. rewrite list_find_absent by done. done.
  - intros slide Hu Hin E Hown.
    destruct (list_find_unique pid _ slide Hu Hin E) as (i & -> & Hi).
    rewrite decide_True by done. cbn [fst snd]. exists i.
    split; [done|]. simpl. split; [|split; [|done]].
    + rewrite list_lookup_alter_eq, Hi. simpl. unfold apply_upload.
      by rewrite E, Hown.
    + intros j NE. by rewrite list_lookup_alter_ne.
Qed.

(** X11: the Update button of the My Uploads tab rewrites the very record it
    is shown on, at its place in the shared list: the record gets the
    fetched slide count, the fetched title and the clock reading of the
    click as last_modified, whether or not the count changed, and keeps its
    other fields; no other record is touched, and MANUAL_UPDATE is
    logged. *)
Theorem manual_update_rewrites_the_offered_record (service : Service)
    (current_user : string) (idx : nat) (w : World) (slide : Slide)
    (details : Details) :
  my_slides current_user (merge_shared_state w) !! idx = Some slide →
  get_presentation_details service (presentation_id slide) = Some details →
  let w' := (manual_update_click now (Some service) current_user idx w).2 in
  ∃ i,
    slides (shared_data (merge_shared_state w)) !! i = Some slide
    ∧ slides (shared_data w')
      = <[i := {| title := Some (det_title details);
                  presentation_id := presentation_id slide;
                  presentation_link := presentation_link slide;
                  description := description slide;
                  uploader := uploader slide;
                  upload_date := upload_date slide;
                  slide_count := Some (det_slide_count details);
                  last_modified := Some (now (ticks w));
                  status := status slide |}]>
          (slides (shared_data (merge_shared_state w)))
    ∧ activities (shared_data w')
      = activities (shared_data (merge_shared_state w))
          ++ [{| timestamp := now (S (ticks w)); user := current_user;
                 action := "MANUAL_UPDATE";
                 details := "Updated '" +:+ det_title details +:+ "'" |}].
Proof.
  intros Hm Hd. cbv zeta.
  unfold manual_update_click, refresh_shared_state. cbn [snd].
  rewrite Hm.
  destruct (index_of_nth_lookup current_user _ _ _ Hm) as (i & -> & Hi).
  rewrite Hd. cbn [snd]. exists i. split; [done|]. simpl.
  by rewrite merge_shared_state_ticks.
Qed.

Lemma merge_shared_state_users_again w :
  users (shared_data (merge_shared_state (merge_shared_state w)))
  = users (shared_data (merge_shared_state w)).
Proof.
  rewrite (merge_shared_state_users (merge_shared_state w)).
  unfold disk_users, merge_shared_state.
  destruct (load_shared_state w) as [fd|] eqn:Hl.
  2:{ rewrite Hl. by rewrite (right_id_L ∅ (∪)). }
  destruct (dict_truthy fd) eqn:Ht.
  2:{ rewrite Hl. destruct fd as [[fu|] fs fa fe]; simpl.
      - by destruct fs, fa, fe.
      - by rewrite (right_id_L ∅ (∪)). }
  assert (Hpath : db_file w = Parsed fd).
  { unfold load_shared_state in Hl. by destruct (db_file w); simplify_eq/=. }
  unfold load_shared_state. simpl.
  destruct (db_writable w); simpl.
  - apply (idemp_L (∪)).
  - destruct (db_truncates w); simpl; [by rewrite (right_id_L ∅ (∪))|].
    rewrite Hpath. simpl.
    destruct fd as [[fu|] fs fa fe]; unfold merge_into; simpl.
    + assert (E : users (match fa with
                         | Some fa0 => set_activities (merge_activities fa0)
                             match fs with
                             | Some fs0 => set_slides (merge_slides fs0)
                                 (set_users (merge_users fu) (shared_data w))
                             | None => set_users (merge_users fu) (shared_data w)
                             end
                         | None =>
                             match fs with
                             | Some fs0 => set_slides (merge_slides fs0)
                                 (set_users (merge_users fu) (shared_data w))
                             | None => set_users (merge_users fu) (shared_data w)
                             end
                         end) = users (shared_data w) ∪ fu).
      { destruct fa, fs; simpl; apply merge_users_union. }
      rewrite E. by rewrite <- (assoc_L (∪)), (idemp_L (∪)).
    + by rewrite (right_id_L ∅ (∪)).
Qed.

(** X12: a role change from the Admin panel cannot take admin away from the
    user who performs it, and changes no stored record but the target's.
    When every stored user has a role, the target, if it is another user,
    turns from admin into member and from anything else into admin, with
    password hash and last login kept.  When some stored user has no role,
    the panel raises KeyError before it draws a button and the state is the
    refreshed one. *)
Theorem role_change_spares_the_acting_admin (current_user username : string)
    (w : World) :
  (check_admin_access true current_user w).1 = true →
  let w1 := merge_shared_state (merge_shared_state w) in
  let w' := (role_change_click now current_user username w).2 in
  (check_admin_access true current_user w').1 = true
  ∧ (∀ v, v ≠ username →
          users (shared_data w') !! v
          = users (shared_data (merge_shared_state w)) !! v)
  ∧ (∀ data,
       (∀ v u, users (shared_data w1) !! v = Some u → is_Some (role u)) →
       username ≠ current_user →
       users (shared_data (merge_shared_state w)) !! username = Some data →
       (role_change_click now current_user username w).1
       = inr [st_success (username +:+ " is now " +:+ toggled_role data
                            +:+ "!")]
       ∧ users (shared_data w') !! username
         = Some {| password := password data;
                   role := Some (if decide (Py.get (role data) "member"
                                            = "admin")
                                 then "member" else "admin");
                   last_login := last_login data |})
  ∧ (∀ v u,
       users (shared_data w1) !! v = Some u → role u = None →
       role_change_click now current_user username w
       = (inl (KeyError "role"), w1)).
Proof.
  intros Hadm. cbv zeta.
  assert (H2 : users (shared_data (merge_shared_state (merge_shared_state w)))
               = users (shared_data (merge_shared_state w)))
    by apply merge_shared_state_users_again.
  assert (H3 : users (shared_data (merge_shared_state
                 (merge_shared_state (merge_shared_state w))))
               = users (shared_data (merge_shared_state w))).
  { by rewrite merge_shared_state_users_again, merge_shared_state_users_again. }
  assert (Hkeep : ∀ v, v ≠ username →
            users (shared_data (role_change_click now current_user username w).2)
              !! v = users (shared_data (merge_shared_state w)) !! v).
  { intros v NE. unfold role_change_click.
    rewrite (surjective_pairing (check_admin_access true current_user w)).
    rewrite check_admin_access_world, Hadm.
    unfold refresh_shared_state. cbn [snd].
    destruct (admin_count _); [cbn [snd]; by rewrite H2|].
    destruct (users _ !! username) as [data|]; [|cbn [snd]; by rewrite H3].
    destruct (decide _); [|cbn [snd]; by rewrite H3]. simpl.
    by rewrite lookup_insert_ne, H3. }
  assert (Hself : users (shared_data
                    (role_change_click now current_user username w).2)
                    !! current_user
                  = users (shared_data (merge_shared_state w)) !! current_user).
  { destruct (decide (current_user = username)) as [<-|NE];
      [|by apply Hkeep].
    unfold role_change_click.
    rewrite (surjective_pairing (check_admin_access true current_user w)).
    rewrite check_admin_access_world, Hadm.
    unfold refresh_shared_state. cbn [snd].
    destruct (admin_count _); [cbn [snd]; by rewrite H2|].
    destruct (users (shared_data (merge_shared_state (merge_shared_state
                (merge_shared_state w)))) !! current_user) as [data|];
      [|cbn [snd]; by rewrite H3].
    rewrite decide_False by (intros Hn; by apply Hn). cbn [snd]. by rewrite H3. }
  split; [|split; [done|split]].
  - apply check_admin_access_role in Hadm as (u & Hu & Hr).
    apply check_admin_access_role. exists u. split; [|done].
    rewrite merge_shared_state_users. apply lookup_union_Some_raw. left.
    by rewrite Hself.
  - intros data Hroles NE Hdata. unfold role_change_click.
    rewrite (surjective_pairing (check_admin_access true current_user w)).
    rewrite check_admin_access_world, Hadm.
    unfold refresh_shared_state. cbn [snd].
    destruct (admin_count_ok _ Hroles) as [n ->].
    rewrite H3, Hdata. rewrite decide_True by done. simpl.
    by rewrite lookup_insert_eq.
  - intros v u Hu Hr. unfold role_change_click.
    rewrite (surjective_pairing (check_admin_access true current_user w)).
    rewrite check_admin_access_world, Hadm.
    unfold refresh_shared_state. cbn [snd].
    by rewrite (admin_count_raises _ _ _ Hu Hr).
Qed.

End Upload.

Lemma upload_by_stranger_is_refused_witness :
  (upload_submit Sample.clock Demo.any_service "bob" "X" "mine now"
     Sample.team).1
  = [st_warning "Already in dashboard!";
     st_error "You can only update your own presentations"].
Proof.
  refine (proj1 (upload_by_stranger_is_refused Sample.clock Demo.any_service
                   "bob" "X" "mine now" Sample.team Demo.fetched
                   Sample.X_alice _ eq_refl _ _ eq_refl _ _)).
  - discriminate.
  - apply NoDup_cons_2; [|apply NoDup_singleton].
    intros H. apply list_elem_of_singleton in H. discriminate H.
  - apply list_elem_of_here.
  - discriminate.
  - intros u Hu. vm_compute in Hu. injection Hu as <-. discriminate.
Defined.

Lemma upload_outcomes_witness :
  slides (shared_data
    (upload_submit Sample.clock Demo.any_service "bob" "N" "new deck"
       Sample.team).2)
  = [Sample.X_alice; Sample.Y_bob;
     {| title := Some "Fetched deck"; presentation_id := "N";
        presentation_link :=
          Some "https://docs.google.com/presentation/d/N/edit";
        description := Some "new deck"; uploader := "bob";
        upload_date := Some (Sample.clock 0); slide_count := Some 3;
        last_modified := Some (Sample.clock 1); status := Some "active" |}]
  ∧ ∃ i, slides (shared_data Sample.team) !! i = Some Sample.Y_bob
         ∧ uploader <$> slides (shared_data
             (upload_submit Sample.clock Demo.any_service "bob" "Y" "again"
                Sample.team).2) !! i = Some "bob".
Proof.
  split.
  - refine (proj1 (proj1 (upload_outcomes Sample.clock Demo.any_service
                     "bob" "N" "new deck" Sample.team Demo.fetched
                     _ eq_refl) _)).
    + discriminate.
    + intros H.
      repeat (apply elem_of_cons in H as [H|H]; [discriminate H|]).
      by apply elem_of_nil in H.
  - destruct (proj2 (upload_outcomes Sample.clock Demo.any_service
                       "bob" "Y" "again" Sample.team Demo.fetched
                       ltac:(discriminate) eq_refl) Sample.Y_bob)
      as (i & Hi & Hi' & _).
    + apply NoDup_cons_2; [|apply NoDup_singleton].
      intros H. apply list_elem_of_singleton in H. discriminate H.
    + apply list_elem_of_further, list_elem_of_here.
    + reflexivity.
    + reflexivity.
    + exists i. split; [exact Hi|]. by rewrite Hi'.
Defined.

Lemma manual_update_rewrites_the_offered_record_witness :
  ∃ i,
    slides (shared_data (merge_shared_state Sample.team)) !! i
    = Some Sample.Y_bob
    ∧ slides (shared_data
        (manual_update_click Sample.clock (Some Demo.any_service) "bob" 0
           Sample.team).2)
      = <[i := {| title := Some "Fetched deck";
                  presentation_id := "Y";
                  presentation_link := None;
                  description := None;
                  uploader := "bob";
                  upload_date := Some "2024-01-06 10:00:00";
                  slide_count := Some 3;
                  last_modified := Some (Sample.clock 0);
                  status := Some "active" |}]>
          (slides (shared_data (merge_shared_state Sample.team))).
Proof.
  destruct (manual_update_rewrites_the_offered_record Sample.clock
              Demo.any_service "bob" 0 Sample.team Sample.Y_bob Demo.fetched
              eq_refl eq_refl) as (i & Hi & Hs & _).
  exists i. split; [exact Hi|exact Hs].
Defined.

Lemma role_change_spares_the_acting_admin_witness :
  (check_admin_access true "root"
     (role_change_click Sample.clock "root" "bob" Sample.team).2).1 = true
  ∧ users (shared_data
             (role_change_click Sample.clock "root" "bob" Sample.team).2)
      !! "bob" = Some (Sample.admin "h1")
  ∧ role_change_click Sample.clock "root" "bob" Sample.no_role
    = (inl (KeyError "role"), Sample.no_role).
Proof.
  destruct (role_change_spares_the_acting_admin Sample.clock "root" "bob"
              Sample.team eq_refl) as (Hself & _ & Hrole & _).
  destruct (role_change_spares_the_acting_admin Sample.clock "root" "bob"
              Sample.no_role eq_refl) as (_ & _ & _ & Hraise).
  split; [exact Hself|]. split.
  - refine (proj2 (Hrole (Sample.member "h1") Sample_team_roles _ eq_refl)).
    discriminate.
  - exact (Hraise "dave" Sample.guest eq_refl eq_refl).
Defined.

(** ** The dashboard *)

Section DashboardFacts.

Import Dashboard.

Implicit Types (l : list Slide) (s : Slide).

Lemma sum_cons (z : Z) (zs : list Z) : Py.sum (z :: zs) = z + Py.sum zs.
Proof.
  unfold Py.sum. cbn [foldl]. rewrite foldl_add_shift. lia.
Qed.

(** A quantity added up owner by owner gives the quantity added up over the
    whole list, provided every owner is listed once. *)
Lemma sum_by_owner (g : Slide → Z) (names : list string) l :
  NoDup names → (∀ s, s ∈ l → uploader s ∈ names) →
  Py.sum ((λ name, Py.sum (g <$> filter (λ s, uploader s = name) l))
            <$> names)
  = Py.sum (g <$> l).
Proof.
  intros Hnd. induction l as [|x l IH]; intros Hall.
  - simpl. clear. induction names as [|n names IH]; [done|].
    rewrite fmap_cons, sum_cons, IH. done.
  - rewrite fmap_cons, sum_cons, <- IH by (intros s Hs; apply Hall; by right).
    assert (Hx : uploader x ∈ names) by (apply Hall; by left).
    clear IH Hall. induction Hnd as [|n names Hn Hnd IH].
    + by apply elem_of_nil in Hx.
    + rewrite !fmap_cons, !sum_cons, filter_cons.
      destruct (decide (uploader x = n)) as [E|NE].
      * rewrite fmap_cons, sum_cons.
        assert (Hrest : Py.sum ((λ name, Py.sum (g <$> filter
                            (λ s, uploader s = name) (x :: l))) <$> names)
                        = Py.sum ((λ name, Py.sum (g <$> filter
                            (λ s, uploader s = name) l)) <$> names)).
        { f_equal. apply list_fmap_ext. intros i m Hm.
          apply list_elem_of_lookup_2 in Hm.
          rewrite filter_cons_False; [done|]. intros E'. congruence. }
        rewrite Hrest. lia.
      * apply elem_of_cons in Hx as [Hx|Hx]; [congruence|].
        rewrite (IH Hx). lia.
Qed.

Lemma uploader_list_complete l s : s ∈ l → uploader s ∈ Report.uploader_list l.
Proof.
  intros Hs. unfold Report.uploader_list.
  apply elem_of_elements, elem_of_list_to_set. by apply list_elem_of_fmap_2.
Qed.

Lemma sum_ones l : Py.sum ((λ _, 1) <$> l) = Z.of_nat (length l).
Proof.
  induction l as [|x l IH]; [done|].
  rewrite fmap_cons, sum_cons, IH. simpl. lia.
Qed.

(** X13: the Team Contributions lines add up.  Every uploader has exactly
    one line, the presentation counts of the lines sum to the number of
    presentations, and their slide counts sum to the Total Slides figure of
    the dashboard. *)
Theorem contributions_add_up (l : list Slide) :
  NoDup ((λ c, c.1.1) <$> contributions l)
  ∧ (∀ s, s ∈ l → uploader s ∈ (λ c, c.1.1) <$> contributions l)
  ∧ Py.sum ((λ c, Z.of_nat c.1.2) <$> contributions l) = Z.of_nat (length l)
  ∧ Py.sum ((λ c, c.2) <$> contributions l) = Report.slide_total l.
Proof.
  unfold contributions. rewrite <- !list_fmap_compose.
  assert (Hn : (λ c : string * nat * Z, c.1.1) ∘ contribution l = id)
    by done.
  rewrite Hn, list_fmap_id.
  pose proof (NoDup_elements (list_to_set (uploader <$> l) : gset string))
    as Hnd.
  split; [done|]. split; [apply uploader_list_complete|]. split.
  - rewrite <- sum_ones, <- (sum_by_owner (λ _, 1) (Report.uploader_list l) l)
      by (done || apply uploader_list_complete).
    f_equal. apply list_fmap_ext. intros i name Hi. simpl.
    by rewrite sum_ones.
  - unfold Report.slide_total.
    by rewrite <- (sum_by_owner (λ s, Py.get (slide_count s) 0)
                     (Report.uploader_list l) l)
      by (done || apply uploader_list_complete).
Qed.

End DashboardFacts.

Section Sorting.

Import Dashboard.

Implicit Types (l : list Slide) (s x y : Slide) (a b c : string).

Lemma ascii_compare_lt_trans (p q r : ascii) :
  Ascii.compare p q = Lt → Ascii.compare q r = Lt → Ascii.compare p r = Lt.
Proof.
  unfold Ascii.compare. rewrite !N.compare_lt_iff. lia.
Qed.

Lemma string_compare_lt_trans a : ∀ b c,
  String.compare a b = Lt → String.compare b c = Lt →
  String.compare a c = Lt.
Proof.
  induction a as [|p a IH]; intros [|q b] [|r c]; simpl; try done.
  destruct (Ascii.compare p q) eqn:Hpq; try done;
    destruct (Ascii.compare q r) eqn:Hqr; try done; intros Hab Hbc.
  - apply Ascii.compare_eq_iff in Hpq as ->.
    apply Ascii.compare_eq_iff in Hqr as ->.
    unfold Ascii.compare at 1. rewrite N.compare_refl. by apply (IH b c).
  - apply Ascii.compare_eq_iff in Hpq as ->. by rewrite Hqr.
  - apply Ascii.compare_eq_iff in Hqr as <-. by rewrite Hpq.
  - by rewrite (ascii_compare_lt_trans _ _ _ Hpq Hqr).
Qed.

Lemma str_gt_trans a b c :
  Py.str_gt a b = true → Py.str_gt b c = true → Py.str_gt a c = true.
Proof.
  unfold Py.str_gt, String.ltb. intros Hab Hbc.
  destruct (String.compare b a) eqn:E1; try done.
  destruct (String.compare c b) eqn:E2; try done.
  by rewrite (string_compare_lt_trans _ _ _ E2 E1).
Qed.

Lemma str_gt_asym a b : Py.str_gt a b = true → Py.str_gt b a = false.
Proof.
  unfold Py.str_gt, String.ltb. rewrite (String.compare_antisym a b).
  by destruct (String.compare b a).
Qed.

(** Of two strings neither of which is greater, none separates them. *)
Lemma str_gt_between a b c :
  Py.str_gt c a = true → Py.str_gt b a = false → Py.str_gt c b = true.
Proof.
  unfold Py.str_gt, String.ltb. intros Hca Hba.
  destruct (String.compare a c) eqn:E1; try done.
  destruct (String.compare b c) eqn:E3; [| done |].
  - apply String.compare_eq_iff in E3 as ->. by rewrite E1 in Hba.
  - exfalso. rewrite String.compare_antisym in E3.
    destruct (String.compare c b) eqn:E4; try done.
    by rewrite (string_compare_lt_trans _ _ _ E1 E4) in Hba.
Qed.

Lemma insert_by_date_perm x l : insert_by_date x l ≡ₚ x :: l.
Proof.
  induction l as [|y l IH]; [done|]. simpl.
  destruct (Py.str_gt _ _); [|done].
  rewrite IH. apply Permutation_swap.
Qed.

Lemma sorted_slides_perm l : sorted_slides l ≡ₚ l.
Proof.
  induction l as [|x l IH]; [done|].
  unfold sorted_slides in *. simpl. by rewrite insert_by_date_perm, IH.
Qed.

Lemma insert_by_date_head x l :
  head (insert_by_date x l)
  = match head l with
    | Some y => if Py.str_gt (sort_key y) (sort_key x) then Some y else Some x
    | None => Some x
    end.
Proof. destruct l as [|y l]; [done|]. simpl. by destruct (Py.str_gt _ _). Qed.

Lemma insert_by_date_sorted x l :
  Sorted by_date_desc l → Sorted by_date_desc (insert_by_date x l).
Proof.
  induction 1 as [|y l Hs IH Hhd]; simpl.
  - by repeat constructor.
  - destruct (Py.str_gt (sort_key y) (sort_key x)) eqn:Hgt.
    + constructor; [done|].
      pose proof (insert_by_date_head x l) as Hh.
      destruct (insert_by_date x l) as [|z r]; [constructor|].
      constructor. simpl in Hh. unfold by_date_desc.
      destruct l as [|y' l']; simpl in Hh.
      * injection Hh as ->. by apply str_gt_asym.
      * inversion Hhd as [|? ? Hyy']; subst.
        destruct (Py.str_gt (sort_key y') (sort_key x));
          injection Hh as ->; [done|by apply str_gt_asym].
    + constructor; [by constructor|]. by constructor.
Qed.

Lemma sorted_slides_sorted l : Sorted by_date_desc (sorted_slides l).
Proof.
  induction l as [|x l IH]; [constructor|].
  unfold sorted_slides in *. simpl. by apply insert_by_date_sorted.
Qed.

Lemma latest_slide_max l h :
  latest_slide l = Some h →
  ∀ s, s ∈ l → Py.str_gt (sort_key s) (sort_key h) = false.
Proof.
  unfold latest_slide, sorted_slides. revert h.
  induction l as [|x l IH]; intros h Hh s Hs; [by apply elem_of_nil in Hs|].
  simpl in Hh. rewrite insert_by_date_head in Hh.
  destruct (head (foldr insert_by_date [] l)) as [y|] eqn:Hy.
  - destruct (Py.str_gt (sort_key y) (sort_key x)) eqn:Hgt;
      injection Hh as <-.
    + apply elem_of_cons in Hs as [->|Hs]; [by apply str_gt_asym|].
      by apply (IH y).
    + apply elem_of_cons in Hs as [->|Hs]; [apply str_gt_irrefl|].
      destruct (Py.str_gt (sort_key s) (sort_key x)) eqn:Hsx; [|done].
      rewrite <- (IH y eq_refl s Hs). symmetry.
      by apply (str_gt_between (sort_key x)).
  - injection Hh as <-.
    apply elem_of_cons in Hs as [->|Hs]; [apply str_gt_irrefl|].
    destruct l as [|z l]; [by apply elem_of_nil in Hs|].
    simpl in Hy. rewrite insert_by_date_head in Hy.
    by destruct (head _) as [?|]; [destruct (Py.str_gt _ _)|].
Qed.

(** X14: the list of the Team Presentations section holds the same records
    as the store, ordered so that no record is followed by one with a later
    upload date; the presentation shown when none is selected is its first
    entry, which no record of the store postdates, and it exists as soon as
    the store is not empty. *)
Theorem dashboard_shows_latest_first (l : list Slide) :
  sorted_slides l ≡ₚ l
  ∧ Sorted (λ x y, Py.str_gt (Py.get (upload_date y) EmptyString)
                     (Py.get (upload_date x) EmptyString) = false)
      (sorted_slides l)
  ∧ (l ≠ [] → is_Some (latest_slide l))
  ∧ (∀ shown, latest_slide l = Some shown →
       shown ∈ l
       ∧ ∀ s, s ∈ l →
           Py.str_gt (Py.get (upload_date s) EmptyString)
                     (Py.get (upload_date shown) EmptyString) = false).
Proof.
  split; [apply sorted_slides_perm|]. split; [apply sorted_slides_sorted|].
  split.
  - intros Hne. unfold latest_slide.
    destruct (sorted_slides l) as [|h t] eqn:Hs; [|by eexists].
    pose proof (sorted_slides_perm l) as Hp. rewrite Hs in Hp.
    by apply Permutation_nil_l in Hp.
  - intros shown Hshown. split; [|by apply latest_slide_max].
    rewrite <- (sorted_slides_perm l). unfold latest_slide in Hshown.
    destruct (sorted_slides l) as [|h t]; [done|].
    injection Hshown as ->. by left.
Qed.

End Sorting.

(** ** The text-only PDF, call by call *)

Section TextPdfLayout.

Import TextPdf.

Implicit Types (l : list Slide) (ops : list Op).

Lemma boxes_app ops1 ops2 : boxes (ops1 ++ ops2) = boxes ops1 ++ boxes ops2.
Proof. unfold boxes. apply omap_app. Qed.

Lemma page_ends_app ops1 ops2 :
  page_ends (ops1 ++ ops2) = (page_ends ops1 + page_ends ops2)%nat.
Proof. unfold page_ends. by rewrite filter_app, length_app. Qed.

Lemma slide_boxes_on_page slide_title n : ∀ y_pos i,
  y_pos ≤ 692 →
  length (boxes (slide_boxes slide_title y_pos i n)) = n
  ∧ Forall (λ y, 40 ≤ y ≤ 632) (boxes (slide_boxes slide_title y_pos i n)).
Proof.
  induction n as [|n IH]; intros y_pos i Hy; [by split|].
  cbn [slide_boxes]. unfold height.
  destruct (y_pos <? 100) eqn:Hlt.
  - destruct (IH (792 - 100 - 80) (S i) ltac:(lia)) as [IH1 IH2].
    rewrite !boxes_app. simpl. split; [by rewrite IH1|].
    constructor; [lia|done].
  - apply Z.ltb_ge in Hlt.
    destruct (IH (y_pos - 80) (S i) ltac:(lia)) as [IH1 IH2].
    rewrite !boxes_app. simpl. split; [by rewrite IH1|].
    constructor; [lia|done].
Qed.

Lemma slide_boxes_page_ends slide_title n : ∀ y_pos i,
  y_pos ≤ 692 →
  Z.of_nat (page_ends (slide_boxes slide_title y_pos i n))
  = let fit := if y_pos <? 100 then 0 else (y_pos - 100) / 80 + 1 in
    if Z.of_nat n <=? fit then 0 else 1 + (Z.of_nat n - fit - 1) / 8.
Proof.
  induction n as [|n IH]; intros y_pos i Hy.
  - cbv zeta. change (Z.of_nat (page_ends _)) with 0.
    change (Z.of_nat 0) with 0.
    destruct (Z.ltb_spec y_pos 100); [done|].
    destruct (Z.leb_spec 0 ((y_pos - 100) / 80 + 1)); [done|].
    Z.div_mod_to_equations. lia.
  - cbn [slide_boxes]. unfold height. cbv zeta.
    assert (Hbox : ∀ a b c d, page_ends [rect 100 a 400 60;
              setFont "Helvetica" 10; drawString 110 b c;
              drawString 110 d
                "[Slide image would appear here with proper permissions]"]
              = 0%nat) by done.
    destruct (Z.ltb_spec y_pos 100) as [Hlt|Hge].
    + rewrite !page_ends_app, Hbox.
      specialize (IH (792 - 100 - 80) (S i) ltac:(lia)). cbv zeta in IH.
      change (792 - 100 - 80 <? 100) with false in IH.
      change ((792 - 100 - 80 - 100) / 80 + 1) with 7 in IH.
      change (page_ends [showPage; setFont "Helvetica" 10]) with 1%nat.
      rewrite !Nat2Z.inj_add, IH. clear IH Hbox.
      destruct (Z.leb_spec (Z.of_nat n) 7);
        destruct (Z.leb_spec (Z.of_nat (S n)) 0);
        Z.div_mod_to_equations; lia.
    + rewrite !page_ends_app, Hbox.
      specialize (IH (y_pos - 80) (S i) ltac:(lia)). cbv zeta in IH.
      change (page_ends []) with 0%nat.
      rewrite !Nat2Z.inj_add, IH. clear IH Hbox.
      destruct (Z.ltb_spec (y_pos - 80) 100);
        [destruct (Z.leb_spec (Z.of_nat n) 0)
        |destruct (Z.leb_spec (Z.of_nat n) ((y_pos - 80 - 100) / 80 + 1))];
        destruct (Z.leb_spec (Z.of_nat (S n)) ((y_pos - 100) / 80 + 1));
        Z.div_mod_to_equations; lia.
Qed.

Lemma slide_boxes_extra_pages slide_title (c : Z) :
  page_ends (slide_boxes slide_title (height - 220) 0 (Z.to_nat c))
  = extra_pages c.
Proof.
  apply Nat2Z.inj.
  rewrite slide_boxes_page_ends by (unfold height; lia). cbv zeta.
  unfold height, extra_pages.
  change (792 - 220 <? 100) with false.
  change ((792 - 220 - 100) / 80 + 1) with 6.
  destruct (c <=? 6) eqn:Hc.
  - apply Z.leb_le in Hc. rewrite (proj2 (Z.leb_le _ _)) by lia. done.
  - apply Z.leb_gt in Hc. rewrite (proj2 (Z.leb_gt _ _)) by lia.
    rewrite !Z2Nat.id.
    + f_equal. f_equal. lia.
    + assert (0 ≤ (c - 7) / 8) by (apply Z.div_pos; lia). lia.
    + lia.
Qed.

Lemma presentation_ops_boxes total slide_idx (slide : Slide) :
  length (boxes (presentation_ops total slide_idx slide))
  = Z.to_nat (Py.get (slide_count slide) 0)
  ∧ Forall (λ y, 40 ≤ y ≤ 632) (boxes (presentation_ops total slide_idx slide)).
Proof.
  unfold presentation_ops. rewrite !boxes_app.
  destruct (slide_boxes_on_page (Py.get (title slide) "Untitled")
              (Z.to_nat (Py.get (slide_count slide) 0)) (height - 220) 0%nat)
    as [H1 H2]; [unfold height; lia|].
  assert (Hd : boxes match description slide with
                     | Some text =>
                         if decide (text = EmptyString) then []
                         else [drawString 100 (height - 190)
                                 ("Description: "
                                    +:+ String.substring 0 100 text)]
                     | None => []
                     end = []).
  { destruct (description slide) as [text|]; [|done].
    by destruct (decide _). }
  assert (Hl : boxes (if decide (S slide_idx < total)%nat
                      then [showPage] else []) = [])
    by by destruct (decide _).
  rewrite Hd, Hl, app_nil_r. simpl. by split.
Qed.

Lemma presentation_ops_page_ends total slide_idx (slide : Slide) :
  page_ends (presentation_ops total slide_idx slide)
  = (extra_pages (Py.get (slide_count slide) 0%Z)
     + if decide (S slide_idx < total)%nat then 1 else 0)%nat.
Proof.
  unfold presentation_ops. rewrite !page_ends_app.
  rewrite slide_boxes_extra_pages.
  assert (Hd : page_ends match description slide with
                     | Some text =>
                         if decide (text = EmptyString) then []
                         else [drawString 100 (height - 190)
                                 ("Description: "
                                    +:+ String.substring 0 100 text)]
                     | None => []
                     end = 0%nat).
  { destruct (description slide) as [text|]; [|done].
    by destruct (decide _). }
  rewrite Hd. by destruct (decide _).
Qed.

Lemma concat_presentations total l : ∀ k,
  (k + length l ≤ total)%nat →
  length (boxes (concat (imap (λ j, presentation_ops total (k + j)) l)))
  = sum_list ((λ s, Z.to_nat (Py.get (slide_count s) 0)) <$> l)
  ∧ Forall (λ y, 40 ≤ y ≤ 632)
      (boxes (concat (imap (λ j, presentation_ops total (k + j)) l)))
  ∧ page_ends (concat (imap (λ j, presentation_ops total (k + j)) l))
    = (sum_list ((λ s, extra_pages (Py.get (slide_count s) 0%Z)) <$> l)
       + (length l - (if decide (k + length l = total)%nat then 1 else 0)))%nat.
Proof.
  induction l as [|s l IH]; intros k Hk.
  - simpl. split; [done|]. split; [constructor|done].
  - rewrite imap_cons. cbn [concat].
    rewrite boxes_app, page_ends_app, length_app, Nat.add_0_r.
    destruct (presentation_ops_boxes total k s) as [Hb1 Hb2].
    rewrite Hb1, presentation_ops_page_ends.
    assert (Hext : imap ((λ j, presentation_ops total (k + j)) ∘ S) l
                   = imap (λ j, presentation_ops total (S k + j)) l).
    { apply imap_ext. intros j x _. simpl. f_equal. lia. }
    rewrite Hext. simpl in Hk.
    destruct (IH (S k) ltac:(lia)) as (IH1 & IH2 & IH3).
    rewrite IH1, IH3. rewrite !fmap_cons. simpl.
    split; [done|]. split; [by apply Forall_app|].
    repeat case_decide; lia.
Qed.

(** X15: in the text-only PDF every slide gets one placeholder box, and every
    box lies on the page: its lower edge is between 40 and 632 points, so
    with its height of 60 it ends below the top margin and above the bottom
    edge. *)
Theorem text_pdf_boxes_stay_on_page (generated : string) (l : list Slide) :
  length (boxes (simple_pdf_ops generated l))
  = sum_list ((λ s, Z.to_nat (Py.get (slide_count s) 0)) <$> l)
  ∧ Forall (λ y, 0 < y ∧ y + 60 < height) (boxes (simple_pdf_ops generated l)).
Proof.
  unfold simple_pdf_ops, Report.simple_pdf_stats. rewrite boxes_app.
  destruct (concat_presentations (length l) l 0%nat ltac:(lia)) as (H1 & H2 & _).
  simpl. split; [exact H1|].
  eapply Forall_impl; [exact H2|]. unfold height. intros y Hy. simpl in Hy. lia.
Qed.

(** X16: the number of showPage calls of the text-only builder.  The title
    page is ended once; each presentation but the last is ended after its
    boxes; and inside a presentation of c slides the box loop ends a page
    after the first six boxes and after every further eight (none for
    c <= 6, else 1 + (c - 7) / 8).  For an empty list the title page is the
    only page ended. *)
Theorem text_pdf_page_count (generated : string) (l : list Slide) :
  page_ends (simple_pdf_ops generated l)
  = (1 + (length l - 1)
     + sum_list ((λ s, extra_pages (Py.get (slide_count s) 0%Z)) <$> l))%nat.
Proof.
  unfold simple_pdf_ops, Report.simple_pdf_stats. rewrite page_ends_app.
  destruct (concat_presentations (length l) l 0%nat ltac:(lia)) as (_ & _ & H3).
  assert (H3' : page_ends (concat (imap (presentation_ops (length l)) l))
                = (sum_list ((λ s, extra_pages (Py.get (slide_count s) 0%Z))
                               <$> l) + (length l - 1))%nat).
  { etrans; [exact H3|]. by rewrite decide_True. }
  rewrite H3'. change (page_ends _) with 1%nat at 1. lia.
Qed.

End TextPdfLayout.

(** ** Temporary files of the PDF builders *)

Section TempFiles.

Import Report.

(** X17: what a PDF build leaves in the temporary directory, for every list
    and every directory whose next name is unused.  A build that returns a
    document leaves the directory as it found it; a build that fails after
    creating its file (the write of the PDF raises, or the image builder
    finds no Google services) returns nothing and leaves exactly that one
    file; the image builder without credentials creates no file. *)
Theorem pdf_builders_temp_file (env : Env) (l : list Slide) (fs : FS) :
  fresh fs ∉ dom (tmp_files fs) →
  (create_simple_combined_pdf env l fs).1
  = Some (if build_ok env then Some (pdf_document false l) else None)
  ∧ tmp_files (create_simple_combined_pdf env l fs).2
    = (if build_ok env then tmp_files fs
       else <[fresh fs := None]> (tmp_files fs))
  ∧ leaked fs (create_simple_combined_pdf env l fs).2
    = (if build_ok env then ∅ else {[fresh fs]})
  ∧ (create_image_combined_pdf env l fs).1
    = Some (if google_creds env && services_up env && build_ok env
            then Some (pdf_document true l) else None)
  ∧ leaked fs (create_image_combined_pdf env l fs).2
    = (if google_creds env && negb (services_up env && build_ok env)
       then {[fresh fs]} else ∅).
Proof.
  intros Hfresh.
  assert (Hdel : delete (fresh fs) (tmp_files fs) = tmp_files fs).
  { apply delete_id. by apply not_elem_of_dom. }
  assert (Hnone : dom (tmp_files fs) ∖ dom (tmp_files fs) = ∅).
  { apply set_eq. intros x. rewrite elem_of_difference, elem_of_empty. tauto. }
  assert (Hone : ({[fresh fs]} ∪ dom (tmp_files fs)) ∖ dom (tmp_files fs)
                 = {[fresh fs]}).
  { apply set_eq. intros x.
    rewrite elem_of_difference, elem_of_union, elem_of_singleton.
    split; [tauto|]. intros ->. tauto. }
  rewrite create_simple_combined_pdf_run, create_image_combined_pdf_run.
  unfold leaked.
  destruct (build_ok env), (google_creds env), (services_up env); simpl;
    rewrite ?Hdel, ?dom_insert_L, ?Hnone, ?Hone; done.
Qed.

End TempFiles.

Lemma pdf_builders_temp_file_witness :
  Report.leaked Sample.empty_tmp
    (Report.create_image_combined_pdf Sample.env_services_down
       [Sample.A_memory; Sample.B_disk] Sample.empty_tmp).2 = {[ 0%nat ]}
  ∧ Report.tmp_files
      (Report.create_simple_combined_pdf Sample.env_ok
         [Sample.A_memory; Sample.B_disk] Sample.empty_tmp).2 = ∅.
Proof.
  split.
  - refine (proj2 (proj2 (proj2 (proj2 (pdf_builders_temp_file
             Sample.env_services_down [Sample.A_memory; Sample.B_disk]
             Sample.empty_tmp _))))).
    apply not_elem_of_empty.
  - refine (proj1 (proj2 (pdf_builders_temp_file
             Sample.env_ok [Sample.A_memory; Sample.B_disk]
             Sample.empty_tmp _))).
    apply not_elem_of_empty.
Defined.

(** ** Repeating a scan, and what a refresh does to a deletion *)

Section Settled.

Variable now : nat → string.

Implicit Types (w : World) (l : list Slide).

Lemma merge_synced w :
  db_file w = Parsed (dump (shared_data w)) →
  slides_unique (slides (shared_data w)) →
  shared_data (merge_shared_state w) = shared_data w.
Proof.
  intros Hf Hu. unfold merge_shared_state, load_shared_state.
  rewrite Hf. simpl. by apply merge_into_dump.
Qed.

Lemma db_writable_merge w :
  db_writable (merge_shared_state w) = db_writable w.
Proof.
  unfold merge_shared_state. destruct (load_shared_state w) as [fd|]; [|done].
  by destruct (dict_truthy fd).
Qed.

Lemma db_truncates_merge w :
  db_truncates (merge_shared_state w) = db_truncates w.
Proof.
  unfold merge_shared_state. destruct (load_shared_state w) as [fd|]; [|done].
  by destruct (dict_truthy fd).
Qed.

(** After a merge on a writable file, a further merge changes nothing. *)
Lemma merge_settles_writable w :
  store_ok w → db_writable w = true →
  shared_data (merge_shared_state (merge_shared_state w))
  = shared_data (merge_shared_state w).
Proof.
  intros Hok Hw.
  pose proof (store_ok_merge w Hok) as [Hu _].
  unfold merge_shared_state at 2 3. unfold merge_shared_state at 1 in Hu.
  destruct (load_shared_state w) as [fd|] eqn:Hl.
  2:{ unfold merge_shared_state. by rewrite Hl. }
  destruct (dict_truthy fd) eqn:Ht.
  2:{ unfold merge_shared_state. by rewrite Hl, Ht. }
  apply merge_synced; [|done]. simpl. by rewrite Hw.
Qed.

Lemma db_writable_check_one service acc idx :
  db_writable (check_one now service acc idx).2 = db_writable acc.2.
Proof.
  destruct acc as [b w]. unfold check_one. cbn [snd].
  destruct (slides (shared_data w) !! idx); [|done].
  destruct (get_presentation_details service _); [|done].
  by destruct (decide _).
Qed.

Lemma db_writable_foldl_check_one service idxs : ∀ acc,
  db_writable (foldl (check_one now service) acc idxs).2 = db_writable acc.2.
Proof.
  induction idxs as [|i idxs IH]; intros acc; [done|].
  simpl. by rewrite IH, db_writable_check_one.
Qed.

Lemma foldl_check_one_idle service rest : ∀ pre b w,
  slides (shared_data w) = pre ++ rest →
  existsb (needs_update service) rest = false →
  foldl (check_one now service) (b, w) (seq (length pre) (length rest))
  = (b, w).
Proof.
  induction rest as [|s rest IH]; intros pre b w Hsl Hno; [done|].
  cbn [length seq foldl]. simpl in Hno.
  apply orb_false_iff in Hno as [Hs Hno].
  pose proof (check_one_step now service b w pre s rest Hsl) as Hstep.
  rewrite Hs in Hstep. rewrite Hstep.
  rewrite (cons_middle _ pre rest), app_assoc in Hsl.
  specialize (IH _ b w Hsl Hno).
  by rewrite length_app, Nat.add_1_r in IH.
Qed.

Lemma needs_update_apply_details service (s : Slide) (d : Details) stamp :
  get_presentation_details service (presentation_id s) = Some d →
  needs_update service (apply_details d stamp s) = false.
Proof.
  intros Hd. unfold needs_update. simpl. rewrite Hd. simpl.
  apply bool_decide_eq_false_2. intros H. by apply H.
Qed.

Lemma scan_settles service l : ∀ t,
  existsb (needs_update service) (scan now service t l).1.1 = false.
Proof.
  induction l as [|s l IH]; intros t; [done|].
  rewrite scan_cons. destruct (needs_update service s) eqn:Hn.
  - apply needs_update_true in Hn as (d & Hd & _). rewrite Hd. simpl.
    by rewrite (needs_update_apply_details _ _ _ _ Hd), IH.
  - simpl. by rewrite Hn, IH.
Qed.

Lemma scan_idle service l : ∀ t,
  existsb (needs_update service) l = false →
  (scan now service t l).1.1 = l ∧ (scan now service t l).1.2 = [].
Proof.
  induction l as [|s l IH]; intros t Hno; [done|]. simpl in Hno.
  apply orb_false_iff in Hno as [Hs Hno].
  rewrite scan_cons, Hs. simpl. destruct (IH t Hno) as [-> ->]. done.
Qed.

(** X18: pressing Check Updates twice.  With unique ids and a writable
    backing file, a second scan against the same remote answers finds
    nothing to update: it returns False and leaves slides and activity log
    as the first scan left them. *)
Theorem check_for_updates_twice (service : Service) (w : World) :
  store_ok w → db_writable w = true →
  let w1 := (check_for_updates now (Some service) w).2 in
  (check_for_updates now (Some service) w1).1 = false
  ∧ slides (shared_data (check_for_updates now (Some service) w1).2)
    = slides (shared_data w1)
  ∧ activities (shared_data (check_for_updates now (Some service) w1).2)
    = activities (shared_data w1).
Proof.
  intros Hok Hw. cbv zeta.
  set (w1 := (check_for_updates now (Some service) w).2).
  assert (Hok1 : store_ok w1)
    by apply (store_ok_step id now (EvCheckUpdates (Some service)) w I Hok).
  assert (Hsettled : existsb (needs_update service) (slides (shared_data w1))
                     = false).
  { unfold w1.
    rewrite (proj1 (check_for_updates_scan now service w)).
    apply scan_settles. }
  assert (Hsame : shared_data (merge_shared_state w1) = shared_data w1).
  { unfold w1, check_for_updates, refresh_shared_state. cbn [snd].
    pose proof (scan_loop now service
                  (slides (shared_data (merge_shared_state w))) []
                  false (merge_shared_state w) eq_refl)
      as (b' & wf & Hf & _ & _ & _ & Hb).
    pose proof (db_writable_foldl_check_one service
                  (seq 0 (length (slides (shared_data (merge_shared_state w)))))
                  (false, merge_shared_state w)) as Hwr.
    pose proof (store_ok_foldl_check_one now service
                  (seq 0 (length (slides (shared_data (merge_shared_state w)))))
                  (false, merge_shared_state w) (store_ok_merge w Hok)) as Hokf.
    simpl in Hf, Hb. rewrite Hf in Hwr, Hokf |- *. cbn [snd] in *.
    rewrite db_writable_merge, Hw in Hwr.
    destruct b'.
    - apply merge_synced; [|apply Hokf]. simpl. by rewrite Hwr.
    - symmetry in Hb.
      pose proof (foldl_check_one_idle service
                    (slides (shared_data (merge_shared_state w))) []
                    false (merge_shared_state w) eq_refl Hb) as Hidle.
      simpl in Hidle. rewrite Hf in Hidle. injection Hidle as ->.
      by apply merge_settles_writable. }
  destruct (check_for_updates_scan now service w1) as (Hs & Ha & Hb).
  cbv zeta in Hs, Ha, Hb. rewrite Hsame in Hs, Ha, Hb.
  destruct (scan_idle service (slides (shared_data w1)) (ticks w1) Hsettled)
    as [E1 E2].
  rewrite Hs, Ha, Hb, E1, E2, app_nil_r. done.
Qed.

Lemma pop_first_removes_id pid l l' :
  slides_unique l → pop_first pid l = Some l' → pid ∉ ids l'.
Proof.
  intros Hu Hp.
  destruct (decide (pid ∈ ids l)) as [Hin|Hnin].
  - destruct (pop_first_present pid l Hin) as (pre & s & post & -> & E & _ & Hp').
    rewrite Hp in Hp'. injection Hp' as ->.
    unfold slides_unique, ids in *. rewrite fmap_app, fmap_cons in Hu.
    apply NoDup_app in Hu as (_ & Hpre & Hpost).
    apply NoDup_cons in Hpost as [Hpost _].
    rewrite fmap_app. intros H. apply elem_of_app in H as [H|H].
    + apply (Hpre pid H). rewrite E. by left.
    + apply Hpost. by rewrite E.
  - by rewrite (pop_first_absent pid l Hnin) in Hp.
Qed.

(** X19: a deletion from My Uploads and the next refresh.  The record
    leaves the list in memory.  If the backing file can be written, the
    deletion reaches the file and a refresh does not bring the record back;
    if it cannot be opened for writing, the file still holds the record and
    the next refresh appends it to the list again; if the write fails after
    the file was opened, the file is unreadable and the record stays
    deleted. *)
Theorem deleted_record_and_refresh (current_user : string) (idx : nat)
    (w : World) (slide : Slide) :
  store_ok w →
  my_slides current_user (merge_shared_state w) !! idx = Some slide →
  let w' := (my_uploads_delete_click now current_user idx w).2 in
  (presentation_id slide ∉ ids (slides (shared_data w')))
  ∧ (db_writable w = true →
     presentation_id slide
       ∉ ids (slides (shared_data (merge_shared_state w'))))
  ∧ (db_writable w = false → db_truncates w = false →
     presentation_id slide ∈ ids (disk_slides w) →
     presentation_id slide
       ∈ ids (slides (shared_data (merge_shared_state w'))))
  ∧ (db_writable w = false → db_truncates w = true →
     presentation_id slide
       ∉ ids (slides (shared_data (merge_shared_state w')))).
Proof.
  intros Hok Hm. cbv zeta.
  pose proof (store_ok_merge w Hok) as Hok0.
  assert (Hin : presentation_id slide
                ∈ ids (slides (shared_data (merge_shared_state w)))).
  { apply list_elem_of_fmap_2. apply list_elem_of_lookup_2 in Hm.
    by apply list_elem_of_filter in Hm as [_ ?]. }
  unfold my_uploads_delete_click, refresh_shared_state. cbn [snd].
  rewrite Hm. unfold delete_handler, remove_handler.
  destruct (pop_first_present _ _ Hin) as (pre & s & post & Hl & E & Hpre & Hp).
  rewrite Hp. cbn [snd].
  pose proof (pop_first_removes_id _ _ _ (proj1 Hok0) Hp) as Hgone.
  pose proof (pop_first_unique _ _ _ (proj1 Hok0) Hp) as Hu.
  split; [exact Hgone|]. split; [|split].
  - intros Hw. rewrite merge_synced; [exact Hgone| |exact Hu].
    simpl. by rewrite db_writable_merge, Hw.
  - intros Hw Ht Hdisk. rewrite merge_shared_state_slides.
    apply merge_slides_ids_elem. right.
    assert (Hfile : db_file (merge_shared_state w) = db_file w).
    { unfold merge_shared_state.
      destruct (load_shared_state w) as [fd|]; [|done].
      destruct (dict_truthy fd); [|done]. simpl. by rewrite Hw, Ht. }
    erewrite disk_slides_same; [exact Hdisk|].
    simpl. by rewrite db_writable_merge, db_truncates_merge, Hw, Ht.
  - intros Hw Ht.
    unfold merge_shared_state at 1, load_shared_state. simpl.
    rewrite db_writable_merge, db_truncates_merge, Hw, Ht. exact Hgone.
Qed.

End Settled.

Lemma contributions_add_up_witness :
  "alice" ∈ (λ c, c.1.1)
              <$> Dashboard.contributions [Sample.X_alice; Sample.Y_bob].
Proof.
  apply (proj1 (proj2 (contributions_add_up [Sample.X_alice; Sample.Y_bob]))
           Sample.X_alice).
  constructor.
Defined.

Lemma dashboard_shows_latest_first_witness :
  Sample.Y_bob ∈ [Sample.X_alice; Sample.Y_bob]
  ∧ ∀ s, s ∈ [Sample.X_alice; Sample.Y_bob] →
      Py.str_gt (Py.get (upload_date s) EmptyString)
                (Py.get (upload_date Sample.Y_bob) EmptyString) = false.
Proof.
  exact (proj2 (proj2 (proj2 (dashboard_shows_latest_first
                                [Sample.X_alice; Sample.Y_bob])))
           Sample.Y_bob eq_refl).
Defined.

Lemma check_for_updates_twice_witness :
  (check_for_updates Sample.clock (Some Demo.any_service)
     (check_for_updates Sample.clock (Some Demo.any_service) Demo.stale).2).1
  = false.
Proof.
  refine (proj1 (check_for_updates_twice Sample.clock Demo.any_service
                   Demo.stale _ eq_refl)).
  split; [|apply NoDup_nil_2].
  apply NoDup_cons_2; [|apply NoDup_singleton].
  intros H. apply list_elem_of_singleton in H. discriminate H.
Defined.

Lemma deleted_record_and_refresh_witness :
  ("Y" ∉ ids (slides (shared_data
                (merge_shared_state
                   (my_uploads_delete_click Sample.clock "bob" 0
                      Sample.team).2))))
  ∧ "Y" ∈ ids (slides (shared_data
                 (merge_shared_state
                    (my_uploads_delete_click Sample.clock "bob" 0
                       Demo.read_only).2)))
  ∧ ("Y" ∉ ids (slides (shared_data
                  (merge_shared_state
                     (my_uploads_delete_click Sample.clock "bob" 0
                        Demo.cut_short).2)))).
Proof.
  assert (Hxy : NoDup ["X"; "Y"]).
  { apply NoDup_cons_2; [|apply NoDup_singleton].
    intros H. apply list_elem_of_singleton in H. discriminate H. }
  split; [|split].
  - refine (proj1 (proj2 (deleted_record_and_refresh Sample.clock "bob" 0
                            Sample.team Sample.Y_bob _ eq_refl)) eq_refl).
    split; [exact Hxy|apply NoDup_nil_2].
  - refine (proj1 (proj2 (proj2 (deleted_record_and_refresh Sample.clock
                                   "bob" 0 Demo.read_only Sample.Y_bob _
                                   eq_refl))) eq_refl eq_refl _).
    + split; exact Hxy.
    + apply list_elem_of_fmap_2' with Sample.Y_bob; [|done].
      right. left.
  - refine (proj2 (proj2 (proj2 (deleted_record_and_refresh Sample.clock
                                   "bob" 0 Demo.cut_short Sample.Y_bob _
                                   eq_refl))) eq_refl eq_refl).
    split; exact Hxy.
Defined.
